(** * The checkout pricing pipeline: shipping, tax, checkout routes

  A shallow embedding of the JavaScript services
  [services/tax-calculator.js], [services/shipping-calculator.js],
  [utils/email.js] and of the routes of [routes/checkout.js], followed by
  the properties of the pipeline.

  Conventions of the embedding.
  - A JavaScript number is modelled twice.  [TaxCalculator],
    [ShippingCalculator] and the routes compute with exact rationals ([Q],
    equality [Qeq], [==]): they carry the properties of structure, of
    order, of the tables and of the database, and where the source would
    compute with a non-number they return [None] and say so.
    [TaxCalculator64] and [ShippingCalculator64] are the same two services
    over IEEE-754 binary64 numbers ([Double], on [SpecFloat]), operation
    for operation as JavaScript evaluates them: every property about the
    cents of a tax amount or of a shipping total is stated on these.
  - A string is a [string] of 8-bit characters; [toUpperCase] maps the
    letters a-z and leaves every other character alone.
  - [undefined] is [None]; an optional parameter is an [option].
  - An object literal used as a table is an association list of its own
    properties; reading a property also sees the members every object
    literal inherits from [Object.prototype].
  - The database is a record of tables; the clock, the SMTP transport and
    the UUID generator are inputs of each request. *)

From Stdlib Require Import QArith ZArith String Ascii List Bool Lia Lqa Qround Qabs.
From stdpp Require Import gmap strings pretty.
From Stdlib Require Import Sorted Permutation SpecFloat.
Import ListNotations.

(** ** JavaScript values and built-ins used by the services *)

Module JS.

Local Open Scope Q_scope.

(** [Math.round] on an exact rational: the nearest integer, ties towards
    +infinity.  [Double.Math_round] is the operation on binary64 numbers. *)
Definition Math_round (x : Q) : Q := inject_Z (Qfloor (x + (1 # 2))).

(** [Math.max] on two numbers. *)
Definition Math_max (a b : Q) : Q := if Qle_bool a b then b else a.

(** A number is falsy exactly when it is zero. *)
Definition truthy (x : Q) : bool := negb (Qeq_bool x 0).

(** [a > b] on numbers. *)
Definition gt (a b : Q) : bool := negb (Qle_bool a b).

(** [a || b] on numbers. *)
Definition or_else (a b : Q) : Q := if truthy a then a else b.

Definition upper_ascii (c : ascii) : ascii :=
  let n := nat_of_ascii c in
  if ((97 <=? n) && (n <=? 122))%nat then ascii_of_nat (n - 32) else c.

(** [String.prototype.toUpperCase]. *)
Fixpoint toUpperCase (s : string) : string :=
  match s with
  | EmptyString => EmptyString
  | String c r => String (upper_ascii c) (toUpperCase r)
  end.

(** [s?.toUpperCase()]. *)
Definition toUpperCase_opt (s : option string) : option string :=
  option_map toUpperCase s.

(** The string a value turns into inside a template literal or when it is
    used as a property key. *)
Definition String_of (s : option string) : string :=
  match s with
  | Some x => x
  | None => "undefined"
  end.

(** [x === 'literal'] for a value that is a string or [undefined]. *)
Definition equals (x : option string) (literal : string) : bool :=
  match x with
  | Some s => String.eqb s literal
  | None => false
  end.

(** [x || null] for a value that is a string or [undefined]: the empty
    string is falsy. *)
Definition or_null (x : option string) : option string :=
  match x with
  | Some s => if String.eqb s "" then None else Some s
  | None => None
  end.

(** [Array.prototype.includes] on an array of strings. *)
Definition includes (l : list string) (x : option string) : bool :=
  match x with
  | Some s => existsb (String.eqb s) l
  | None => false
  end.

(** The property names every object literal inherits. *)
Definition Object_prototype : list string :=
  [ "constructor"; "__proto__"; "hasOwnProperty"; "isPrototypeOf";
    "propertyIsEnumerable"; "toLocaleString"; "toString"; "valueOf";
    "__defineGetter__"; "__defineSetter__"; "__lookupGetter__";
    "__lookupSetter__" ]%string.

(** The result of reading [o[k]] on an object literal: one of its own
    properties, a member inherited from [Object.prototype] (a function, or
    the prototype object itself for [__proto__]: always truthy, never a
    number), or [undefined]. *)
Inductive property (A : Type) : Type :=
| Own (a : A)
| Inherited (k : string)
| Undefined.
Arguments Own {A} a.
Arguments Inherited {A} k.
Arguments Undefined {A}.

Fixpoint own {A : Type} (o : list (string * A)) (k : string) : option A :=
  match o with
  | [] => None
  | (k', v) :: r => if String.eqb k k' then Some v else own r k
  end.

Definition get {A : Type} (o : list (string * A)) (k : string) : property A :=
  match own o k with
  | Some v => Own v
  | None =>
      if existsb (String.eqb k) Object_prototype then Inherited k
      else Undefined
  end.

(** [f.name] of an inherited member: the functions are named after their
    key, except [constructor], which is [Object]; [__proto__] is the
    prototype object and has no [name]. *)
Definition inherited_name (k : string) : option string :=
  if String.eqb k "__proto__" then None
  else if String.eqb k "constructor" then Some "Object"%string
  else Some k.

Fixpoint zeros (n : nat) : string :=
  match n with
  | O => ""%string
  | S k => ("0" ++ zeros k)%string
  end.

(** A non-negative integer in decimal, zero-padded to [w] digits. *)
Definition pad (w : nat) (n : Z) : string :=
  let s := pretty (Z.to_N n) in
  (zeros (w - String.length s) ++ s)%string.

(** [x.toFixed(2)]: the sign, then the nearest multiple of 0.01 of the
    magnitude (the larger one on a tie), with two decimals. *)
Definition toFixed2 (x : Q) : string :=
  let n := Qfloor (Qabs x * 100 + (1 # 2)) in
  ((if Qle_bool 0 x then "" else "-")
     ++ pretty (Z.to_N (n / 100)) ++ "." ++ pad 2 (n mod 100))%string.

(** [xs.sort((a, b) => key(a) - key(b))].  The sort is stable, so its
    result is the one of inserting the elements one by one, each behind the
    elements that do not compare greater. *)
Fixpoint sort_insert {A : Type} (key : A -> Q) (x : A) (sorted : list A) : list A :=
  match sorted with
  | [] => [x]
  | y :: rest =>
      if Qle_bool (key y) (key x) then y :: sort_insert key x rest
      else x :: y :: rest
  end.

Definition sort_by {A : Type} (key : A -> Q) (xs : list A) : list A :=
  fold_left (fun sorted x => sort_insert key x sorted) xs [].

(** White space and line terminators, among the characters of the model:
    TAB, LF, VT, FF, CR, the space and the no-break space. *)
Definition is_space (c : ascii) : bool :=
  let n := nat_of_ascii c in
  (((9 <=? n) && (n <=? 13)) || (n =? 32) || (n =? 160))%nat.

Fixpoint trimStart (s : string) : string :=
  match s with
  | EmptyString => EmptyString
  | String c r => if is_space c then trimStart r else s
  end.

Fixpoint trimEnd (s : string) : string :=
  match s with
  | EmptyString => EmptyString
  | String c r =>
      match trimEnd r with
      | EmptyString => if is_space c then EmptyString else String c EmptyString
      | r' => String c r'
      end
  end.

(** [String.prototype.trim]. *)
Definition trim (s : string) : string := trimEnd (trimStart s).

(** [!s?.trim()]: the value is missing, or nothing is left of it once
    trimmed. *)
Definition blank (s : option string) : bool :=
  match s with
  | Some x => String.eqb (trim x) ""
  | None => true
  end.

(** The regular expressions of the source, anchored at both ends: classes
    of characters, sequences, alternatives. *)
Inductive RegExp : Type :=
| Never
| Empty
| Class (p : ascii -> bool)
| Seq (r s : RegExp)
| Alt (r s : RegExp).

(** [r?] and [r{n}]. *)
Definition optional (r : RegExp) : RegExp := Alt r Empty.

Fixpoint times (n : nat) (r : RegExp) : RegExp :=
  match n with
  | O => Empty
  | S k => Seq r (times k r)
  end.

(** [\d], [[A-Za-z]] and a literal character. *)
Definition digit (c : ascii) : bool :=
  let n := nat_of_ascii c in ((48 <=? n) && (n <=? 57))%nat.

Definition letter (c : ascii) : bool :=
  let n := nat_of_ascii c in
  (((65 <=? n) && (n <=? 90)) || ((97 <=? n) && (n <=? 122)))%nat.

Definition literal (x : ascii) (c : ascii) : bool := Ascii.eqb c x.

Fixpoint nullable (r : RegExp) : bool :=
  match r with
  | Never => false
  | Empty => true
  | Class _ => false
  | Seq r s => nullable r && nullable s
  | Alt r s => nullable r || nullable s
  end.

(** What is left to match once [c] has been read. *)
Fixpoint derive (c : ascii) (r : RegExp) : RegExp :=
  match r with
  | Never => Never
  | Empty => Never
  | Class p => if p c then Empty else Never
  | Seq r s =>
      if nullable r then Alt (Seq (derive c r) s) (derive c s)
      else Seq (derive c r) s
  | Alt r s => Alt (derive c r) (derive c s)
  end.

Fixpoint matches (r : RegExp) (s : string) : bool :=
  match s with
  | EmptyString => nullable r
  | String c rest => matches (derive c r) rest
  end.

(** [/^r$/.test(value)]: the value is turned into a string first. *)
Definition RegExp_test (r : RegExp) (value : option string) : bool :=
  matches r (String_of value).

End JS.

(** ** IEEE-754 binary64 numbers

  The value of a JavaScript number and the arithmetic JavaScript performs
  on it: [spec_float] with a 53-bit mantissa, every operation rounded to
  the nearest value, ties to even. *)

Module Double.

Local Open Scope Z_scope.

Definition double : Type := spec_float.

Definition prec : Z := 53.
Definition emax : Z := 1024.

Definition add : double -> double -> double := SFadd prec emax.
Definition sub : double -> double -> double := SFsub prec emax.
Definition mul : double -> double -> double := SFmul prec emax.
Definition div : double -> double -> double := SFdiv prec emax.

(** An integer as a number: exact up to 2^53. *)
Definition of_Z (z : Z) : double := binary_normalize prec emax z 0 false.

(** The number a decimal literal denotes, or a decimal of a JSON body:
    the binary64 value nearest to the fraction (numerator and denominator
    below 2^53). *)
Definition of_Q (q : Q) : double := div (of_Z (Qnum q)) (of_Z (Zpos (Qden q))).

Definition zero : double := S754_zero false.

(** The exact value of a finite number. *)
Definition to_Q (x : double) : option Q :=
  match x with
  | S754_zero _ => Some 0%Q
  | S754_finite s m e =>
      let n := if s then Zneg m else Zpos m in
      Some (match e with
            | Z0 => inject_Z n
            | Zpos p => inject_Z (n * 2 ^ Zpos p)
            | Zneg p => n # (2 ^ p)
            end)
  | S754_infinity _ => None
  | S754_nan => None
  end.

(** [a === b], [a > b] and [a >= b]: false when either side is [NaN]. *)
Definition eqb (a b : double) : bool := SFeqb a b.
Definition gt (a b : double) : bool := SFltb b a.
Definition ge (a b : double) : bool := SFleb b a.

(** A number is falsy when it is a zero or [NaN]. *)
Definition truthy (x : double) : bool :=
  match x with
  | S754_zero _ => false
  | S754_nan => false
  | _ => true
  end.

(** [a || b] on numbers. *)
Definition or_else (a b : double) : double := if truthy a then a else b.

(** [Math.max] on two numbers: [NaN] when either is, and [+0] above [-0]. *)
Definition Math_max (a b : double) : double :=
  match SFcompare a b with
  | None => S754_nan
  | Some Lt => b
  | Some Gt => a
  | Some Eq =>
      match a, b with
      | S754_zero true, S754_zero _ => b
      | _, _ => a
      end
  end.

(** [Math.round]: the integer nearest to the exact value of the number,
    the larger one on a tie; [-0] for a negative number that rounds to
    zero.  Zeros, infinities, [NaN] and the numbers that are integers
    already come back as they are. *)
Definition Math_round (x : double) : double :=
  match x with
  | S754_finite s m (Zneg p) =>
      let n := if s then Zneg m else Zpos m in
      match (2 * n + 2 ^ Zpos p) / 2 ^ (Zpos p + 1) with
      | Z0 => S754_zero s
      | r => of_Z r
      end
  | _ => x
  end.

(** [x.toFixed(2)], taken on the exact value of the number (below 10^21
    in magnitude). *)
Definition toFixed2 (x : double) : string :=
  match x with
  | S754_nan => "NaN"
  | S754_infinity false => "Infinity"
  | S754_infinity true => "-Infinity"
  | _ => JS.toFixed2 (default 0%Q (to_Q x))
  end.


End Double.

(** ** services/tax-calculator.js

  The tables of the service and its methods over exact rationals: which
  amount is taxed, at which rate, under which name.  The cents of a result
  are those of [TaxCalculator64], which computes as JavaScript does. *)

Module TaxCalculator.

Import JS.
Local Open Scope string_scope.
Local Open Scope Q_scope.

(** US State Sales Tax Rates (2024) *)
Definition US_STATE_TAX_RATES : list (string * Q) :=
  [ ("AL", 0.04); ("AK", 0.00); ("AZ", 0.056); ("AR", 0.065);
    ("CA", 0.0725); ("CO", 0.029); ("CT", 0.0635); ("DE", 0.00);
    ("FL", 0.06); ("GA", 0.04); ("HI", 0.04); ("ID", 0.06);
    ("IL", 0.0625); ("IN", 0.07); ("IA", 0.06); ("KS", 0.065);
    ("KY", 0.06); ("LA", 0.0445); ("ME", 0.055); ("MD", 0.06);
    ("MA", 0.0625); ("MI", 0.06); ("MN", 0.06875); ("MS", 0.07);
    ("MO", 0.04225); ("MT", 0.00); ("NE", 0.055); ("NV", 0.0685);
    ("NH", 0.00); ("NJ", 0.06625); ("NM", 0.05125); ("NY", 0.04);
    ("NC", 0.0475); ("ND", 0.05); ("OH", 0.0575); ("OK", 0.045);
    ("OR", 0.00); ("PA", 0.06); ("RI", 0.07); ("SC", 0.06);
    ("SD", 0.045); ("TN", 0.07); ("TX", 0.0625); ("UT", 0.0485);
    ("VT", 0.06); ("VA", 0.043); ("WA", 0.065); ("WV", 0.06);
    ("WI", 0.05); ("WY", 0.04); ("DC", 0.06); ("PR", 0.105) ].

(** International VAT Rates *)
Definition INTERNATIONAL_VAT_RATES : list (string * Q) :=
  [ ("AT", 0.20); ("BE", 0.21); ("BG", 0.20); ("HR", 0.25); ("CY", 0.19);
    ("CZ", 0.21); ("DK", 0.25); ("EE", 0.20); ("FI", 0.24); ("FR", 0.20);
    ("DE", 0.19); ("GR", 0.24); ("HU", 0.27); ("IE", 0.23); ("IT", 0.22);
    ("LV", 0.21); ("LT", 0.21); ("LU", 0.17); ("MT", 0.18); ("NL", 0.21);
    ("PL", 0.23); ("PT", 0.23); ("RO", 0.19); ("SK", 0.20); ("SI", 0.22);
    ("ES", 0.21); ("SE", 0.25);
    ("GB", 0.20); ("CH", 0.077); ("NO", 0.25); ("AU", 0.10); ("NZ", 0.15);
    ("CA", 0.05); ("JP", 0.10); ("SG", 0.08); ("KR", 0.10) ].

(** Canadian Provincial Tax Rates (PST/HST) *)
Definition CANADIAN_PROVINCIAL_TAX : list (string * Q) :=
  [ ("AB", 0.00); ("BC", 0.07); ("MB", 0.07); ("NB", 0.10); ("NL", 0.10);
    ("NT", 0.00); ("NS", 0.10); ("NU", 0.00); ("ON", 0.08); ("PE", 0.10);
    ("QC", 0.09975); ("SK", 0.06); ("YT", 0.00) ].

Record CategoryInfo : Type := { taxable : bool; reducedRate : bool }.

(** Product tax categories *)
Definition TAX_CATEGORIES : list (string * CategoryInfo) :=
  [ ("apparel", {| taxable := true; reducedRate := false |});
    ("digital", {| taxable := true; reducedRate := false |});
    ("prints", {| taxable := true; reducedRate := false |});
    ("accessories", {| taxable := true; reducedRate := false |});
    ("limited", {| taxable := true; reducedRate := false |}) ].

Record TaxLine : Type := { name : string; rate : Q; amount : Q }.

Record TaxResult : Type := {
  subtotal : Q;
  shipping : Q;
  taxableAmount : Q;
  taxRate : Q;
  taxAmount : Q;
  total : Q;
  breakdown : list TaxLine;
  jurisdiction : option string
}.

(** The calculator object: [constructor(nexusStates = [])]. *)
Record TaxCalculator : Type := { nexusStates : list string }.

(** The argument object of [calculate]. *)
Record Params : Type := {
  p_subtotal : Q;
  p_country : option string;
  p_state : option string;
  p_postalCode : option string;
  p_category : option string;
  p_shipping : option Q
}.

Definition with_jurisdiction (result : TaxResult) (j : string) : TaxResult :=
  {| subtotal := subtotal result; shipping := shipping result;
     taxableAmount := taxableAmount result; taxRate := taxRate result;
     taxAmount := taxAmount result; total := total result;
     breakdown := breakdown result; jurisdiction := Some j |}.

(** [table[key] || 0] for a table of rates.  An inherited member is truthy
    and is not a number: the arithmetic that follows in the source yields
    [NaN], which the model reports as [None]. *)
Definition rate_or_0 (table : list (string * Q)) (key : string) : option Q :=
  match get table key with
  | Own r => Some (or_else r 0)
  | Inherited _ => None
  | Undefined => Some 0
  end.

Definition statesTaxingShipping : list string :=
  [ "AR"; "CT"; "DC"; "GA"; "HI"; "IN"; "KS"; "KY";
    "MI"; "MN"; "MS"; "NE"; "NJ"; "NM"; "NY"; "NC"; "ND"; "OH"; "PA"; "SD";
    "TN"; "TX"; "VT"; "WA"; "WV"; "WI" ].

(** Calculate US sales tax *)
Definition calculateUSTax (this : TaxCalculator) (result : TaxResult)
    (state postalCode : option string) (shipping : Q) : option TaxResult :=
  let stateCode := toUpperCase_opt state in
  if (0 <? length (nexusStates this))%nat
     && negb (includes (nexusStates this) stateCode)
  then Some (with_jurisdiction result (String_of stateCode ++ " - No nexus"))
  else
    match rate_or_0 US_STATE_TAX_RATES (String_of stateCode) with
    | None => None
    | Some stateTaxRate =>
        if Qeq_bool stateTaxRate 0
        then Some (with_jurisdiction result
                     (String_of stateCode ++ " - No state sales tax"))
        else
          let taxableAmount :=
            if includes statesTaxingShipping stateCode
            then subtotal result + shipping
            else subtotal result in
          let taxAmount := Math_round (taxableAmount * stateTaxRate * 100) / 100 in
          Some {| subtotal := subtotal result;
                  shipping := TaxCalculator.shipping result;
                  taxableAmount := taxableAmount;
                  taxRate := stateTaxRate;
                  taxAmount := taxAmount;
                  total := subtotal result + shipping + taxAmount;
                  breakdown :=
                    breakdown result ++
                    [ {| name := String_of stateCode ++ " State Sales Tax";
                         rate := stateTaxRate;
                         amount := taxAmount |} ];
                  jurisdiction := Some (String_of stateCode) |}
    end.

(** Calculate Canadian tax (GST + PST/HST) *)
Definition calculateCanadianTax (result : TaxResult)
    (province : option string) (shipping : Q) : option TaxResult :=
  let provinceCode := toUpperCase_opt province in
  let gstRate := 0.05 in
  match rate_or_0 CANADIAN_PROVINCIAL_TAX (String_of provinceCode) with
  | None => None
  | Some provincialRate =>
      let taxableAmount := subtotal result + shipping in
      let gstAmount := Math_round (taxableAmount * gstRate * 100) / 100 in
      let pstAmount := Math_round (taxableAmount * provincialRate * 100) / 100 in
      let totalTax := gstAmount + pstAmount in
      let gstLine := {| name := "GST"; rate := gstRate; amount := gstAmount |} in
      let provincialLine :=
        if gt provincialRate 0
        then
          let taxName :=
            if includes ["NB"; "NL"; "NS"; "ON"; "PE"] provinceCode
            then "HST (provincial portion)"
            else if equals provinceCode "QC" then "QST"
            else "PST" in
          [ {| name := taxName; rate := provincialRate; amount := pstAmount |} ]
        else [] in
      Some {| subtotal := subtotal result;
              shipping := TaxCalculator.shipping result;
              taxableAmount := taxableAmount;
              taxRate := gstRate + provincialRate;
              taxAmount := totalTax;
              total := subtotal result + shipping + totalTax;
              breakdown := breakdown result ++ gstLine :: provincialLine;
              jurisdiction := Some ("CA-" ++ String_of provinceCode) |}
  end.

(** Calculate VAT for international orders *)
Definition calculateVAT (result : TaxResult) (country : string)
    (shipping : Q) : option TaxResult :=
  match rate_or_0 INTERNATIONAL_VAT_RATES country with
  | None => None
  | Some vatRate =>
      if Qeq_bool vatRate 0 then Some result
      else
        let taxableAmount := subtotal result + shipping in
        let vatAmount := Math_round (taxableAmount * vatRate * 100) / 100 in
        Some {| subtotal := subtotal result;
                shipping := TaxCalculator.shipping result;
                taxableAmount := taxableAmount;
                taxRate := vatRate;
                taxAmount := vatAmount;
                total := subtotal result + shipping + vatAmount;
                breakdown :=
                  breakdown result ++
                  [ {| name := "VAT"; rate := vatRate; amount := vatAmount |} ];
                jurisdiction := Some country |}
  end.

(** [TAX_CATEGORIES[category] || TAX_CATEGORIES['apparel']]: an own entry
    or an inherited member is truthy and is kept; only [undefined] falls
    back to the apparel entry. *)
Definition categoryInfo (category : string) : property CategoryInfo :=
  match get TAX_CATEGORIES category with
  | Undefined => get TAX_CATEGORIES "apparel"
  | found => found
  end.

(** [categoryInfo.taxable] as a condition: an inherited member has no
    such property, and [undefined] is falsy. *)
Definition is_taxable (info : property CategoryInfo) : bool :=
  match info with
  | Own i => taxable i
  | Inherited _ => false
  | Undefined => false
  end.

(** [INTERNATIONAL_VAT_RATES[country]] as a condition. *)
Definition has_vat_rate (country : string) : bool :=
  match get INTERNATIONAL_VAT_RATES country with
  | Own r => truthy r
  | Inherited _ => true
  | Undefined => false
  end.

(** Calculate tax for an order *)
Definition calculate (this : TaxCalculator) (p : Params) : option TaxResult :=
  let subtotal := p_subtotal p in
  let country := p_country p in
  let category := default "apparel" (p_category p) in
  let shipping := default 0 (p_shipping p) in
  let result :=
    {| subtotal := subtotal;
       shipping := shipping;
       taxableAmount := subtotal;
       taxRate := 0;
       taxAmount := 0;
       total := subtotal + shipping;
       breakdown := [];
       jurisdiction := None |} in
  if negb (is_taxable (categoryInfo category)) then Some result
  else if equals country "US"
  then calculateUSTax this result (p_state p) (p_postalCode p) shipping
  else if equals country "CA"
  then calculateCanadianTax result (p_state p) shipping
  else if has_vat_rate (String_of country)
  then calculateVAT result (String_of country) shipping
  else Some result.

(** The exported singleton: [new TaxCalculator([])]. *)
Definition taxCalculator : TaxCalculator := {| nexusStates := [] |}.

(** Get tax rate for display purposes.  As in [rate_or_0], [None] where the
    source yields an inherited member instead of a number. *)
Definition getTaxRate (country state : option string) : option Q :=
  if equals country "US"
  then rate_or_0 US_STATE_TAX_RATES (String_of (toUpperCase_opt state))
  else if equals country "CA"
  then
    let gst := 0.05 in
    match rate_or_0 CANADIAN_PROVINCIAL_TAX (String_of (toUpperCase_opt state)) with
    | Some pst => Some (gst + pst)
    | None => None
    end
  else rate_or_0 INTERNATIONAL_VAT_RATES (String_of country).

(** Check if location is tax-free *)
Definition isTaxFree (country state : option string) : bool :=
  if equals country "US"
  then
    let noTaxStates := ["AK"; "DE"; "MT"; "NH"; "OR"] in
    includes noTaxStates (toUpperCase_opt state)
  else negb (has_vat_rate (String_of country)).

End TaxCalculator.

(** ** services/tax-calculator.js, in binary64

  The methods of the service on binary64 numbers, operation for operation
  in the order of the source; the tables, the nexus list and the category
  check are those of [TaxCalculator]. *)

Module TaxCalculator64.

Import JS.
Local Open Scope string_scope.

Record TaxLine : Type := { name : string; rate : Double.double; amount : Double.double }.

Record TaxResult : Type := {
  subtotal : Double.double;
  shipping : Double.double;
  taxableAmount : Double.double;
  taxRate : Double.double;
  taxAmount : Double.double;
  total : Double.double;
  breakdown : list TaxLine;
  jurisdiction : option string
}.

(** The argument object of [calculate]. *)
Record Params : Type := {
  p_subtotal : Double.double;
  p_country : option string;
  p_state : option string;
  p_postalCode : option string;
  p_category : option string;
  p_shipping : option Double.double
}.

Definition with_jurisdiction (result : TaxResult) (j : string) : TaxResult :=
  {| subtotal := subtotal result; shipping := shipping result;
     taxableAmount := taxableAmount result; taxRate := taxRate result;
     taxAmount := taxAmount result; total := total result;
     breakdown := breakdown result; jurisdiction := Some j |}.

(** [table[key] || 0] for a table of rates, each entry the number its
    literal denotes.  An inherited member is truthy and is not a number:
    [None], as in [TaxCalculator.rate_or_0]. *)
Definition rate_or_0 (table : list (string * Q)) (key : string) : option Double.double :=
  match get table key with
  | Own r => Some (Double.or_else (Double.of_Q r) Double.zero)
  | Inherited _ => None
  | Undefined => Some Double.zero
  end.

(** Calculate US sales tax *)
Definition calculateUSTax (this : TaxCalculator.TaxCalculator) (result : TaxResult)
    (state postalCode : option string) (shipping : Double.double) : option TaxResult :=
  let stateCode := toUpperCase_opt state in
  if (0 <? length (TaxCalculator.nexusStates this))%nat
     && negb (includes (TaxCalculator.nexusStates this) stateCode)
  then Some (with_jurisdiction result (String_of stateCode ++ " - No nexus"))
  else
    match rate_or_0 TaxCalculator.US_STATE_TAX_RATES (String_of stateCode) with
    | None => None
    | Some stateTaxRate =>
        if Double.eqb stateTaxRate Double.zero
        then Some (with_jurisdiction result
                     (String_of stateCode ++ " - No state sales tax"))
        else
          let taxableAmount :=
            if includes TaxCalculator.statesTaxingShipping stateCode
            then Double.add (subtotal result) shipping
            else subtotal result in
          let taxAmount :=
            Double.div
              (Double.Math_round
                 (Double.mul (Double.mul taxableAmount stateTaxRate)
                    (Double.of_Z 100)))
              (Double.of_Z 100) in
          Some {| subtotal := subtotal result;
                  shipping := TaxCalculator64.shipping result;
                  taxableAmount := taxableAmount;
                  taxRate := stateTaxRate;
                  taxAmount := taxAmount;
                  total :=
                    Double.add (Double.add (subtotal result) shipping) taxAmount;
                  breakdown :=
                    breakdown result ++
                    [ {| name := String_of stateCode ++ " State Sales Tax";
                         rate := stateTaxRate;
                         amount := taxAmount |} ];
                  jurisdiction := Some (String_of stateCode) |}
    end.

(** Calculate Canadian tax (GST + PST/HST) *)
Definition calculateCanadianTax (result : TaxResult)
    (province : option string) (shipping : Double.double) : option TaxResult :=
  let provinceCode := toUpperCase_opt province in
  let gstRate := Double.of_Q 0.05 in
  match rate_or_0 TaxCalculator.CANADIAN_PROVINCIAL_TAX (String_of provinceCode) with
  | None => None
  | Some provincialRate =>
      let taxableAmount := Double.add (subtotal result) shipping in
      let gstAmount :=
        Double.div
          (Double.Math_round
             (Double.mul (Double.mul taxableAmount gstRate) (Double.of_Z 100)))
          (Double.of_Z 100) in
      let pstAmount :=
        Double.div
          (Double.Math_round
             (Double.mul (Double.mul taxableAmount provincialRate)
                (Double.of_Z 100)))
          (Double.of_Z 100) in
      let totalTax := Double.add gstAmount pstAmount in
      let gstLine := {| name := "GST"; rate := gstRate; amount := gstAmount |} in
      let provincialLine :=
        if Double.gt provincialRate Double.zero
        then
          let taxName :=
            if includes ["NB"; "NL"; "NS"; "ON"; "PE"] provinceCode
            then "HST (provincial portion)"
            else if equals provinceCode "QC" then "QST"
            else "PST" in
          [ {| name := taxName; rate := provincialRate; amount := pstAmount |} ]
        else [] in
      Some {| subtotal := subtotal result;
              shipping := TaxCalculator64.shipping result;
              taxableAmount := taxableAmount;
              taxRate := Double.add gstRate provincialRate;
              taxAmount := totalTax;
              total := Double.add (Double.add (subtotal result) shipping) totalTax;
              breakdown := breakdown result ++ gstLine :: provincialLine;
              jurisdiction := Some ("CA-" ++ String_of provinceCode) |}
  end.

(** Calculate VAT for international orders *)
Definition calculateVAT (result : TaxResult) (country : string)
    (shipping : Double.double) : option TaxResult :=
  match rate_or_0 TaxCalculator.INTERNATIONAL_VAT_RATES country with
  | None => None
  | Some vatRate =>
      if Double.eqb vatRate Double.zero then Some result
      else
        let taxableAmount := Double.add (subtotal result) shipping in
        let vatAmount :=
          Double.div
            (Double.Math_round
               (Double.mul (Double.mul taxableAmount vatRate) (Double.of_Z 100)))
            (Double.of_Z 100) in
        Some {| subtotal := subtotal result;
                shipping := TaxCalculator64.shipping result;
                taxableAmount := taxableAmount;
                taxRate := vatRate;
                taxAmount := vatAmount;
                total := Double.add (Double.add (subtotal result) shipping) vatAmount;
                breakdown :=
                  breakdown result ++
                  [ {| name := "VAT"; rate := vatRate; amount := vatAmount |} ];
                jurisdiction := Some country |}
  end.

(** [INTERNATIONAL_VAT_RATES[country]] as a condition. *)
Definition has_vat_rate (country : string) : bool :=
  match get TaxCalculator.INTERNATIONAL_VAT_RATES country with
  | Own r => Double.truthy (Double.of_Q r)
  | Inherited _ => true
  | Undefined => false
  end.

(** Calculate tax for an order *)
Definition calculate (this : TaxCalculator.TaxCalculator) (p : Params)
  : option TaxResult :=
  let subtotal := p_subtotal p in
  let country := p_country p in
  let category := default "apparel" (p_category p) in
  let shipping := default Double.zero (p_shipping p) in
  let result :=
    {| subtotal := subtotal;
       shipping := shipping;
       taxableAmount := subtotal;
       taxRate := Double.zero;
       taxAmount := Double.zero;
       total := Double.add subtotal shipping;
       breakdown := [];
       jurisdiction := None |} in
  if negb (TaxCalculator.is_taxable (TaxCalculator.categoryInfo category))
  then Some result
  else if equals country "US"
  then calculateUSTax this result (p_state p) (p_postalCode p) shipping
  else if equals country "CA"
  then calculateCanadianTax result (p_state p) shipping
  else if has_vat_rate (String_of country)
  then calculateVAT result (String_of country) shipping
  else Some result.

End TaxCalculator64.

(** ** The [Date] operations of the delivery estimate *)

Module Date.

Import JS.
Local Open Scope string_scope.
Local Open Scope Z_scope.

(** The clock of the server process: the instant [new Date()] reads, in
    milliseconds since the epoch, and the offset of its local time zone
    from UTC in milliseconds (taken as fixed: no daylight-saving change
    inside an estimate). *)
Record Clock : Type := { now : Z; utcOffset : Z }.

Definition msPerDay : Z := 86400000.

(** Days since 1970-01-01 and milliseconds into the day. *)
Definition day_of (t : Z) : Z := t / msPerDay.
Definition time_in_day (t : Z) : Z := t mod msPerDay.

(** [getDay()]: 0 is Sunday; 1970-01-01 was a Thursday. *)
Definition getDay (c : Clock) (t : Z) : Z := (day_of (t + utcOffset c) + 4) mod 7.

(** Year, month (1-12) and day of the month of a day number, in the
    proleptic Gregorian calendar. *)
Definition civil_from_days (d : Z) : Z * Z * Z :=
  let z := d + 719468 in
  let era := z / 146097 in
  let doe := z - era * 146097 in
  let yoe := (doe - doe / 1460 + doe / 36524 - doe / 146096) / 365 in
  let doy := doe - (365 * yoe + yoe / 4 - yoe / 100) in
  let mp := (5 * doy + 2) / 153 in
  let day := doy - (153 * mp + 2) / 5 + 1 in
  let month := if mp <? 10 then mp + 3 else mp - 9 in
  let year := yoe + era * 400 + (if month <=? 2 then 1 else 0) in
  (year, month, day).

(** [toISOString()]: [YYYY-MM-DDTHH:mm:ss.sssZ] in UTC, with the expanded
    signed six-digit year outside 0000-9999. *)
Definition toISOString (t : Z) : string :=
  let '(y, m, d) := civil_from_days (day_of t) in
  let ms := time_in_day t in
  let year :=
    if (0 <=? y) && (y <=? 9999) then pad 4 y
    else (if y <? 0 then "-" else "+") ++ pad 6 (Z.abs y) in
  year ++ "-" ++ pad 2 m ++ "-" ++ pad 2 d ++ "T"
    ++ pad 2 (ms / 3600000) ++ ":" ++ pad 2 (ms / 60000 mod 60) ++ ":"
    ++ pad 2 (ms / 1000 mod 60) ++ "." ++ pad 3 (ms mod 1000) ++ "Z".

Definition weekday_short (w : Z) : string :=
  nth (Z.to_nat w) ["Sun"; "Mon"; "Tue"; "Wed"; "Thu"; "Fri"; "Sat"] "".

Definition month_short (m : Z) : string :=
  nth (Z.to_nat (m - 1))
    ["Jan"; "Feb"; "Mar"; "Apr"; "May"; "Jun";
     "Jul"; "Aug"; "Sep"; "Oct"; "Nov"; "Dec"] "".

(** [toLocaleDateString('en-US', {weekday: 'short', month: 'short',
    day: 'numeric'})], in the local time zone. *)
Definition toLocaleDateString (c : Clock) (t : Z) : string :=
  let '(_, m, d) := civil_from_days (day_of (t + utcOffset c)) in
  weekday_short (getDay c t) ++ ", " ++ month_short m ++ " " ++ pretty (Z.to_N d).

End Date.

(** ** services/shipping-calculator.js

  The tables of the service and its methods over exact rationals: zones,
  methods, rates, their order and the delivery estimate.  The cents of a
  quote are those of [ShippingCalculator64], which computes as JavaScript
  does. *)

Module ShippingCalculator.

Import JS.
Local Open Scope string_scope.
Local Open Scope Q_scope.

(** The keys of [US_SHIPPING_ZONES] (1-6) and of [INTERNATIONAL_ZONES]
    (A-E). *)
Inductive USZone : Type := Zone1 | Zone2 | Zone3 | Zone4 | Zone5 | Zone6.
Inductive InternationalZone : Type := ZoneA | ZoneB | ZoneC | ZoneD | ZoneE.
Inductive Zone : Type :=
| Domestic (z : USZone)
| International (z : InternationalZone).

(** Shipping zones for US, in the order [Object.entries] lists them. *)
Definition US_SHIPPING_ZONES : list (USZone * list string) :=
  [ (Zone1, ["CA"; "NV"; "AZ"]);
    (Zone2, ["OR"; "WA"; "ID"; "MT"; "WY"; "UT"; "CO"; "NM"]);
    (Zone3, ["ND"; "SD"; "NE"; "KS"; "OK"; "TX"; "MN"; "IA"; "MO"; "AR"; "LA"]);
    (Zone4, ["WI"; "IL"; "MI"; "IN"; "OH"; "KY"; "TN"; "MS"; "AL"]);
    (Zone5, ["ME"; "NH"; "VT"; "MA"; "RI"; "CT"; "NY"; "NJ"; "PA"; "DE"; "MD";
             "DC"; "VA"; "WV"; "NC"; "SC"; "GA"; "FL"]);
    (Zone6, ["AK"; "HI"; "PR"; "VI"; "GU"; "AS"]) ].

(** International shipping zones *)
Definition INTERNATIONAL_ZONES : list (InternationalZone * list string) :=
  [ (ZoneA, ["CA"; "MX"]);
    (ZoneB, ["GB"; "DE"; "FR"; "NL"; "BE"; "AT"; "CH"; "IE"; "DK"; "SE"; "NO"; "FI"]);
    (ZoneC, ["PL"; "CZ"; "HU"; "RO"; "BG"; "SK"; "SI"; "HR"; "EE"; "LV"; "LT"]);
    (ZoneD, ["JP"; "KR"; "AU"; "NZ"; "SG"; "HK"; "TW"]);
    (ZoneE, []) ].

(** Base shipping rates (in USD) *)
Definition US_standard (z : USZone) : Q :=
  match z with
  | Zone1 => 5.99 | Zone2 => 6.99 | Zone3 => 7.99
  | Zone4 => 8.99 | Zone5 => 9.99 | Zone6 => 14.99
  end.

Definition US_express (z : USZone) : Q :=
  match z with
  | Zone1 => 12.99 | Zone2 => 14.99 | Zone3 => 16.99
  | Zone4 => 18.99 | Zone5 => 19.99 | Zone6 => 29.99
  end.

Definition US_overnight (z : USZone) : Q :=
  match z with
  | Zone1 => 24.99 | Zone2 => 29.99 | Zone3 => 34.99
  | Zone4 => 39.99 | Zone5 => 44.99 | Zone6 => 59.99
  end.

Definition international_standard (z : InternationalZone) : Q :=
  match z with
  | ZoneA => 12.99 | ZoneB => 19.99 | ZoneC => 24.99
  | ZoneD => 29.99 | ZoneE => 34.99
  end.

Definition international_express (z : InternationalZone) : Q :=
  match z with
  | ZoneA => 24.99 | ZoneB => 39.99 | ZoneC => 49.99
  | ZoneD => 59.99 | ZoneE => 69.99
  end.

(** [SHIPPING_RATES.US] and [SHIPPING_RATES.international], by method. *)
Definition SHIPPING_RATES_US : list (string * (USZone -> Q)) :=
  [ ("standard", US_standard); ("express", US_express);
    ("overnight", US_overnight) ].

Definition SHIPPING_RATES_international
  : list (string * (InternationalZone -> Q)) :=
  [ ("standard", international_standard); ("express", international_express) ].

(** Weight surcharges per additional pound *)
Definition WEIGHT_SURCHARGES_US : Q := 0.50.
Definition WEIGHT_SURCHARGES_international : Q := 1.50.

Record EstimatedDays : Type := { min : Z; max : Z }.

Record MethodInfo : Type := {
  info_name : string;
  info_description : string;
  info_estimatedDays : EstimatedDays
}.

(** Shipping methods with estimated delivery times *)
Definition SHIPPING_METHODS : list (string * MethodInfo) :=
  [ ("standard", {| info_name := "Standard Shipping";
                    info_description := "Delivered in 5-7 business days";
                    info_estimatedDays := {| min := 5; max := 7 |} |});
    ("express", {| info_name := "Express Shipping";
                   info_description := "Delivered in 2-3 business days";
                   info_estimatedDays := {| min := 2; max := 3 |} |});
    ("overnight", {| info_name := "Overnight Shipping";
                     info_description := "Delivered next business day";
                     info_estimatedDays := {| min := 1; max := 1 |} |}) ].

(** International shipping methods *)
Definition INTERNATIONAL_METHODS : list (string * MethodInfo) :=
  [ ("standard", {| info_name := "International Standard";
                    info_description := "Delivered in 10-21 business days";
                    info_estimatedDays := {| min := 10; max := 21 |} |});
    ("express", {| info_name := "International Express";
                   info_description := "Delivered in 5-10 business days";
                   info_estimatedDays := {| min := 5; max := 10 |} |}) ].

(** Free shipping thresholds *)
Definition FREE_SHIPPING_US_threshold : Q := 75.
Definition FREE_SHIPPING_US_method : string := "standard".
Definition FREE_SHIPPING_international_threshold : Q := 150.
Definition FREE_SHIPPING_international_method : string := "standard".

(** The calculator object and its constructor options. *)
Record ShippingCalculator : Type := {
  freeShippingEnabled : bool;
  handlingFee : Q
}.

Record Options : Type := {
  opt_freeShippingEnabled : option bool;
  opt_handlingFee : option Q
}.

Definition constructor (options : Options) : ShippingCalculator :=
  {| freeShippingEnabled := default true (opt_freeShippingEnabled options);
     handlingFee := default 0 (opt_handlingFee options) |}.

(** The first zone whose list includes the code. *)
Fixpoint find_zone {Z : Type} (zones : list (Z * list string))
    (code : option string) : option Z :=
  match zones with
  | [] => None
  | (zone, codes) :: rest =>
      if includes codes code then Some zone else find_zone rest code
  end.

(** Get shipping zone for US state *)
Definition getUSZone (state : option string) : USZone :=
  let stateCode := toUpperCase_opt state in
  default Zone5 (find_zone US_SHIPPING_ZONES stateCode).

(** Get shipping zone for international country *)
Definition getInternationalZone (country : option string) : InternationalZone :=
  let countryCode := toUpperCase_opt country in
  default ZoneE (find_zone INTERNATIONAL_ZONES countryCode).

(** Get available shipping methods for a country *)
Definition getAvailableMethods (country : option string) : list string :=
  if equals country "US" then ["standard"; "express"; "overnight"]
  else ["standard"; "express"].

(** The object [checkFreeShipping] returns; only [eligible] is present
    when free shipping is disabled. *)
Record FreeShipping : Type := {
  eligible : bool;
  threshold : option Q;
  freeMethod : option string;
  amountUntilFree : option Q;
  message : option string
}.

(** Check if order qualifies for free shipping *)
Definition checkFreeShipping (this : ShippingCalculator) (country : option string)
    (subtotal : Q) (requestedMethod : option string) : FreeShipping :=
  if negb (freeShippingEnabled this)
  then {| eligible := false; threshold := None; freeMethod := None;
          amountUntilFree := None; message := None |}
  else
    let threshold :=
      if equals country "US" then FREE_SHIPPING_US_threshold
      else FREE_SHIPPING_international_threshold in
    let freeMethod :=
      if equals country "US" then FREE_SHIPPING_US_method
      else FREE_SHIPPING_international_method in
    let eligible := Qle_bool threshold subtotal in
    {| eligible := eligible;
       threshold := Some threshold;
       freeMethod := Some freeMethod;
       amountUntilFree :=
         Some (if eligible then 0
               else Math_round ((threshold - subtotal) * 100) / 100);
       message :=
         Some (if eligible then "You qualify for free shipping!"
               else "Add $" ++ toFixed2 (threshold - subtotal)
                      ++ " more for free shipping") |}.

(** [addBusinessDays]: the [while (added < days)] loop, one iteration per
    unit of [fuel]. *)
Fixpoint addBusinessDays_loop (clock : Date.Clock) (fuel : nat)
    (result added days : Z) : Z :=
  match fuel with
  | O => result
  | S fuel' =>
      if (added <? days)%Z
      then
        let result := (result + Date.msPerDay)%Z in
        let dayOfWeek := Date.getDay clock result in
        if negb (dayOfWeek =? 0)%Z && negb (dayOfWeek =? 6)%Z
        then addBusinessDays_loop clock fuel' result (added + 1)%Z days
        else addBusinessDays_loop clock fuel' result added days
      else result
  end.

(** At most two weekend days separate two counted days, so three
    iterations per business day always reach [added = days]. *)
Definition addBusinessDays (clock : Date.Clock) (date days : Z) : Z :=
  addBusinessDays_loop clock (Z.to_nat (3 * days)) date 0%Z days.

Record DeliveryEstimate : Type := {
  minDate : string;
  maxDate : string;
  formatted : string;
  businessDays : EstimatedDays
}.

(** Get delivery estimate dates *)
Definition getDeliveryEstimate (clock : Date.Clock) (days : EstimatedDays)
  : DeliveryEstimate :=
  let today := Date.now clock in
  let minDate := addBusinessDays clock today (min days) in
  let maxDate := addBusinessDays clock today (max days) in
  let formatDate := Date.toLocaleDateString clock in
  {| minDate := Date.toISOString minDate;
     maxDate := Date.toISOString maxDate;
     formatted :=
       if (min days =? max days)%Z then formatDate minDate
       else formatDate minDate ++ " - " ++ formatDate maxDate;
     businessDays := days |}.

(** The argument object of [calculate]. *)
Record Params : Type := {
  p_country : option string;
  p_state : option string;
  p_weight : option Q;
  p_subtotal : option Q;
  p_method : option string
}.

Record ShippingQuote : Type := {
  method : string;
  methodName : string;
  description : option string;
  zone : Zone;
  baseRate : Q;
  weightSurcharge : Q;
  quoteHandlingFee : Q;
  total : Q;
  freeShipping : FreeShipping;
  deliveryEstimate : DeliveryEstimate;
  availableMethods : list string
}.

(** [rates[method]?.[zone] || rates.standard[zone]]: a method that is not
    an own key of the rate table (an inherited member has no zone entry)
    takes the standard rate. *)
Definition lookupBaseRate {Z : Type} (rates : list (string * (Z -> Q)))
    (standard : Z -> Q) (method : string) (zone : Z) : Q :=
  match get rates method with
  | Own byZone => or_else (byZone zone) (standard zone)
  | Inherited _ => standard zone
  | Undefined => standard zone
  end.

(** [methodInfo?.name || 'Standard Shipping']. *)
Definition methodName_of (methodInfo : property MethodInfo) : string :=
  match methodInfo with
  | Own info => info_name info
  | Inherited k => default "Standard Shipping" (inherited_name k)
  | Undefined => "Standard Shipping"
  end.

(** [methodInfo?.description]. *)
Definition description_of (methodInfo : property MethodInfo) : option string :=
  match methodInfo with
  | Own info => Some (info_description info)
  | _ => None
  end.

(** [methodInfo?.estimatedDays || { min: 5, max: 10 }]. *)
Definition estimatedDays_of (methodInfo : property MethodInfo) : EstimatedDays :=
  match methodInfo with
  | Own info => info_estimatedDays info
  | _ => {| min := 5; max := 10 |}
  end.

(** Calculate shipping cost *)
Definition calculate (this : ShippingCalculator) (clock : Date.Clock)
    (p : Params) : ShippingQuote :=
  let country := p_country p in
  let state := p_state p in
  let weight := default 1 (p_weight p) in
  let subtotal := default 0 (p_subtotal p) in
  let method := default "standard" (p_method p) in
  let isUS := equals country "US" in
  let availableMethods := getAvailableMethods country in
  let freeShipping := checkFreeShipping this country subtotal (Some method) in
  let zone :=
    if isUS then Domestic (getUSZone state)
    else International (getInternationalZone country) in
  let baseRate :=
    match zone with
    | Domestic z => lookupBaseRate SHIPPING_RATES_US US_standard method z
    | International z =>
        lookupBaseRate SHIPPING_RATES_international international_standard
          method z
    end in
  let extraWeight := Math_max 0 (weight - 1) in
  let weightSurcharge :=
    extraWeight * (if isUS then WEIGHT_SURCHARGES_US
                   else WEIGHT_SURCHARGES_international) in
  let total := baseRate + weightSurcharge + handlingFee this in
  let total :=
    if eligible freeShipping
       && bool_decide (Some method = freeMethod freeShipping)
    then 0 else total in
  let methodInfo :=
    if isUS then get SHIPPING_METHODS method
    else get INTERNATIONAL_METHODS method in
  let deliveryEstimate :=
    getDeliveryEstimate clock (estimatedDays_of methodInfo) in
  {| method := method;
     methodName := methodName_of methodInfo;
     description := description_of methodInfo;
     zone := zone;
     baseRate := baseRate;
     weightSurcharge := weightSurcharge;
     quoteHandlingFee := handlingFee this;
     total := Math_round (total * 100) / 100;
     freeShipping := freeShipping;
     deliveryEstimate := deliveryEstimate;
     availableMethods := availableMethods |}.

(** The exported singleton: [new ShippingCalculator()]. *)
Definition shippingCalculator : ShippingCalculator :=
  constructor {| opt_freeShippingEnabled := None; opt_handlingFee := None |}.

(** The argument object of [getAllRates]. *)
Record RatesParams : Type := {
  r_country : option string;
  r_state : option string;
  r_weight : option Q;
  r_subtotal : option Q
}.

(** Get all shipping rates for a destination *)
Definition getAllRates (this : ShippingCalculator) (clock : Date.Clock)
    (p : RatesParams) : list ShippingQuote :=
  let weight := default 1 (r_weight p) in
  let subtotal := default 0 (r_subtotal p) in
  let methods := getAvailableMethods (r_country p) in
  let rates :=
    map (fun method =>
           calculate this clock
             {| p_country := r_country p; p_state := r_state p;
                p_weight := Some weight; p_subtotal := Some subtotal;
                p_method := Some method |})
      methods in
  sort_by total rates.

(** The fields of an address that [validateAddress] reads, each a string
    or missing. *)
Record Address : Type := {
  line1 : option string;
  city : option string;
  country : option string;
  postalCode : option string;
  state : option string
}.

(** [/^\d{5}(-\d{4})?$/] *)
Definition ZIP_CODE : RegExp :=
  Seq (times 5 (Class digit))
      (optional (Seq (Class (literal "-")) (times 4 (Class digit)))).

(** [/^[A-Za-z]\d[A-Za-z][ -]?\d[A-Za-z]\d$/] *)
Definition POSTAL_CODE : RegExp :=
  Seq (Class letter)
    (Seq (Class digit)
       (Seq (Class letter)
          (Seq (optional (Class (fun c => literal " " c || literal "-" c)))
             (Seq (Class digit) (Seq (Class letter) (Class digit)))))).

Record Validation : Type := { valid : bool; errors : list string }.

(** [if (condition) errors.push(message)]. *)
Definition push_if (condition : bool) (message : string) (errors : list string)
  : list string :=
  if condition then errors ++ [message] else errors.

(** Validate shipping address *)
Definition validateAddress (address : Address) : Validation :=
  let errors := [] in
  let errors := push_if (blank (line1 address)) "Street address is required" errors in
  let errors := push_if (blank (city address)) "City is required" errors in
  let errors := push_if (blank (country address)) "Country is required" errors in
  let errors :=
    push_if (blank (postalCode address)) "Postal/ZIP code is required" errors in
  let errors :=
    if equals (country address) "US"
    then
      let errors :=
        push_if (blank (state address)) "State is required for US addresses"
          errors in
      push_if (negb (RegExp_test ZIP_CODE (postalCode address)))
        "Invalid ZIP code format" errors
    else errors in
  let errors :=
    if equals (country address) "CA"
    then
      let errors :=
        push_if (blank (state address))
          "Province is required for Canadian addresses" errors in
      push_if (negb (RegExp_test POSTAL_CODE (postalCode address)))
        "Invalid postal code format" errors
    else errors in
  {| valid := (length errors =? 0)%nat; errors := errors |}.

(** Get country list for shipping *)
Definition getShippingCountries : list (string * string) :=
  [ ("US", "United States"); ("CA", "Canada"); ("MX", "Mexico");
    ("GB", "United Kingdom"); ("DE", "Germany"); ("FR", "France");
    ("NL", "Netherlands"); ("BE", "Belgium"); ("AT", "Austria");
    ("CH", "Switzerland"); ("IE", "Ireland"); ("DK", "Denmark");
    ("SE", "Sweden"); ("NO", "Norway"); ("FI", "Finland");
    ("AU", "Australia"); ("NZ", "New Zealand"); ("JP", "Japan");
    ("KR", "South Korea"); ("SG", "Singapore"); ("HK", "Hong Kong") ].

(** Get US states list *)
Definition getUSStates : list (string * string) :=
  [ ("AL", "Alabama"); ("AK", "Alaska"); ("AZ", "Arizona"); ("AR", "Arkansas");
    ("CA", "California"); ("CO", "Colorado"); ("CT", "Connecticut");
    ("DE", "Delaware"); ("FL", "Florida"); ("GA", "Georgia"); ("HI", "Hawaii");
    ("ID", "Idaho"); ("IL", "Illinois"); ("IN", "Indiana"); ("IA", "Iowa");
    ("KS", "Kansas"); ("KY", "Kentucky"); ("LA", "Louisiana"); ("ME", "Maine");
    ("MD", "Maryland"); ("MA", "Massachusetts"); ("MI", "Michigan");
    ("MN", "Minnesota"); ("MS", "Mississippi"); ("MO", "Missouri");
    ("MT", "Montana"); ("NE", "Nebraska"); ("NV", "Nevada");
    ("NH", "New Hampshire"); ("NJ", "New Jersey"); ("NM", "New Mexico");
    ("NY", "New York"); ("NC", "North Carolina"); ("ND", "North Dakota");
    ("OH", "Ohio"); ("OK", "Oklahoma"); ("OR", "Oregon"); ("PA", "Pennsylvania");
    ("RI", "Rhode Island"); ("SC", "South Carolina"); ("SD", "South Dakota");
    ("TN", "Tennessee"); ("TX", "Texas"); ("UT", "Utah"); ("VT", "Vermont");
    ("VA", "Virginia"); ("WA", "Washington"); ("WV", "West Virginia");
    ("WI", "Wisconsin"); ("WY", "Wyoming"); ("DC", "District of Columbia") ].

End ShippingCalculator.

(** ** services/shipping-calculator.js, in binary64

  [calculate] and [checkFreeShipping] on binary64 numbers, operation for
  operation in the order of the source; zones, methods and the delivery
  estimate are those of [ShippingCalculator]. *)

Module ShippingCalculator64.

Import JS.
Module S := ShippingCalculator.
Local Open Scope string_scope.

(** The calculator object and its constructor options. *)
Record ShippingCalculator : Type := {
  freeShippingEnabled : bool;
  handlingFee : Double.double
}.

Record Options : Type := {
  opt_freeShippingEnabled : option bool;
  opt_handlingFee : option Double.double
}.

Definition constructor (options : Options) : ShippingCalculator :=
  {| freeShippingEnabled := default true (opt_freeShippingEnabled options);
     handlingFee := default Double.zero (opt_handlingFee options) |}.

(** The object [checkFreeShipping] returns; only [eligible] is present
    when free shipping is disabled. *)
Record FreeShipping : Type := {
  eligible : bool;
  threshold : option Double.double;
  freeMethod : option string;
  amountUntilFree : option Double.double;
  message : option string
}.

(** Check if order qualifies for free shipping *)
Definition checkFreeShipping (this : ShippingCalculator) (country : option string)
    (subtotal : Double.double) (requestedMethod : option string) : FreeShipping :=
  if negb (freeShippingEnabled this)
  then {| eligible := false; threshold := None; freeMethod := None;
          amountUntilFree := None; message := None |}
  else
    let threshold :=
      Double.of_Q (if equals country "US" then S.FREE_SHIPPING_US_threshold
                   else S.FREE_SHIPPING_international_threshold) in
    let freeMethod :=
      if equals country "US" then S.FREE_SHIPPING_US_method
      else S.FREE_SHIPPING_international_method in
    let eligible := Double.ge subtotal threshold in
    {| eligible := eligible;
       threshold := Some threshold;
       freeMethod := Some freeMethod;
       amountUntilFree :=
         Some (if eligible then Double.zero
               else Double.div
                      (Double.Math_round
                         (Double.mul (Double.sub threshold subtotal)
                            (Double.of_Z 100)))
                      (Double.of_Z 100));
       message :=
         Some (if eligible then "You qualify for free shipping!"
               else "Add $" ++ Double.toFixed2 (Double.sub threshold subtotal)
                      ++ " more for free shipping") |}.

(** The argument object of [calculate]. *)
Record Params : Type := {
  p_country : option string;
  p_state : option string;
  p_weight : option Double.double;
  p_subtotal : option Double.double;
  p_method : option string
}.

Record ShippingQuote : Type := {
  method : string;
  methodName : string;
  description : option string;
  zone : S.Zone;
  baseRate : Double.double;
  weightSurcharge : Double.double;
  quoteHandlingFee : Double.double;
  total : Double.double;
  freeShipping : FreeShipping;
  deliveryEstimate : S.DeliveryEstimate;
  availableMethods : list string
}.

(** [rates[method]?.[zone] || rates.standard[zone]], each rate the number
    its literal denotes. *)
Definition lookupBaseRate {Z : Type} (rates : list (string * (Z -> Q)))
    (standard : Z -> Q) (method : string) (zone : Z) : Double.double :=
  match get rates method with
  | Own byZone =>
      Double.or_else (Double.of_Q (byZone zone)) (Double.of_Q (standard zone))
  | Inherited _ => Double.of_Q (standard zone)
  | Undefined => Double.of_Q (standard zone)
  end.

(** Calculate shipping cost *)
Definition calculate (this : ShippingCalculator) (clock : Date.Clock)
    (p : Params) : ShippingQuote :=
  let country := p_country p in
  let state := p_state p in
  let weight := default (Double.of_Z 1) (p_weight p) in
  let subtotal := default Double.zero (p_subtotal p) in
  let method := default "standard" (p_method p) in
  let isUS := equals country "US" in
  let availableMethods := S.getAvailableMethods country in
  let freeShipping := checkFreeShipping this country subtotal (Some method) in
  let zone :=
    if isUS then S.Domestic (S.getUSZone state)
    else S.International (S.getInternationalZone country) in
  let baseRate :=
    match zone with
    | S.Domestic z => lookupBaseRate S.SHIPPING_RATES_US S.US_standard method z
    | S.International z =>
        lookupBaseRate S.SHIPPING_RATES_international S.international_standard
          method z
    end in
  let extraWeight := Double.Math_max Double.zero (Double.sub weight (Double.of_Z 1)) in
  let weightSurcharge :=
    Double.mul extraWeight
      (Double.of_Q (if isUS then S.WEIGHT_SURCHARGES_US
                    else S.WEIGHT_SURCHARGES_international)) in
  let total := Double.add (Double.add baseRate weightSurcharge) (handlingFee this) in
  let total :=
    if eligible freeShipping
       && bool_decide (Some method = freeMethod freeShipping)
    then Double.zero else total in
  let methodInfo :=
    if isUS then get S.SHIPPING_METHODS method
    else get S.INTERNATIONAL_METHODS method in
  let deliveryEstimate :=
    S.getDeliveryEstimate clock (S.estimatedDays_of methodInfo) in
  {| method := method;
     methodName := S.methodName_of methodInfo;
     description := S.description_of methodInfo;
     zone := zone;
     baseRate := baseRate;
     weightSurcharge := weightSurcharge;
     quoteHandlingFee := handlingFee this;
     total :=
       Double.div (Double.Math_round (Double.mul total (Double.of_Z 100)))
         (Double.of_Z 100);
     freeShipping := freeShipping;
     deliveryEstimate := deliveryEstimate;
     availableMethods := availableMethods |}.

(** The exported singleton: [new ShippingCalculator()]. *)
Definition shippingCalculator : ShippingCalculator :=
  constructor {| opt_freeShippingEnabled := None; opt_handlingFee := None |}.

End ShippingCalculator64.

(** ** config/database.js and the tables of init-db.js used by checkout *)

Module Database.

Local Open Scope Q_scope.

(** A [DECIMAL] column as the driver hands it to JavaScript: a number when
    the connection sets [decimalNumbers], its decimal text otherwise.
    Either way the constructor carries the value the column denotes. *)
Inductive Decimal : Type :=
| AsNumber (q : Q)
| AsString (q : Q).

(** The numeric value arithmetic coerces the column to. *)
Definition Number (d : Decimal) : Q :=
  match d with
  | AsNumber q => q
  | AsString q => q
  end.

(** The connection option that decides how [DECIMAL] columns are decoded.
    It is a parameter of the model: [dbConfig] in [config/database.js]
    does not set it, which leaves the driver's default, off. *)
Record DbConfig : Type := { decimalNumbers : bool }.

Definition dbConfig : DbConfig := {| decimalNumbers := false |}.

Definition decode (cfg : DbConfig) (q : Q) : Decimal :=
  if decimalNumbers cfg then AsNumber q else AsString q.

(** A row of [products], with [D] the type of its [DECIMAL] column: [Q]
    in the table, [Decimal] once read.  The table of [init-db.js] has no
    [weight] column; the field is what [product.weight] reads.  The record
    has the columns the checkout routes read or write; [slug],
    [description], [image_url], [digital_file_url], [created_at] and
    [updated_at] are left out, so nothing below speaks of them:
    [updated_at] is set by MySQL on every update of a row. *)
Record Product (D : Type) : Type := {
  id : Z;
  title : string;
  price : D;
  category : string;
  inventory_count : Z;
  is_digital : bool;
  is_active : bool;
  weight : option Q
}.
Arguments id {D}. Arguments title {D}. Arguments price {D}.
Arguments category {D}. Arguments inventory_count {D}.
Arguments is_digital {D}. Arguments is_active {D}. Arguments weight {D}.

(** An element of the [items] JSON array of a session or an order, as
    [create-session] builds it. [JSON.stringify] followed by [JSON.parse]
    gives the same list back. *)
Record OrderItem : Type := {
  productId : Z;
  itemTitle : string;
  itemPrice : Decimal;
  quantity : Z;
  itemCategory : string;
  isDigital : bool
}.

Record Address : Type := {
  line1 : option string;
  line2 : option string;
  city : option string;
  state : option string;
  postalCode : option string;
  country : option string
}.

(** A row of [checkout_sessions]; [expires_at] in milliseconds since the
    epoch.  The amounts are held as the route computed them and
    [expires_at] as a reading of the clock of the request: the rounding of
    the [DECIMAL(10,2)] columns, the whole seconds of the [TIMESTAMP]
    column and the clock of the database server are not modelled. *)
Record Session (D : Type) : Type := {
  session_id : string;
  email : string;
  items : list OrderItem;
  shipping_address : Address;
  billing_address : Address;
  subtotal : D;
  shipping_cost : D;
  shipping_method : string;
  tax_amount : D;
  total : D;
  expires_at : Z
}.
Arguments session_id {D}. Arguments email {D}. Arguments items {D}.
Arguments shipping_address {D}. Arguments billing_address {D}.
Arguments subtotal {D}. Arguments shipping_cost {D}.
Arguments shipping_method {D}. Arguments tax_amount {D}.
Arguments total {D}. Arguments expires_at {D}.

(** A row of [orders]. *)
Record Order : Type := {
  order_number : string;
  customer_email : string;
  customer_name : string;
  customer_phone : option string;
  order_shipping_address : Address;
  order_billing_address : Address;
  order_items : list OrderItem;
  order_subtotal : Q;
  order_shipping : Q;
  order_tax : Q;
  order_total : Q;
  order_shipping_method : string;
  payment_intent_id : option string;
  status : string
}.

(** The persisted state: [products] by primary key, [checkout_sessions]
    by their unique [session_id], [orders] in insertion order. *)
Record Database : Type := {
  products : gmap Z (Product Q);
  checkout_sessions : gmap string (Session Q);
  orders : list Order
}.

Definition read_product (cfg : DbConfig) (row : Product Q) : Product Decimal :=
  {| id := id row; title := title row; price := decode cfg (price row);
     category := category row; inventory_count := inventory_count row;
     is_digital := is_digital row; is_active := is_active row;
     weight := weight row |}.

Definition read_session (cfg : DbConfig) (row : Session Q) : Session Decimal :=
  {| session_id := session_id row; email := email row; items := items row;
     shipping_address := shipping_address row;
     billing_address := billing_address row;
     subtotal := decode cfg (subtotal row);
     shipping_cost := decode cfg (shipping_cost row);
     shipping_method := shipping_method row;
     tax_amount := decode cfg (tax_amount row);
     total := decode cfg (total row);
     expires_at := expires_at row |}.

(** [SELECT * FROM products WHERE id = ? AND is_active = 1] *)
Definition select_active_product (cfg : DbConfig) (d : Database) (key : Z)
  : option (Product Decimal) :=
  match products d !! key with
  | Some row => if is_active row then Some (read_product cfg row) else None
  | None => None
  end.

(** [SELECT * FROM checkout_sessions WHERE session_id = ?] *)
Definition select_session (cfg : DbConfig) (d : Database) (key : string)
  : option (Session Decimal) :=
  read_session cfg <$> checkout_sessions d !! key.

(** [INSERT INTO checkout_sessions ...]; [None] when [session_id] is
    taken (it is [UNIQUE]). *)
Definition insert_session (d : Database) (row : Session Q) : option Database :=
  match checkout_sessions d !! session_id row with
  | Some _ => None
  | None =>
      Some {| products := products d;
              checkout_sessions := <[session_id row := row]> (checkout_sessions d);
              orders := orders d |}
  end.

(** [INSERT INTO orders ...]; [None] when [order_number] is taken (it is
    [UNIQUE]). *)
Definition insert_order (d : Database) (row : Order) : option Database :=
  if existsb (fun o => String.eqb (order_number o) (order_number row)) (orders d)
  then None
  else Some {| products := products d;
               checkout_sessions := checkout_sessions d;
               orders := orders d ++ [row] |}.

(** [UPDATE products SET inventory_count = inventory_count - ? WHERE id = ?] *)
Definition decrement_inventory (d : Database) (amount key : Z) : Database :=
  let update (row : Product Q) : Product Q :=
    {| id := id row; title := title row; price := price row;
       category := category row;
       inventory_count := (inventory_count row - amount)%Z;
       is_digital := is_digital row; is_active := is_active row;
       weight := weight row |} in
  {| products := alter update key (products d);
     checkout_sessions := checkout_sessions d;
     orders := orders d |}.

(** [DELETE FROM checkout_sessions WHERE session_id = ?] *)
Definition delete_session (d : Database) (key : string) : Database :=
  {| products := products d;
     checkout_sessions := delete key (checkout_sessions d);
     orders := orders d |}.

End Database.

(** ** The request handlers' effects *)

Module Handler.

(** A mail handed to the transport. *)
Record Mail : Type := { to : string; subject : string; text : string }.

(** Everything a handler can change: the database, the lines written
    with [console.error], the mails the transport accepted. *)
Record World : Type := {
  db : Database.Database;
  console : list string;
  outbox : list Mail
}.

(** What [transporter.sendMail] does with a mail: the promise resolves
    with a message id, or rejects with an error. *)
Inductive SendMail : Type :=
| Resolves (messageId : string)
| Rejects (message : string).

(** The inputs of a request that come from outside the program: the
    clock, the value [uuidv4()] returns, the behaviour of the transport. *)
Record Env : Type := {
  clock : Date.Clock;
  uuidv4 : string;
  sendMail : SendMail
}.

(** What a handler sends: [res.json(a)], [res.status(code).json({error})]
    or [res.status(400).json({errors})]. *)
Inductive Reply (A : Type) : Type :=
| Json (a : A)
| Status (code : Z) (error : string)
| Invalid (errors : list string).
Arguments Json {A} a.
Arguments Status {A} code error.
Arguments Invalid {A} errors.

(** A step of a handler body ends with a value, with the handler having
    replied and returned, or with an exception. *)
Inductive Outcome (R X : Type) : Type :=
| Value (x : X)
| Return (r : R)
| Throw (e : string).
Arguments Value {R X} x.
Arguments Return {R X} r.
Arguments Throw {R X} e.

Definition M (R X : Type) : Type := World -> Outcome R X * World.

Definition ret {R X : Type} (x : X) : M R X := fun w => (Value x, w).

Definition bind {R X Y : Type} (c : M R X) (k : X -> M R Y) : M R Y :=
  fun w =>
    match c w with
    | (Value x, w') => k x w'
    | (Return r, w') => (Return r, w')
    | (Throw e, w') => (Throw e, w')
    end.

Definition reply {R X : Type} (r : R) : M R X := fun w => (Return r, w).

Definition throw {R X : Type} (e : string) : M R X := fun w => (Throw e, w).

(** Read the database. *)
Definition query {R X : Type} (f : Database.Database -> X) : M R X :=
  fun w => (Value (f (db w)), w).

(** Run a statement that changes the database, or fails. *)
Definition execute {R : Type} (f : Database.Database -> option Database.Database)
    (failure : string) : M R unit :=
  fun w =>
    match f (db w) with
    | Some d => (Value tt, {| db := d; console := console w; outbox := outbox w |})
    | None => (Throw failure, w)
    end.

(** Run a statement that changes the database and cannot fail. *)
Definition update {R : Type} (f : Database.Database -> Database.Database)
  : M R unit :=
  execute (fun d => Some (f d)) "".

(** [console.error(label, error)]. *)
Definition console_error (label e : string) (w : World) : World :=
  {| db := db w; console := console w ++ [(label ++ " " ++ e)%string];
     outbox := outbox w |}.

Definition deliver (m : Mail) (w : World) : World :=
  {| db := db w; console := console w; outbox := outbox w ++ [m] |}.

Declare Scope handler_scope.
Delimit Scope handler_scope with handler.
Notation "'let*' x ':=' c 'in' k" := (bind c (fun x => k))
  (at level 10, x binder, c at level 100, k at level 200) : handler_scope.

(** [for (const x of xs) { acc = body(acc, x) }]. *)
Fixpoint for_of {R X A : Type} (xs : list X) (acc : A)
    (body : A -> X -> M R A) : M R A :=
  match xs with
  | [] => ret acc
  | x :: rest => bind (body acc x) (fun acc' => for_of rest acc' body)
  end.

(** [try { body } catch (error) { console.error(label, error);
    res.status(500).json({ error: failure }) }]. *)
Definition try_catch {A : Type} (label failure : string)
    (body : M (Reply A) (Reply A)) : World -> Reply A * World :=
  fun w =>
    match body w with
    | (Value r, w') => (r, w')
    | (Return r, w') => (r, w')
    | (Throw e, w') => (Status 500 failure, console_error label e w')
    end.

End Handler.

(** ** utils/email.js *)

Module Email.

Import Handler.
Local Open Scope string_scope.
Local Open Scope handler_scope.

(** The value [sendEmail] resolves to. *)
Record SendResult : Type := {
  success : bool;
  messageId : option string;
  error : option string
}.

(** [sendEmail]: the transport is called inside [try]; a rejection is
    logged and turned into [{ success: false }]. *)
Definition sendEmail {R : Type} (env : Env) (mail : Mail) : M R SendResult :=
  fun w =>
    match sendMail env with
    | Resolves i =>
        (Value {| success := true; messageId := Some i; error := None |},
         deliver mail w)
    | Rejects msg =>
        (Value {| success := false; messageId := None; error := Some msg |},
         console_error "Email error:" msg w)
    end.

(** The argument of [sendOrderConfirmation], as [/complete] builds it from
    the session row. *)
Record OrderSummary : Type := {
  order_number : string;
  customer_email : string;
  customer_name : string;
  items : list Database.OrderItem;
  subtotal : Database.Decimal;
  shipping : Database.Decimal;
  tax : Database.Decimal;
  total : Database.Decimal
}.

(** [value.toFixed(2)] on a field read from a row: a number has the
    method; on a string the call is a [TypeError]. *)
Definition toFixed {R : Type} (field : string) (value : Database.Decimal)
  : M R string :=
  match value with
  | Database.AsNumber q => ret (JS.toFixed2 q)
  | Database.AsString _ =>
      throw ("TypeError: order." ++ field ++ ".toFixed is not a function")
  end.

Definition newline : string := String (ascii_of_nat 10) EmptyString.

Definition itemLine (i : Database.OrderItem) : string :=
  "- " ++ Database.itemTitle i ++ " x" ++ pretty (Database.quantity i)
    ++ ": $"
    ++ JS.toFixed2 (Database.Number (Database.itemPrice i)
                    * inject_Z (Database.quantity i))%Q.

(** [lines.join('\n')]. *)
Fixpoint join (lines : list string) : string :=
  match lines with
  | [] => ""
  | [l] => l
  | l :: rest => l ++ newline ++ join rest
  end.

(** [sendOrderConfirmation]: the message is built outside any [try], then
    handed to [sendEmail]. *)
Definition sendOrderConfirmation {R : Type} (env : Env) (order : OrderSummary)
  : M R SendResult :=
  let items := items order in
  let itemsList := join (map itemLine items) in
  let subject := "Order Confirmation #" ++ order_number order in
  let* subtotalText := toFixed "subtotal" (subtotal order) in
  let* shippingText := toFixed "shipping" (shipping order) in
  let* totalText := toFixed "total" (total order) in
  let text :=
    newline ++ "Thank you for your order!" ++ newline ++ newline
      ++ "Order Number: " ++ order_number order ++ newline ++ newline
      ++ "Items:" ++ newline ++ itemsList ++ newline ++ newline
      ++ "Subtotal: $" ++ subtotalText ++ newline
      ++ "Shipping: $" ++ shippingText ++ newline
      ++ "Total: $" ++ totalText ++ newline ++ newline
      ++ "We'll notify you when your order ships." ++ newline ++ newline
      ++ "- WYATT XXX COLE" ++ newline ++ "  " in
  sendEmail env {| to := customer_email order; subject := subject; text := text |}.

End Email.

(** ** routes/checkout.js *)

Module Checkout.

Import Handler.
Module S := ShippingCalculator.
Module T := TaxCalculator.
Module D := Database.
Local Open Scope string_scope.
Local Open Scope Q_scope.
Local Open Scope handler_scope.

(** [body(field).notEmpty()]. *)
Definition notEmpty (value : option string) : bool :=
  match value with
  | Some s => negb (String.eqb s "")
  | None => false
  end.

(** The messages of the checks that fail, in the order of the checks. *)
Definition validationResult (checks : list (bool * string)) : list string :=
  map snd (filter (fun c => negb (fst c)) checks).

Definition isEmpty (errors : list string) : bool :=
  match errors with
  | [] => true
  | _ => false
  end.

Record CartItem : Type := { productId : Z; quantity : Z }.

(** [(product.weight || 0.5)]. *)
Definition weight_or_default (w : option Q) : Q :=
  match w with
  | Some x => JS.or_else x 0.5
  | None => 0.5
  end.

(** *** POST /calculate *)

Record CalculateRequest : Type := {
  items : list CartItem;
  country : option string;
  state : option string;
  postalCode : option string;
  shippingMethod : option string
}.

Record ValidatedItem : Type := {
  v_productId : Z;
  v_title : string;
  v_price : D.Decimal;
  v_quantity : Z;
  v_category : string
}.

Record ShippingSummary : Type := {
  method : string;
  methodName : string;
  cost : Q;
  deliveryEstimate : S.DeliveryEstimate;
  freeShipping : S.FreeShipping
}.

Record TaxSummary : Type := {
  rate : Q;
  amount : Q;
  breakdown : list T.TaxLine;
  jurisdiction : option string
}.

(** The body of the reply.  [tax] and [total] are [None] where the tax
    calculator computes with a non-number. *)
Record CalculateResponse : Type := {
  r_items : list ValidatedItem;
  r_subtotal : Q;
  r_shipping : ShippingSummary;
  r_tax : option TaxSummary;
  r_total : option Q;
  r_currency : string
}.

Definition calculate (cfg : D.DbConfig) (env : Env) (req : CalculateRequest)
  : World -> Reply CalculateResponse * World :=
  try_catch "Order calculation error:" "Failed to calculate order"
    (let errors :=
       validationResult
         [ ((1 <=? length (items req))%nat, "Cart items required");
           (notEmpty (country req), "Country is required") ] in
     if negb (isEmpty errors) then reply (Invalid errors)
     else
       let shippingMethod := default "standard" (shippingMethod req) in
       let* '(subtotal, totalWeight, validatedItems) :=
         for_of (items req) (0, 0, [])
           (fun '(subtotal, totalWeight, validatedItems) item =>
              let* product :=
                query (fun d => D.select_active_product cfg d (productId item)) in
              match product with
              | None =>
                  reply (Status 400
                           ("Product " ++ pretty (productId item) ++ " not found"))
              | Some product =>
                  ret (subtotal
                         + D.Number (D.price product) * inject_Z (quantity item),
                       totalWeight
                         + weight_or_default (D.weight product)
                           * inject_Z (quantity item),
                       (validatedItems ++
                          [ {| v_productId := D.id product;
                               v_title := D.title product;
                               v_price := D.price product;
                               v_quantity := quantity item;
                               v_category := D.category product |} ])%list)
              end) in
       let shipping :=
         S.calculate S.shippingCalculator (clock env)
           {| S.p_country := country req;
              S.p_state := state req;
              S.p_weight := Some totalWeight;
              S.p_subtotal := Some subtotal;
              S.p_method := Some shippingMethod |} in
       let tax :=
         T.calculate T.taxCalculator
           {| T.p_subtotal := subtotal;
              T.p_country := country req;
              T.p_state := state req;
              T.p_postalCode := postalCode req;
              T.p_category := None;
              T.p_shipping := Some (S.total shipping) |} in
       ret (Json
              {| r_items := validatedItems;
                 r_subtotal := JS.Math_round (subtotal * 100) / 100;
                 r_shipping :=
                   {| method := S.method shipping;
                      methodName := S.methodName shipping;
                      cost := S.total shipping;
                      deliveryEstimate := S.deliveryEstimate shipping;
                      freeShipping := S.freeShipping shipping |};
                 r_tax :=
                   (fun tax =>
                      {| rate := T.taxRate tax;
                         amount := T.taxAmount tax;
                         breakdown := T.breakdown tax;
                         jurisdiction := T.jurisdiction tax |}) <$> tax;
                 r_total :=
                   (fun tax =>
                      let total := subtotal + S.total shipping + T.taxAmount tax in
                      JS.Math_round (total * 100) / 100) <$> tax;
                 r_currency := "USD" |})).

(** *** POST /create-session *)

Record SessionRequest : Type := {
  s_items : list CartItem;
  s_email : option string;
  s_shippingAddress : option D.Address;
  s_billingAddress : option D.Address;
  s_shippingMethod : option string
}.

Record SessionShipping : Type := {
  ss_method : string;
  ss_methodName : string;
  ss_cost : Q;
  ss_deliveryEstimate : S.DeliveryEstimate
}.

Record SessionTax : Type := {
  st_rate : Q;
  st_amount : Q;
  st_breakdown : list T.TaxLine
}.

Record SessionResponse : Type := {
  sessionId : string;
  email : string;
  sr_items : list D.OrderItem;
  shippingAddress : D.Address;
  sr_shipping : SessionShipping;
  sr_tax : SessionTax;
  sr_subtotal : Q;
  sr_total : Q;
  expiresAt : string
}.

(** [isEmail] is the validator's check of the [email] field, a parameter
    of the model.  The row's [expires_at] stands for MySQL's
    [DATE_ADD(NOW(), INTERVAL 1 HOUR)]: the model takes the clock reading
    of the request for [NOW()]. *)
Definition create_session (isEmail : string -> bool) (cfg : D.DbConfig)
    (env : Env) (req : SessionRequest)
  : World -> Reply SessionResponse * World :=
  try_catch "Create session error:" "Failed to create checkout session"
    (let errors :=
       validationResult
         [ ((1 <=? length (s_items req))%nat, "Cart items required");
           (from_option isEmail false (s_email req), "Valid email required");
           (bool_decide (is_Some (s_shippingAddress req)),
            "Shipping address required") ] in
     match s_email req, s_shippingAddress req with
     | Some email, Some shippingAddress =>
         if negb (isEmpty errors) then reply (Invalid errors)
         else
           let shippingMethod := default "standard" (s_shippingMethod req) in
           let sessionId := "cs_" ++ uuidv4 env in
           let* '(subtotal, totalWeight, orderItems) :=
             for_of (s_items req) (0, 0, [])
               (fun '(subtotal, totalWeight, orderItems) item =>
                  let* product :=
                    query (fun d =>
                             D.select_active_product cfg d (productId item)) in
                  match product with
                  | None =>
                      reply (Status 400
                               ("Product " ++ pretty (productId item)
                                  ++ " not found"))
                  | Some product =>
                      if negb (D.is_digital product)
                         && (D.inventory_count product <? quantity item)%Z
                      then
                        reply (Status 400
                                 ("Insufficient stock for " ++ D.title product))
                      else
                        ret (subtotal
                               + D.Number (D.price product)
                                 * inject_Z (quantity item),
                             totalWeight
                               + weight_or_default (D.weight product)
                                 * inject_Z (quantity item),
                             (orderItems ++
                                [ {| D.productId := D.id product;
                                     D.itemTitle := D.title product;
                                     D.itemPrice := D.price product;
                                     D.quantity := quantity item;
                                     D.itemCategory := D.category product;
                                     D.isDigital := D.is_digital product |} ])%list)
                  end) in
           let shipping :=
             S.calculate S.shippingCalculator (clock env)
               {| S.p_country := D.country shippingAddress;
                  S.p_state := D.state shippingAddress;
                  S.p_weight := Some totalWeight;
                  S.p_subtotal := Some subtotal;
                  S.p_method := Some shippingMethod |} in
           match
             T.calculate T.taxCalculator
               {| T.p_subtotal := subtotal;
                  T.p_country := D.country shippingAddress;
                  T.p_state := D.state shippingAddress;
                  T.p_postalCode := D.postalCode shippingAddress;
                  T.p_category := None;
                  T.p_shipping := Some (S.total shipping) |}
           with
           | None => throw "Error: NaN in a DECIMAL column"
           | Some tax =>
               let total := subtotal + S.total shipping + T.taxAmount tax in
               let* _ :=
                 execute
                   (fun d =>
                      D.insert_session d
                        {| D.session_id := sessionId;
                           D.email := email;
                           D.items := orderItems;
                           D.shipping_address := shippingAddress;
                           D.billing_address :=
                             default shippingAddress (s_billingAddress req);
                           D.subtotal := subtotal;
                           D.shipping_cost := S.total shipping;
                           D.shipping_method := shippingMethod;
                           D.tax_amount := T.taxAmount tax;
                           D.total := total;
                           D.expires_at := (Date.now (clock env) + 3600000)%Z |})
                   "Error: ER_DUP_ENTRY checkout_sessions.session_id" in
               ret (Json
                      {| sessionId := sessionId;
                         email := email;
                         sr_items := orderItems;
                         shippingAddress := shippingAddress;
                         sr_shipping :=
                           {| ss_method := shippingMethod;
                              ss_methodName := S.methodName shipping;
                              ss_cost := S.total shipping;
                              ss_deliveryEstimate := S.deliveryEstimate shipping |};
                         sr_tax :=
                           {| st_rate := T.taxRate tax;
                              st_amount := T.taxAmount tax;
                              st_breakdown := T.breakdown tax |};
                         sr_subtotal := JS.Math_round (subtotal * 100) / 100;
                         sr_total := JS.Math_round (total * 100) / 100;
                         expiresAt :=
                           Date.toISOString (Date.now (clock env) + 3600000)%Z |})
           end
     | _, _ => reply (Invalid errors)
     end).

(** *** POST /complete *)

Record CompleteRequest : Type := {
  c_sessionId : option string;
  paymentIntentId : option string;
  customerName : option string;
  phone : option string
}.

Record OrderView : Type := {
  ov_orderNumber : string;
  ov_email : string;
  ov_total : D.Decimal;
  ov_items : list D.OrderItem
}.

Record CompleteResponse : Type := {
  success : bool;
  orderNumber : string;
  message : string;
  order : OrderView
}.

(** The [// Update inventory] loop: one [UPDATE] per item that is not
    digital. *)
Definition updateInventory {R : Type} (items : list D.OrderItem) : M R unit :=
  for_of items tt
    (fun _ item =>
       if negb (D.isDigital item)
       then update (fun d =>
                      D.decrement_inventory d (D.quantity item) (D.productId item))
       else ret tt).

Definition complete (cfg : D.DbConfig) (env : Env) (req : CompleteRequest)
  : World -> Reply CompleteResponse * World :=
  try_catch "Complete order error:" "Failed to complete order"
    (let errors :=
       validationResult
         [ (notEmpty (c_sessionId req), "Session ID required");
           (notEmpty (customerName req), "Customer name required") ] in
     if negb (isEmpty errors) then reply (Invalid errors)
     else
       let sessionId := JS.String_of (c_sessionId req) in
       let customerName := JS.String_of (customerName req) in
       let* session := query (fun d => D.select_session cfg d sessionId) in
       match session with
       | None => reply (Status 404 "Checkout session not found or expired")
       | Some session =>
           let orderNumber :=
             "WXC-" ++ JS.toUpperCase (String.substring 0 8 (uuidv4 env)) in
           let* _ :=
             execute
               (fun d =>
                  D.insert_order d
                    {| D.order_number := orderNumber;
                       D.customer_email := D.email session;
                       D.customer_name := customerName;
                       D.customer_phone := JS.or_null (phone req);
                       D.order_shipping_address := D.shipping_address session;
                       D.order_billing_address := D.billing_address session;
                       D.order_items := D.items session;
                       D.order_subtotal := D.Number (D.subtotal session);
                       D.order_shipping := D.Number (D.shipping_cost session);
                       D.order_tax := D.Number (D.tax_amount session);
                       D.order_total := D.Number (D.total session);
                       D.order_shipping_method := D.shipping_method session;
                       D.payment_intent_id := JS.or_null (paymentIntentId req);
                       D.status := "paid" |})
               "Error: ER_DUP_ENTRY orders.order_number" in
           let items := D.items session in
           let* _ := updateInventory items in
           let* _ := update (fun d => D.delete_session d sessionId) in
           let* _ :=
             Email.sendOrderConfirmation env
               {| Email.order_number := orderNumber;
                  Email.customer_email := D.email session;
                  Email.customer_name := customerName;
                  Email.items := D.items session;
                  Email.subtotal := D.subtotal session;
                  Email.shipping := D.shipping_cost session;
                  Email.tax := D.tax_amount session;
                  Email.total := D.total session |} in
           ret (Json
                  {| success := true;
                     orderNumber := orderNumber;
                     message := "Order placed successfully!";
                     order :=
                       {| ov_orderNumber := orderNumber;
                          ov_email := D.email session;
                          ov_total := D.total session;
                          ov_items := items |} |})
       end).

End Checkout.

(** ** A shop with one product, and the requests of one customer *)

Module Scenario.

Import Handler.
Local Open Scope string_scope.
Local Open Scope Q_scope.

Definition hoodie : Database.Product Q :=
  {| Database.id := 1; Database.title := "Neon Rebel Hoodie";
     Database.price := 30; Database.category := "apparel";
     Database.inventory_count := 5; Database.is_digital := false;
     Database.is_active := true; Database.weight := None |}.

Definition shop : World :=
  {| db := {| Database.products := {[ 1%Z := hoodie ]};
              Database.checkout_sessions := ∅;
              Database.orders := [] |};
     console := [];
     outbox := [] |}.

(** 2026-11-01T19:42:03.456Z, a Sunday. *)
Definition sunday : Z := 1793562123456.

Definition envAt (now : Z) (uuid : string) (mail : SendMail) : Env :=
  {| clock := {| Date.now := now; Date.utcOffset := 0 |};
     uuidv4 := uuid;
     sendMail := mail |}.

Definition cart : list Checkout.CartItem :=
  [ {| Checkout.productId := 1; Checkout.quantity := 2 |} ].


Definition address : Database.Address :=
  {| Database.line1 := Some "1 Main St"; Database.line2 := None;
     Database.city := Some "Los Angeles"; Database.state := Some "CA";
     Database.postalCode := Some "90001"; Database.country := Some "US" |}.

Definition sessionRequest : Checkout.SessionRequest :=
  {| Checkout.s_items := cart; Checkout.s_email := Some "ann@example.com";
     Checkout.s_shippingAddress := Some address;
     Checkout.s_billingAddress := None;
     Checkout.s_shippingMethod := Some "standard" |}.

Definition sessionUuid : string := "3f2a9c1e-5d47-4b8a-9c1e-0a1b2c3d4e5f".
Definition orderUuid : string := "9b1d7e20-6c58-4f9b-8d2f-1b2c3d4e5f60".
Definition sessionId : string := "cs_" ++ sessionUuid.

Definition completeRequest : Checkout.CompleteRequest :=
  {| Checkout.c_sessionId := Some sessionId;
     Checkout.paymentIntentId := Some "pi_1";
     Checkout.customerName := Some "Ann";
     Checkout.phone := None |}.

(** The shop after the customer created a checkout session on [sunday],
    under a connection that decodes [DECIMAL] columns as [cfg] says. *)
Definition withSession (cfg : Database.DbConfig) : World :=
  snd (Checkout.create_session (fun _ => true) cfg
         (envAt sunday sessionUuid (Resolves "m0")) sessionRequest shop).

(** A stored checkout session for two hoodies, and a shop that holds it. *)
Definition paidSession : Database.Session Q :=
  {| Database.session_id := sessionId;
     Database.email := "ann@example.com";
     Database.items :=
       [ {| Database.productId := 1; Database.itemTitle := "Neon Rebel Hoodie";
            Database.itemPrice := Database.AsNumber 30; Database.quantity := 2;
            Database.itemCategory := "apparel"; Database.isDigital := false |} ];
     Database.shipping_address := address;
     Database.billing_address := address;
     Database.subtotal := 60;
     Database.shipping_cost := 5.99;
     Database.shipping_method := "standard";
     Database.tax_amount := 4.35;
     Database.total := 70.34;
     Database.expires_at := (sunday + 3600000)%Z |}.

Definition shopWithSession : World :=
  {| db := {| Database.products := {[ 1%Z := hoodie ]};
              Database.checkout_sessions := {[ sessionId := paidSession ]};
              Database.orders := [] |};
     console := [];
     outbox := [] |}.

End Scenario.

(** ** Vocabulary of the specification

  The notions the properties below are stated with.  Each follows the
  wording of the specification or of the property, not the code. *)

Module Spec.

Import JS.
Local Open Scope string_scope.
Local Open Scope Q_scope.

(** [round(x, 2 decimals)]. *)
Definition round2 (x : Q) : Q := Math_round (x * 100) / 100.

(** The configured sales-tax rate of a state code, if it has one. *)
Definition stateRate (code : option string) : option Q :=
  own TaxCalculator.US_STATE_TAX_RATES (String_of code).

(** The five no-sales-tax states. *)
Definition noSalesTaxStates : list string := ["AK"; "DE"; "MT"; "NH"; "OR"].

(** The provincial rate of a province code: the entry of the provincial
    table, 0 for an unknown province. *)
Definition provincialRate (code : option string) : Q :=
  default 0 (own TaxCalculator.CANADIAN_PROVINCIAL_TAX (String_of code)).

(** The label of the provincial line, by province group. *)
Definition provincialLabel (code : option string) : string :=
  if includes ["NB"; "NL"; "NS"; "ON"; "PE"] code
  then "HST (provincial portion)"
  else if equals code "QC" then "QST"
  else "PST".

(** The sum of the amounts of a breakdown. *)
Definition sumAmounts (lines : list TaxCalculator.TaxLine) : Q :=
  fold_right (fun line acc => TaxCalculator.amount line + acc) 0 lines.

(** A category is taxable when the category check of [calculate] lets it
    through. *)
Definition taxableCategory (category : option string) : bool :=
  TaxCalculator.is_taxable
    (TaxCalculator.categoryInfo (default "apparel" category)).

(** The rate table has an entry for the method and the destination. *)
Definition hasRateEntry (country : option string) (method : string) : bool :=
  if equals country "US"
  then bool_decide (is_Some (own ShippingCalculator.SHIPPING_RATES_US method))
  else bool_decide
         (is_Some (own ShippingCalculator.SHIPPING_RATES_international method)).

(** The standard-method rate of a zone. *)
Definition standardRate (zone : ShippingCalculator.Zone) : Q :=
  match zone with
  | ShippingCalculator.Domestic z => ShippingCalculator.US_standard z
  | ShippingCalculator.International z =>
      ShippingCalculator.international_standard z
  end.

(** A character is a lower-case letter; a string contains one. *)
Definition is_lower (c : ascii) : bool :=
  let n := nat_of_ascii c in ((97 <=? n) && (n <=? 122))%nat.

Fixpoint has_lower (s : string) : bool :=
  match s with
  | EmptyString => false
  | String c r => is_lower c || has_lower r
  end.



(** The instant falls on a day from Monday to Friday, local time. *)
Definition isBusinessDay (clock : Date.Clock) (t : Z) : bool :=
  (negb (Date.getDay clock t =? 0) && negb (Date.getDay clock t =? 6))%Z.

(** The number of business days among the [n] days that follow [t]. *)
Fixpoint businessDaysAfter (clock : Date.Clock) (t : Z) (n : nat) : nat :=
  match n with
  | O => O
  | S k =>
      ((if isBusinessDay clock (t + Date.msPerDay) then 1 else 0)
       + businessDaysAfter clock (t + Date.msPerDay) k)%nat
  end.

(** The string is made of exactly one character of each class, in order. *)
Fixpoint shaped (classes : list (ascii -> bool)) (s : string) : bool :=
  match classes, s with
  | [], EmptyString => true
  | p :: ps, String c r => p c && shaped ps r
  | _, _ => false
  end.

(** A regular expression that visibly matches no string. *)
Fixpoint matchesNothing (r : RegExp) : bool :=
  match r with
  | Never => true
  | Empty => false
  | Class _ => false
  | Seq r s => matchesNothing r || matchesNothing s
  | Alt r s => matchesNothing r && matchesNothing s
  end.

(** A ZIP code: five digits, or five digits, a hyphen and four digits. *)
Definition isZipCode (s : string) : bool :=
  shaped [digit; digit; digit; digit; digit] s
  || shaped [digit; digit; digit; digit; digit; literal "-";
             digit; digit; digit; digit] s.

(** A Canadian postal code: letter digit letter, digit letter digit, with
    nothing, a space or a hyphen between the two halves. *)
Definition isPostalCode (s : string) : bool :=
  shaped [letter; digit; letter; digit; letter; digit] s
  || shaped [letter; digit; letter; literal " "; digit; letter; digit] s
  || shaped [letter; digit; letter; literal "-"; digit; letter; digit] s.

(** The row of a product with its stock set to [n]. *)
Definition withInventory (row : Database.Product Q) (n : Z) : Database.Product Q :=
  {| Database.id := Database.id row; Database.title := Database.title row;
     Database.price := Database.price row;
     Database.category := Database.category row;
     Database.inventory_count := n;
     Database.is_digital := Database.is_digital row;
     Database.is_active := Database.is_active row;
     Database.weight := Database.weight row |}.

(** The units of product [key] among the items that are not digital. *)
Definition orderedQuantity (key : Z) (items : list Database.OrderItem) : Z :=
  fold_right
    (fun item acc =>
       if negb (Database.isDigital item) && (Database.productId item =? key)%Z
       then (Database.quantity item + acc)%Z else acc)
    0%Z items.

(** An item of a session is the cart line it was made from: the product
    of the line is in the catalog [d] and active, the item carries its id,
    title, price and kind and the quantity of the line, and the line asks
    for no more than the stock unless the product is digital. *)
Definition orderLine (d : Database.Database) (line : Checkout.CartItem)
    (item : Database.OrderItem) : Prop :=
  exists row,
    Database.products d !! Checkout.productId line = Some row
    /\ Database.is_active row = true
    /\ Database.productId item = Database.id row
    /\ Database.itemTitle item = Database.title row
    /\ Database.Number (Database.itemPrice item) = Database.price row
    /\ Database.quantity item = Checkout.quantity line
    /\ Database.isDigital item = Database.is_digital row
    /\ (Database.is_digital row = false ->
        (Checkout.quantity line <= Database.inventory_count row)%Z).

(** [round(x, 2 decimals)] as the code computes it:
    [Math.round(x * 100) / 100] on binary64 numbers. *)
Definition roundCents (x : Double.double) : Double.double :=
  Double.div (Double.Math_round (Double.mul x (Double.of_Z 100))) (Double.of_Z 100).



End Spec.

(** * Properties *)

(** ** Numbers and strings *)

Section Numbers.

Import JS Spec.
Local Open Scope Q_scope.

Lemma Math_round_comp (x y : Q) : x == y -> Math_round x == Math_round y.
Proof.
  intros H. unfold Math_round. rewrite H. reflexivity.
Qed.

Lemma round2_comp (x y : Q) : x == y -> round2 x == round2 y.
Proof.
  intros H. unfold round2. apply Qmult_comp; [| reflexivity].
  apply Math_round_comp. rewrite H. reflexivity.
Qed.

Lemma round2_0 : round2 0 == 0.
Proof. reflexivity. Qed.

Lemma round2_mult_0 (x : Q) : round2 (x * 0) == 0.
Proof. rewrite (round2_comp (x * 0) 0) by ring. apply round2_0. Qed.

Lemma Math_round_nonneg (x : Q) : 0 <= x -> 0 <= Math_round x.
Proof.
  intros H. unfold Math_round.
  change 0 with (inject_Z 0). rewrite <- Zle_Qle.
  change 0%Z with (Qfloor 0). apply Qfloor_resp_le. lra.
Qed.

Lemma round2_nonneg (x : Q) : 0 <= x -> 0 <= round2 x.
Proof.
  intros H. unfold round2.
  assert (0 <= Math_round (x * 100)) by (apply Math_round_nonneg; lra).
  apply Qle_shift_div_l; lra.
Qed.

Lemma Math_max_spec (a b : Q) :
  (a <= b /\ Math_max a b = b) \/ (b < a /\ Math_max a b = a).
Proof.
  unfold Math_max. destruct (Qle_bool a b) eqn:E.
  - left. split; [apply Qle_bool_iff; exact E | reflexivity].
  - right. split; [| reflexivity].
    apply Qnot_le_lt. intros H. apply Qle_bool_iff in H. congruence.
Qed.

Lemma truthy_false (x : Q) : truthy x = false <-> x == 0.
Proof.
  unfold truthy. rewrite negb_false_iff. apply Qeq_bool_iff.
Qed.

Lemma truthy_true (x : Q) : truthy x = true <-> ~ x == 0.
Proof.
  unfold truthy. rewrite negb_true_iff. split.
  - intros H E. apply Qeq_bool_iff in E. congruence.
  - intros H. destruct (Qeq_bool x 0) eqn:E; [| reflexivity].
    apply Qeq_bool_iff in E. contradiction.
Qed.

Lemma or_else_0 (x : Q) : or_else x 0 == x.
Proof.
  unfold or_else. destruct (truthy x) eqn:E; [reflexivity |].
  apply truthy_false in E. symmetry. exact E.
Qed.

End Numbers.

Section Strings.

Import JS Spec.

Lemma upper_ascii_not_lower (c : ascii) : is_lower (upper_ascii c) = false.
Proof.
  destruct c as [[] [] [] [] [] [] [] []]; reflexivity.
Qed.

Lemma toUpperCase_no_lower (s : string) : has_lower (toUpperCase s) = false.
Proof.
  induction s as [| c r IH]; simpl; [reflexivity |].
  rewrite upper_ascii_not_lower, IH. reflexivity.
Qed.

Lemma Object_prototype_lower :
  forallb has_lower Object_prototype = true.
Proof. reflexivity. Qed.

(** An upper-cased code, or [undefined], never names an inherited
    member. *)
Lemma upper_not_inherited (s : option string) :
  existsb (String.eqb (String_of (toUpperCase_opt s))) Object_prototype = false.
Proof.
  destruct s as [s |]; [| reflexivity].
  unfold toUpperCase_opt, option_map, String_of.
  destruct (existsb (String.eqb (toUpperCase s)) Object_prototype) eqn:E;
    [| reflexivity].
  apply existsb_exists in E as [k [Hin Hk]].
  apply String.eqb_eq in Hk. subst k.
  pose proof Object_prototype_lower as P.
  rewrite forallb_forall in P. apply P in Hin.
  rewrite toUpperCase_no_lower in Hin. discriminate.
Qed.

Lemma get_upper {A : Type} (o : list (string * A)) (s : option string) :
  get o (String_of (toUpperCase_opt s))
  = match own o (String_of (toUpperCase_opt s)) with
    | Some v => Own v
    | None => Undefined
    end.
Proof.
  unfold get. destruct (own o _); [reflexivity |].
  rewrite upper_not_inherited. reflexivity.
Qed.

Lemma includes_In (l : list string) (x : option string) :
  includes l x = true <-> exists s, x = Some s /\ In s l.
Proof.
  destruct x as [s |]; simpl.
  - rewrite existsb_exists. split.
    + intros [k [Hin Hk]]. apply String.eqb_eq in Hk. subst k. eauto.
    + intros [k [Hk Hin]]. injection Hk as ->. exists k. split; [exact Hin |].
      apply String.eqb_refl.
  - split; [discriminate |]. intros [s [H _]]. discriminate.
Qed.

End Strings.

(** ** The tax calculator *)

Section TaxProperties.

Import JS Spec TaxCalculator.
Local Open Scope string_scope.
Local Open Scope Q_scope.

Lemma own_In {A : Type} (o : list (string * A)) (k : string) (v : A) :
  own o k = Some v -> In (k, v) o.
Proof.
  induction o as [| [k' v'] o IH]; simpl; [discriminate |].
  destruct (String.eqb k k') eqn:E.
  - intros H. injection H as ->. apply String.eqb_eq in E. subst. now left.
  - intros H. right. now apply IH.
Qed.

Lemma provincial_rates_nonneg (k : string) (r : Q) :
  own CANADIAN_PROVINCIAL_TAX k = Some r -> 0 <= r.
Proof.
  intros H. apply own_In in H.
  assert (F : Forall (fun kv : string * Q => 0 <= snd kv) CANADIAN_PROVINCIAL_TAX)
    by (repeat constructor; discriminate).
  rewrite List.Forall_forall in F. exact (F _ H).
Qed.

Lemma provincialRate_nonneg (code : option string) : 0 <= provincialRate code.
Proof.
  unfold provincialRate.
  destruct (own CANADIAN_PROVINCIAL_TAX (String_of code)) eqn:E; simpl.
  - eapply provincial_rates_nonneg, E.
  - discriminate.
Qed.

(** The provincial rate the code computes is the rate of the table. *)
Lemma rate_or_0_provincial (province : option string) :
  exists rate,
    rate_or_0 CANADIAN_PROVINCIAL_TAX (String_of (toUpperCase_opt province))
    = Some rate
    /\ rate == provincialRate (toUpperCase_opt province).
Proof.
  unfold rate_or_0, provincialRate. rewrite get_upper.
  destruct (own CANADIAN_PROVINCIAL_TAX _) as [r |]; simpl.
  - exists (or_else r 0). split; [reflexivity | apply or_else_0].
  - exists 0. split; reflexivity.
Qed.

Lemma gt_0_nonneg (x : Q) : 0 <= x -> (gt x 0 = true <-> ~ x == 0).
Proof.
  intros H. unfold gt. rewrite negb_true_iff. split.
  - intros E Z. assert (L : Qle_bool x 0 = true) by (apply Qle_bool_iff; lra).
    congruence.
  - intros N. destruct (Qle_bool x 0) eqn:E; [| reflexivity].
    apply Qle_bool_iff in E. exfalso. apply N. lra.
Qed.

(** Every entry of the category table is taxable. *)
Lemma categories_taxable (k : string) (i : CategoryInfo) :
  own TAX_CATEGORIES k = Some i -> taxable i = true.
Proof.
  intros H. apply own_In in H.
  simpl in H. repeat destruct H as [H | H]; try (injection H as _ <-; reflexivity).
  contradiction.
Qed.

(** The category check passes for a missing category, for every entry
    of the table and for every other name, except the names of the
    members inherited from [Object.prototype]. *)
Lemma taxableCategory_iff (category : option string) :
  taxableCategory category
  = negb (existsb (String.eqb (default "apparel" category)) Object_prototype).
Proof.
  unfold taxableCategory, categoryInfo, get.
  destruct (own TAX_CATEGORIES (default "apparel" category)) as [i |] eqn:E.
  - simpl. rewrite (categories_taxable _ _ E).
    apply own_In in E. simpl in E.
    repeat destruct E as [E | E]; try (injection E as <- _; reflexivity).
    contradiction.
  - destruct (existsb _ Object_prototype); reflexivity.
Qed.

(** Once the category check has passed, [calculate] dispatches on the
    country. *)
Lemma calculate_taxable (this : TaxCalculator) (p : Params) :
  taxableCategory (p_category p) = true ->
  calculate this p =
    let result :=
      {| subtotal := p_subtotal p; shipping := default 0 (p_shipping p);
         taxableAmount := p_subtotal p; taxRate := 0; taxAmount := 0;
         total := p_subtotal p + default 0 (p_shipping p);
         breakdown := []; jurisdiction := None |} in
    if equals (p_country p) "US"
    then calculateUSTax this result (p_state p) (p_postalCode p)
           (default 0 (p_shipping p))
    else if equals (p_country p) "CA"
    then calculateCanadianTax result (p_state p) (default 0 (p_shipping p))
    else if has_vat_rate (String_of (p_country p))
    then calculateVAT result (String_of (p_country p)) (default 0 (p_shipping p))
    else Some result.
Proof.
  intros H. unfold taxableCategory in H. unfold calculate.
  cbv zeta. rewrite H. reflexivity.
Qed.

(** [calculate] yields a result for every country that does not name a
    member inherited from [Object.prototype]. *)
Lemma calculate_returns (this : TaxCalculator) (p : Params) :
  existsb (String.eqb (String_of (p_country p))) Object_prototype = false ->
  exists r, calculate this p = Some r.
Proof.
  intros Hk. unfold calculate. cbv zeta.
  destruct (negb (is_taxable _)); [eauto |].
  destruct (equals (p_country p) "US").
  { unfold calculateUSTax.
    destruct (_ && _); [eauto |].
    unfold rate_or_0. rewrite get_upper.
    destruct (own US_STATE_TAX_RATES _); destruct (Qeq_bool _ 0); eauto. }
  destruct (equals (p_country p) "CA").
  { unfold calculateCanadianTax.
    destruct (rate_or_0_provincial (p_state p)) as [rate [-> _]]. eauto. }
  destruct (has_vat_rate _); [| eauto].
  unfold calculateVAT, rate_or_0, get. rewrite Hk.
  destruct (own INTERNATIONAL_VAT_RATES _); [| eauto].
  destruct (Qeq_bool _ 0); eauto.
Qed.

(** C10. A category that names a member inherited from
    [Object.prototype], here [toString], is not replaced by the apparel
    entry: the category check fails and the order is returned untaxed,
    where the default category is taxed 7.25. *)
Theorem inherited_category_is_untaxed :
  let p category :=
    {| p_subtotal := 100; p_country := Some "US"; p_state := Some "CA";
       p_postalCode := None; p_category := category; p_shipping := None |} in
  taxableCategory (Some "toString") = false
  /\ (exists r, calculate taxCalculator (p (Some "toString")) = Some r
                /\ taxAmount r == 0 /\ breakdown r = []
                /\ jurisdiction r = None)
  /\ (exists r, calculate taxCalculator (p None) = Some r
                /\ taxAmount r == 7.25)
  /\ (exists r, calculate taxCalculator (p (Some "no such category")) = Some r
                /\ taxAmount r == 7.25).
Proof.
  split; [reflexivity |].
  split; [eexists; repeat split; reflexivity |].
  split; eexists; split; reflexivity.
Qed.

(** Every category whose name is inherited fails the category check, and
    [calculate] returns the untaxed order. *)
Lemma inherited_category_returns_untaxed (this : TaxCalculator) (p : Params)
    (category : string) :
  p_category p = Some category ->
  In category Object_prototype ->
  calculate this p
  = Some {| subtotal := p_subtotal p; shipping := default 0 (p_shipping p);
            taxableAmount := p_subtotal p; taxRate := 0; taxAmount := 0;
            total := p_subtotal p + default 0 (p_shipping p);
            breakdown := []; jurisdiction := None |}.
Proof.
  intros Hc Hin. unfold calculate. cbv zeta.
  pose proof (taxableCategory_iff (p_category p)) as G.
  unfold taxableCategory in G. rewrite G, Hc. simpl default.
  assert (E : existsb (String.eqb category) Object_prototype = true).
  { apply existsb_exists. exists category. split; [exact Hin |].
    apply String.eqb_refl. }
  rewrite E. reflexivity.
Qed.

End TaxProperties.

(** ** The shipping calculator *)

Section ShippingProperties.

Import JS Spec ShippingCalculator.
Local Open Scope string_scope.
Local Open Scope Q_scope.

(** An own entry of a rate table is never zero, so [||] keeps it. *)
Lemma lookupBaseRate_US (method : string) (byZone : USZone -> Q) (z : USZone) :
  own SHIPPING_RATES_US method = Some byZone ->
  lookupBaseRate SHIPPING_RATES_US US_standard method z = byZone z.
Proof.
  intros H. unfold lookupBaseRate, get. rewrite H.
  apply own_In in H. simpl in H.
  repeat destruct H as [H | H]; try contradiction;
    injection H as _ <-; destruct z; reflexivity.
Qed.

Lemma lookupBaseRate_international (method : string)
    (byZone : InternationalZone -> Q) (z : InternationalZone) :
  own SHIPPING_RATES_international method = Some byZone ->
  lookupBaseRate SHIPPING_RATES_international international_standard method z
  = byZone z.
Proof.
  intros H. unfold lookupBaseRate, get. rewrite H.
  apply own_In in H. simpl in H.
  repeat destruct H as [H | H]; try contradiction;
    injection H as _ <-; destruct z; reflexivity.
Qed.

(** A method without an own entry takes the standard rate. *)
Lemma lookupBaseRate_missing {Z : Type} (rates : list (string * (Z -> Q)))
    (standard : Z -> Q) (method : string) (z : Z) :
  own rates method = None ->
  lookupBaseRate rates standard method z = standard z.
Proof.
  intros H. unfold lookupBaseRate, get. rewrite H.
  destruct (existsb _ Object_prototype); reflexivity.
Qed.

(** When free shipping is on, the designated method is [standard] for
    every country. *)
Lemma freeMethod_standard (this : ShippingCalculator) (country : option string)
    (subtotal : Q) (m : option string) (method : string) :
  eligible (checkFreeShipping this country subtotal m)
  && bool_decide (Some method = freeMethod (checkFreeShipping this country subtotal m))
  = eligible (checkFreeShipping this country subtotal m)
    && String.eqb method "standard".
Proof.
  unfold checkFreeShipping.
  destruct (freeShippingEnabled this); simpl; [| reflexivity].
  f_equal.
  unfold FREE_SHIPPING_US_method, FREE_SHIPPING_international_method.
  destruct (equals country "US");
    destruct (String.eqb_spec method "standard") as [-> | N];
    try reflexivity; apply bool_decide_eq_false; congruence.
Qed.

(** The total in terms of the other fields of the quote. *)
Lemma total_formula (this : ShippingCalculator) (clock : Date.Clock) (p : Params) :
  let q := calculate this clock p in
  total q
  == (if eligible (freeShipping q)
         && String.eqb (default "standard" (p_method p)) "standard"
      then 0
      else round2 (baseRate q + weightSurcharge q + quoteHandlingFee q)).
Proof.
  intros q. unfold q, calculate. cbv zeta. simpl.
  rewrite freeMethod_standard.
  destruct (eligible _ && String.eqb _ "standard"); reflexivity.
Qed.

(** Base rates are positive and surcharges are not negative, so with a
    handling fee that is not negative the sum is positive and a clamp at
    0 would change nothing. *)
Lemma baseRate_positive (this : ShippingCalculator) (clock : Date.Clock)
    (p : Params) :
  0 < baseRate (calculate this clock p).
Proof.
  unfold calculate. cbv zeta. simpl.
  destruct (equals (p_country p) "US"); unfold lookupBaseRate, get.
  - destruct (own SHIPPING_RATES_US _) as [f |] eqn:E.
    + apply own_In in E. simpl in E.
      repeat destruct E as [E | E]; try contradiction;
        injection E as _ <-; destruct (getUSZone _); reflexivity.
    + destruct (existsb _ _); destruct (getUSZone _); reflexivity.
  - destruct (own SHIPPING_RATES_international _) as [f |] eqn:E.
    + apply own_In in E. simpl in E.
      repeat destruct E as [E | E]; try contradiction;
        injection E as _ <-; destruct (getInternationalZone _); reflexivity.
    + destruct (existsb _ _); destruct (getInternationalZone _); reflexivity.
Qed.

Lemma weightSurcharge_nonneg (this : ShippingCalculator) (clock : Date.Clock)
    (p : Params) :
  0 <= weightSurcharge (calculate this clock p).
Proof.
  unfold calculate. cbv zeta. simpl.
  destruct (Math_max_spec 0 (default 1 (p_weight p) - 1)) as [[H ->] | [H ->]];
    destruct (equals (p_country p) "US");
    unfold WEIGHT_SURCHARGES_US, WEIGHT_SURCHARGES_international; lra.
Qed.




(** C9. A method with no entry in the rate table of the destination is
    quoted at the standard rate of the computed zone. *)
Theorem unknown_method_takes_standard_rate (this : ShippingCalculator)
    (clock : Date.Clock) (p : Params) :
  hasRateEntry (p_country p) (default "standard" (p_method p)) = false ->
  let q := calculate this clock p in
  method q = default "standard" (p_method p)
  /\ zone q
     = (if equals (p_country p) "US" then Domestic (getUSZone (p_state p))
        else International (getInternationalZone (p_country p)))
  /\ baseRate q = standardRate (zone q).
Proof.
  intros H q. unfold hasRateEntry in H. unfold q, calculate. cbv zeta. simpl.
  split; [reflexivity |]. split; [reflexivity |].
  destruct (equals (p_country p) "US"); simpl;
    apply lookupBaseRate_missing;
    apply bool_decide_eq_false in H;
    destruct (own _ _); [exfalso; apply H; eauto | reflexivity
                        | exfalso; apply H; eauto | reflexivity].
Qed.

Lemma unknown_method_takes_standard_rate_witness :
  let q := calculate shippingCalculator
             {| Date.now := 1793562123456; Date.utcOffset := 0 |}
             {| p_country := Some "GB"; p_state := None; p_weight := None;
                p_subtotal := Some 20; p_method := Some "overnight" |} in
  hasRateEntry (Some "GB") "overnight" = false
  /\ method q = "overnight"
  /\ zone q = International ZoneB
  /\ baseRate q = standardRate (zone q).
Proof.
  split; [reflexivity |].
  exact (unknown_method_takes_standard_rate shippingCalculator
           {| Date.now := 1793562123456; Date.utcOffset := 0 |}
           {| p_country := Some "GB"; p_state := None; p_weight := None;
              p_subtotal := Some 20; p_method := Some "overnight" |} eq_refl).
Defined.

End ShippingProperties.

(** ** The delivery estimate *)

Section DateProperties.

Import ShippingCalculator.
Local Open Scope Z_scope.

Lemma getDay_range (clock : Date.Clock) (t : Z) : 0 <= Date.getDay clock t < 7.
Proof. unfold Date.getDay. apply Z.mod_pos_bound. lia. Qed.

Lemma getDay_next (clock : Date.Clock) (t : Z) :
  Date.getDay clock (t + Date.msPerDay) = (Date.getDay clock t + 1) mod 7.
Proof.
  unfold Date.getDay, Date.day_of.
  replace (t + Date.msPerDay + Date.utcOffset clock)
    with (t + Date.utcOffset clock + 1 * Date.msPerDay) by ring.
  rewrite Z.div_add by (unfold Date.msPerDay; lia).
  rewrite Zplus_mod_idemp_l. f_equal. ring.
Qed.

(** Of three consecutive days one is a business day. *)
Lemma no_three_weekend_days (clock : Date.Clock) (t : Z) :
  let isBusinessDay d :=
    negb (Date.getDay clock d =? 0) && negb (Date.getDay clock d =? 6) in
  isBusinessDay (t + Date.msPerDay) = false ->
  isBusinessDay (t + Date.msPerDay + Date.msPerDay) = false ->
  isBusinessDay (t + Date.msPerDay + Date.msPerDay + Date.msPerDay) = true.
Proof.
  cbv beta zeta. rewrite !getDay_next.
  pose proof (getDay_range clock t) as R.
  assert (C : Date.getDay clock t = 0 \/ Date.getDay clock t = 1
              \/ Date.getDay clock t = 2 \/ Date.getDay clock t = 3
              \/ Date.getDay clock t = 4 \/ Date.getDay clock t = 5
              \/ Date.getDay clock t = 6) by lia.
  destruct C as [-> | [-> | [-> | [-> | [-> | [-> | ->]]]]]];
    vm_compute; congruence.
Qed.

(** Three iterations per business day are enough: more fuel does not
    change what the loop returns. *)
Lemma addBusinessDays_loop_enough (clock : Date.Clock) (n : nat) :
  forall (fuel extra : nat) (result added days : Z),
    days - added <= Z.of_nat n ->
    (3 * n <= fuel)%nat ->
    addBusinessDays_loop clock (fuel + extra) result added days
    = addBusinessDays_loop clock fuel result added days.
Proof.
  induction n as [| n IH]; intros fuel extra result added days Hd Hf.
  - assert (E : (added <? days) = false) by (apply Z.ltb_ge; lia).
    destruct fuel, extra; simpl; rewrite ?E; reflexivity.
  - destruct fuel as [| [| [| fuel]]]; try lia.
    change (S (S (S fuel)) + extra)%nat with (S (S (S fuel) + extra)).
    cbn [addBusinessDays_loop].
    destruct (added <? days) eqn:Ha; [| reflexivity].
    pose proof (no_three_weekend_days clock result) as W. cbv beta zeta in W.
    destruct (negb (Date.getDay clock (result + Date.msPerDay) =? 0)
              && negb (Date.getDay clock (result + Date.msPerDay) =? 6)).
    { apply IH; lia. }
    change (S (S fuel) + extra)%nat with (S (S fuel + extra)).
    cbn [addBusinessDays_loop]. rewrite Ha.
    destruct (negb (Date.getDay clock (result + Date.msPerDay + Date.msPerDay) =? 0)
              && negb (Date.getDay clock (result + Date.msPerDay + Date.msPerDay) =? 6)).
    { apply IH; lia. }
    change (S fuel + extra)%nat with (S (fuel + extra)).
    cbn [addBusinessDays_loop]. rewrite Ha.
    rewrite (W eq_refl eq_refl).
    apply IH; lia.
Qed.

(** [addBusinessDays] is the value of the source loop: the fuel it runs
    on is never exhausted before [added] reaches [days]. *)
Lemma addBusinessDays_terminates (clock : Date.Clock) (date days : Z) (extra : nat) :
  addBusinessDays_loop clock (Z.to_nat (3 * days) + extra) date 0 days
  = addBusinessDays clock date days.
Proof.
  unfold addBusinessDays.
  apply (addBusinessDays_loop_enough clock (Z.to_nat days)); lia.
Qed.

End DateProperties.

(** ** The checkout routes *)

Section CheckoutProperties.

Import JS Spec Handler Checkout.
Local Open Scope string_scope.
Local Open Scope Q_scope.










(** The inventory loop only touches [products]. *)
Lemma updateInventory_frame {R : Type} (items : list D.OrderItem) (w : World) :
  exists w',
    @updateInventory R items w = (Value tt, w')
    /\ D.orders (db w') = D.orders (db w)
    /\ D.checkout_sessions (db w') = D.checkout_sessions (db w)
    /\ console w' = console w
    /\ outbox w' = outbox w.
Proof.
  unfold updateInventory. revert w.
  induction items as [| item items IH]; intros w; simpl.
  - exists w. repeat split.
  - unfold bind at 1.
    destruct (negb (D.isDigital item)).
    + unfold update, execute. simpl.
      edestruct IH as [w' [E [O [S [C X]]]]].
      exists w'. rewrite E. repeat split; assumption.
    + unfold ret at 1. simpl. apply IH.
Qed.

(** POST /complete takes nothing from the clock: a completion at any other
    instant replies the same and leaves the same world. *)
Lemma complete_does_not_read_the_clock (cfg : D.DbConfig) (env : Env)
    (clock' : Date.Clock) (req : CompleteRequest) (w : World) :
  complete cfg {| clock := clock'; uuidv4 := uuidv4 env; sendMail := sendMail env |}
    req w
  = complete cfg env req w.
Proof. destruct env. reflexivity. Qed.

(** A session that is stored is never answered 404, whatever its
    [expires_at]. *)
Lemma stored_session_is_never_not_found (cfg : D.DbConfig) (env : Env)
    (req : CompleteRequest) (w : World) (row : D.Session Q) :
  notEmpty (c_sessionId req) = true ->
  notEmpty (customerName req) = true ->
  D.checkout_sessions (db w) !! String_of (c_sessionId req) = Some row ->
  forall e, fst (complete cfg env req w) <> Status 404 e.
Proof.
  intros Hs Hn Hrow e. unfold complete, try_catch, validationResult.
  simpl filter. rewrite Hs, Hn. simpl.
  unfold bind at 1. unfold query. simpl.
  unfold D.select_session. rewrite Hrow. simpl.
  unfold bind at 1. unfold execute at 1.
  destruct (D.insert_order _ _) as [d1 |]; [| simpl; discriminate].
  unfold bind at 1.
  match goal with
  | |- context [updateInventory ?items ?w1] =>
      destruct (updateInventory_frame (R := Reply CompleteResponse) items w1)
        as [w2 [E _]]; rewrite E
  end.
  unfold bind at 1. unfold update, execute. simpl.
  unfold bind at 1. unfold Email.sendOrderConfirmation.
  unfold bind at 1. unfold Email.toFixed.
  destruct (D.decode cfg (D.subtotal row)); [| simpl; discriminate].
  unfold bind at 1. unfold ret at 1.
  destruct (D.decode cfg (D.shipping_cost row)); [| simpl; discriminate].
  unfold bind at 1. unfold ret at 1.
  destruct (D.decode cfg (D.total row)); [| simpl; discriminate].
  unfold ret at 1. unfold Email.sendEmail.
  destruct (sendMail env); simpl; discriminate.
Qed.

(** C1. A session created on Sunday at 19:42 expires at 20:42; completed
    at 21:42 it is not answered 404: the order row is written, the stock
    goes from 5 to 3 and the session is deleted, whichever way the
    connection decodes [DECIMAL] columns. *)
Theorem expired_session_is_completed (decimalNumbers : bool) :
  let cfg := {| D.decimalNumbers := decimalNumbers |} in
  let later :=
    Scenario.envAt (Scenario.sunday + 2 * 3600000) Scenario.orderUuid (Resolves "m1") in
  let completed := complete cfg later Scenario.completeRequest (Scenario.withSession cfg) in
  (D.expires_at <$> D.checkout_sessions (db (Scenario.withSession cfg)) !! Scenario.sessionId)
  = Some (Scenario.sunday + 3600000)%Z
  /\ (Scenario.sunday + 3600000 < Date.now (clock later))%Z
  /\ (forall e, fst completed <> Status 404 e)
  /\ map D.order_number (D.orders (db (snd completed))) = ["WXC-9B1D7E20"]
  /\ (D.inventory_count <$> D.products (db (snd completed)) !! 1%Z) = Some 3%Z
  /\ D.checkout_sessions (db (snd completed)) !! Scenario.sessionId = None
  /\ (decimalNumbers = true ->
      exists body, fst completed = Json body /\ success body = true).
Proof.
  destruct decimalNumbers; cbv zeta.
  all: split; [vm_compute; reflexivity |].
  all: split; [vm_compute; reflexivity |].
  all: split; [intros e H; vm_compute in H; discriminate |].
  all: split; [vm_compute; reflexivity |].
  all: split; [vm_compute; reflexivity |].
  all: split; [vm_compute; reflexivity |].
  - intros _. eexists. split; [vm_compute; reflexivity | reflexivity].
  - discriminate.
Qed.

(** Two handler bodies that run the same first step and whose
    continuations end alike, end alike. *)
Lemma bind_same_outcome {R X Y : Type} (c : M R X) (k k' : X -> M R Y) (w : World) :
  (forall x w1, fst (k x w1) = fst (k' x w1) /\ db (snd (k x w1)) = db (snd (k' x w1))) ->
  fst (bind c k w) = fst (bind c k' w)
  /\ db (snd (bind c k w)) = db (snd (bind c k' w)).
Proof.
  intros H. unfold bind. destruct (c w) as [[x | r | e] w1];
    [apply H | split; reflexivity ..].
Qed.

Lemma try_catch_same_outcome {A : Type} (label failure : string)
    (body body' : M (Reply A) (Reply A)) (w : World) :
  fst (body w) = fst (body' w) /\ db (snd (body w)) = db (snd (body' w)) ->
  fst (try_catch label failure body w) = fst (try_catch label failure body' w)
  /\ db (snd (try_catch label failure body w))
     = db (snd (try_catch label failure body' w)).
Proof.
  unfold try_catch. destruct (body w) as [o w1], (body' w) as [o' w1'].
  simpl. intros [<- E]. destruct o; simpl; split; auto.
Qed.

(** X23. Whether the transport accepts or rejects the confirmation mail makes
    no difference to the reply of POST /complete nor to the database. *)
Lemma transport_outcome_is_not_propagated (cfg : D.DbConfig)
    (clock : Date.Clock) (uuid messageId rejection : string)
    (req : CompleteRequest) (w : World) :
  let accepted :=
    complete cfg {| clock := clock; uuidv4 := uuid; sendMail := Resolves messageId |}
      req w in
  let rejected :=
    complete cfg {| clock := clock; uuidv4 := uuid; sendMail := Rejects rejection |}
      req w in
  fst accepted = fst rejected /\ db (snd accepted) = db (snd rejected).
Proof.
  cbv zeta. unfold complete. apply try_catch_same_outcome.
  destruct (negb (isEmpty _)); [split; reflexivity |].
  apply bind_same_outcome. intros [session |] w1; [| split; reflexivity].
  apply bind_same_outcome. intros _ w2.
  apply bind_same_outcome. intros _ w3.
  apply bind_same_outcome. intros _ w4.
  unfold bind, Email.sendOrderConfirmation, Email.toFixed, Email.sendEmail,
    bind, ret, throw.
  simpl.
  destruct (D.subtotal session), (D.shipping_cost session), (D.total session);
    split; reflexivity.
Qed.

(** C8. Under the connection the source configures, completing the
    session of the scenario commits the order, the stock decrement and the
    deletion of the session, then fails while the confirmation is built,
    and the caller is answered 500. *)
Theorem confirmation_failure_fails_the_completion :
  let created := Scenario.withSession D.dbConfig in
  let completed :=
    complete D.dbConfig
      (Scenario.envAt (Scenario.sunday + 60000) Scenario.orderUuid (Resolves "m1"))
      Scenario.completeRequest created in
  fst completed = Status 500 "Failed to complete order"
  /\ console (snd completed)
     = ["Complete order error: TypeError: order.subtotal.toFixed is not a function"]
  /\ outbox (snd completed) = []
  /\ map (fun o => (D.order_number o, D.status o)) (D.orders (db (snd completed)))
     = [("WXC-9B1D7E20", "paid")]
  /\ (D.inventory_count <$> D.products (db (snd completed)) !! 1%Z) = Some 3%Z
  /\ D.checkout_sessions (db (snd completed)) !! Scenario.sessionId = None.
Proof.
  cbv zeta. repeat split; vm_compute; reflexivity.
Qed.

(** The same holds for every stored session: with [DECIMAL] columns
    decoded as strings, a completion that gets as far as the confirmation
    is answered 500. *)
Lemma completion_fails_on_decimal_strings (env : Env)
    (req : CompleteRequest) (w : World) (row : D.Session Q) :
  notEmpty (c_sessionId req) = true ->
  notEmpty (customerName req) = true ->
  D.checkout_sessions (db w) !! String_of (c_sessionId req) = Some row ->
  exists e, fst (complete D.dbConfig env req w) = Status 500 e.
Proof.
  intros Hs Hn Hrow. unfold complete, try_catch, validationResult.
  simpl filter. rewrite Hs, Hn. simpl.
  unfold bind at 1. unfold query. simpl.
  unfold D.select_session. rewrite Hrow. simpl.
  unfold bind at 1. unfold execute at 1.
  destruct (D.insert_order _ _) as [d1 |]; [| simpl; eauto].
  unfold bind at 1.
  match goal with
  | |- context [updateInventory ?items ?w1] =>
      destruct (updateInventory_frame (R := Reply CompleteResponse) items w1)
        as [w2 [E _]]; rewrite E
  end.
  simpl. eauto.
Qed.

End CheckoutProperties.

(** ** More on the tax calculator *)

Section TaxCalculatorFacts.

Import JS Spec TaxCalculator.
Local Open Scope string_scope.
Local Open Scope Q_scope.

Lemma upper_ascii_idempotent (c : ascii) : upper_ascii (upper_ascii c) = upper_ascii c.
Proof. destruct c as [[] [] [] [] [] [] [] []]; reflexivity. Qed.

Lemma toUpperCase_idempotent (s : string) : toUpperCase (toUpperCase s) = toUpperCase s.
Proof.
  induction s as [| c r IH]; simpl; [reflexivity |].
  rewrite upper_ascii_idempotent, IH. reflexivity.
Qed.







Lemma vat_rates_not_zero (k : string) (r : Q) :
  own INTERNATIONAL_VAT_RATES k = Some r -> truthy r = true.
Proof.
  intros H. apply own_In in H.
  assert (F : forallb (fun kv : string * Q => truthy (snd kv)) INTERNATIONAL_VAT_RATES
              = true) by reflexivity.
  rewrite forallb_forall in F. exact (F _ H).
Qed.

(** X4. With a nexus list that is not empty, a US order to a state outside the
    list is not taxed, whatever the rate of the state. *)
Theorem no_nexus_no_tax (this : TaxCalculator) (p : Params) :
  nexusStates this <> [] ->
  p_country p = Some "US" ->
  includes (nexusStates this) (toUpperCase_opt (p_state p)) = false ->
  exists r,
    calculate this p = Some r
    /\ taxAmount r = 0
    /\ taxRate r = 0
    /\ breakdown r = []
    /\ total r = p_subtotal p + default 0 (p_shipping p)
    /\ (taxableCategory (p_category p) = true ->
        jurisdiction r
        = Some (String_of (toUpperCase_opt (p_state p)) ++ " - No nexus")).
Proof.
  intros Hn Hc Hi. unfold taxableCategory, calculate. cbv zeta.
  destruct (is_taxable _); simpl negb; cbv iota.
  2: { eexists. repeat split. discriminate. }
  rewrite Hc. simpl equals. cbv iota. unfold calculateUSTax. rewrite Hi.
  destruct (nexusStates this) as [| n ns]; [contradiction |].
  simpl. eexists. repeat split.
Qed.

Lemma no_nexus_no_tax_witness :
  exists r,
    calculate {| nexusStates := ["CA"; "NY"] |}
      {| p_subtotal := 100; p_country := Some "US"; p_state := Some "tx";
         p_postalCode := None; p_category := None; p_shipping := Some 10 |}
    = Some r
    /\ taxAmount r = 0
    /\ taxRate r = 0
    /\ breakdown r = []
    /\ total r = 100 + 10
    /\ (taxableCategory None = true ->
        jurisdiction r = Some (String_of (Some "TX") ++ " - No nexus")).
Proof.
  refine (no_nexus_no_tax {| nexusStates := ["CA"; "NY"] |}
            {| p_subtotal := 100; p_country := Some "US"; p_state := Some "tx";
               p_postalCode := None; p_category := None; p_shipping := Some 10 |}
            _ eq_refl eq_refl).
  discriminate.
Defined.

(** X5. [isTaxFree] is sound: where it answers true, [calculate] charges no
    tax, for every calculator, category, subtotal and shipping cost. *)
Theorem isTaxFree_means_no_tax (this : TaxCalculator) (p : Params) :
  isTaxFree (p_country p) (p_state p) = true ->
  exists r,
    calculate this p = Some r /\ taxAmount r = 0 /\ breakdown r = [].
Proof.
  unfold isTaxFree, calculate. cbv zeta.
  destruct (negb (is_taxable _)); [intros _; eexists; repeat split |].
  destruct (equals (p_country p) "US") eqn:Hus.
  - intros Hi. unfold calculateUSTax.
    destruct (_ && _); [eexists; repeat split |].
    apply includes_In in Hi as [s [Hs Hin]].
    rewrite Hs. simpl in Hin.
    repeat destruct Hin as [Hin | Hin]; try contradiction; subst s;
      eexists; repeat split.
  - intros Hv. apply negb_true_iff in Hv.
    destruct (equals (p_country p) "CA") eqn:Hca.
    { destruct (p_country p) as [c |]; [| discriminate]. simpl in Hca.
      apply String.eqb_eq in Hca. subst c. discriminate. }
    rewrite Hv. eexists. repeat split.
Qed.

Lemma isTaxFree_means_no_tax_witness :
  exists r,
    calculate {| nexusStates := ["OR"] |}
      {| p_subtotal := 250; p_country := Some "US"; p_state := Some "or";
         p_postalCode := None; p_category := Some "prints";
         p_shipping := Some 9.99 |}
    = Some r /\ taxAmount r = 0 /\ breakdown r = [].
Proof.
  exact (isTaxFree_means_no_tax {| nexusStates := ["OR"] |}
           {| p_subtotal := 250; p_country := Some "US"; p_state := Some "or";
              p_postalCode := None; p_category := Some "prints";
              p_shipping := Some 9.99 |} eq_refl).
Defined.

(** X6. The rate [getTaxRate] displays is the rate [calculate] reports, for a
    calculator without nexus list and a taxable category. *)
Theorem getTaxRate_is_the_rate_charged (this : TaxCalculator) (p : Params) (shown : Q) :
  nexusStates this = [] ->
  taxableCategory (p_category p) = true ->
  getTaxRate (p_country p) (p_state p) = Some shown ->
  exists r, calculate this p = Some r /\ taxRate r == shown.
Proof.
  intros Hn Ht. rewrite (calculate_taxable this p Ht). cbv zeta.
  unfold getTaxRate.
  destruct (equals (p_country p) "US").
  { unfold calculateUSTax. rewrite Hn. simpl andb. cbv iota.
    intros ->. destruct (Qeq_bool shown 0) eqn:Z.
    - eexists. split; [reflexivity |]. simpl. apply Qeq_bool_iff in Z.
      symmetry. exact Z.
    - eexists. split; reflexivity. }
  destruct (equals (p_country p) "CA").
  { unfold calculateCanadianTax.
    destruct (rate_or_0 CANADIAN_PROVINCIAL_TAX _) as [pst |]; [| discriminate].
    intros H. injection H as <-. eexists. split; reflexivity. }
  unfold has_vat_rate, calculateVAT, rate_or_0.
  destruct (get INTERNATIONAL_VAT_RATES _) as [v | k |]; [| discriminate |].
  - intros H. injection H as <-. unfold or_else.
    destruct (truthy v) eqn:T.
    + assert (Z : Qeq_bool v 0 = false)
        by (unfold truthy in T; apply negb_true_iff in T; exact T).
      rewrite Z. eexists. split; reflexivity.
    + eexists. split; reflexivity.
  - intros H. injection H as <-. eexists. split; reflexivity.
Qed.

Lemma getTaxRate_is_the_rate_charged_witness :
  exists r,
    calculate taxCalculator
      {| p_subtotal := 80; p_country := Some "CA"; p_state := Some "bc";
         p_postalCode := None; p_category := None; p_shipping := None |}
    = Some r
    /\ taxRate r == 0.05 + 0.07.
Proof.
  exact (getTaxRate_is_the_rate_charged taxCalculator
           {| p_subtotal := 80; p_country := Some "CA"; p_state := Some "bc";
              p_postalCode := None; p_category := None; p_shipping := None |}
           (0.05 + 0.07) eq_refl eq_refl eq_refl).
Defined.

(** X7. The state is read through its upper-case form only and the postal code
    is not read at all: two orders that differ in the case of the state
    and in the postal code get the same result. *)
Theorem state_case_and_postal_code_do_not_matter (this : TaxCalculator)
    (p : Params) (postalCode : option string) :
  calculate this p
  = calculate this
      {| p_subtotal := p_subtotal p; p_country := p_country p;
         p_state := toUpperCase_opt (p_state p); p_postalCode := postalCode;
         p_category := p_category p; p_shipping := p_shipping p |}.
Proof.
  assert (U : toUpperCase_opt (toUpperCase_opt (p_state p))
              = toUpperCase_opt (p_state p)).
  { destruct (p_state p); simpl; [rewrite toUpperCase_idempotent |]; reflexivity. }
  unfold calculate, calculateUSTax, calculateCanadianTax. simpl.
  rewrite U. reflexivity.
Qed.

End TaxCalculatorFacts.

(** ** The stable sort *)

Section Sorting.

Import JS.
Local Open Scope Q_scope.

Lemma sort_insert_perm {A : Type} (key : A -> Q) (x : A) (l : list A) :
  Permutation (sort_insert key x l) (x :: l).
Proof.
  induction l as [| y l IH]; simpl; [reflexivity |].
  destruct (Qle_bool (key y) (key x)); [| reflexivity].
  rewrite IH. apply perm_swap.
Qed.

Lemma sort_by_perm_acc {A : Type} (key : A -> Q) (xs acc : list A) :
  Permutation (fold_left (fun sorted x => sort_insert key x sorted) xs acc)
    (acc ++ xs).
Proof.
  revert acc. induction xs as [| x xs IH]; intros acc; simpl.
  - rewrite app_nil_r. reflexivity.
  - rewrite IH, sort_insert_perm.
    change (x :: acc) with ([x] ++ acc).
    rewrite (Permutation_app_comm [x] acc), <- app_assoc. reflexivity.
Qed.

Lemma sort_insert_sorted {A : Type} (key : A -> Q) (x : A) (l : list A) :
  StronglySorted (fun a b => key a <= key b) l ->
  StronglySorted (fun a b => key a <= key b) (sort_insert key x l).
Proof.
  induction 1 as [| y l Hs IH Hy]; simpl.
  - constructor; constructor.
  - destruct (Qle_bool (key y) (key x)) eqn:E.
    + constructor; [exact IH |].
      apply Qle_bool_iff in E.
      eapply Permutation_Forall; [symmetry; apply sort_insert_perm |].
      constructor; assumption.
    + assert (L : key x <= key y).
      { apply Qlt_le_weak, Qnot_le_lt. intros L. apply Qle_bool_iff in L. congruence. }
      constructor; [constructor; assumption |].
      constructor; [exact L |].
      eapply List.Forall_impl; [| exact Hy]. intros z Hz. simpl in Hz. lra.
Qed.

Lemma sort_by_sorted_acc {A : Type} (key : A -> Q) (xs acc : list A) :
  StronglySorted (fun a b => key a <= key b) acc ->
  StronglySorted (fun a b => key a <= key b)
    (fold_left (fun sorted x => sort_insert key x sorted) xs acc).
Proof.
  revert acc. induction xs as [| x xs IH]; intros acc H; simpl; [exact H |].
  apply IH, sort_insert_sorted, H.
Qed.

(** Behind elements that are all at most as large, an element is inserted
    last. *)
Lemma sort_insert_last {A : Type} (key : A -> Q) (x : A) (l : list A) :
  Forall (fun y => key y <= key x) l -> sort_insert key x l = l ++ [x].
Proof.
  induction 1 as [| y l Hy Hl IH]; simpl; [reflexivity |].
  apply Qle_bool_iff in Hy. rewrite Hy, IH. reflexivity.
Qed.

(** The sort is stable: a list that is in order already comes back as it
    is. *)
Lemma sort_by_sorted_input_acc {A : Type} (key : A -> Q) (xs acc : list A) :
  StronglySorted (fun a b => key a <= key b) (acc ++ xs) ->
  fold_left (fun sorted x => sort_insert key x sorted) xs acc = acc ++ xs.
Proof.
  revert acc. induction xs as [| x xs IH]; intros acc H; simpl.
  - rewrite app_nil_r. reflexivity.
  - assert (F : Forall (fun y => key y <= key x) acc).
    { clear IH. induction acc as [| a acc IHa]; [constructor |].
      simpl in H. inversion H as [| ? ? Hs Hf]; subst.
      constructor.
      - rewrite List.Forall_forall in Hf. apply Hf.
        apply in_or_app. right. left. reflexivity.
      - apply IHa, Hs. }
    rewrite (sort_insert_last key x acc F).
    rewrite IH; rewrite <- app_assoc; [reflexivity | exact H].
Qed.

End Sorting.

(** ** More on the shipping calculator *)

Section ShippingCalculatorFacts.

Import JS Spec ShippingCalculator.
Local Open Scope string_scope.
Local Open Scope Q_scope.

Lemma round2_le (x y : Q) : x <= y -> round2 x <= round2 y.
Proof.
  intros H. unfold round2, Math_round.
  apply Qmult_le_compat_r; [| discriminate].
  rewrite <- Zle_Qle. apply Qfloor_resp_le. lra.
Qed.

Lemma find_zone_unlisted {Z : Type} (zones : list (Z * list string)) (code : string) :
  (forall zone codes, In (zone, codes) zones -> ~ In code codes) ->
  find_zone zones (Some code) = None.
Proof.
  induction zones as [| [zone codes] zones IH]; intros H; simpl; [reflexivity |].
  destruct (existsb (String.eqb code) codes) eqn:E.
  - exfalso. apply existsb_exists in E as [k [Hin Hk]].
    apply String.eqb_eq in Hk. subst k. exact (H zone codes (or_introl eq_refl) Hin).
  - apply IH. intros z c Hz. apply (H z c). right. exact Hz.
Qed.

Lemma getUSZone_listed (state : string) :
  (forall zone codes,
      In (zone, codes) US_SHIPPING_ZONES -> In (toUpperCase state) codes ->
      getUSZone (Some state) = zone)
  /\ ((forall zone codes,
         In (zone, codes) US_SHIPPING_ZONES -> ~ In (toUpperCase state) codes) ->
      getUSZone (Some state) = Zone5)
  /\ getUSZone None = Zone5.
Proof.
  unfold getUSZone. simpl toUpperCase_opt. split; [| split; [| reflexivity]].
  - intros zone codes Hz Hc. simpl in Hz.
    repeat destruct Hz as [Hz | Hz]; try contradiction;
      injection Hz as <- <-; simpl in Hc;
      repeat destruct Hc as [Hc | Hc]; try contradiction;
      rewrite <- Hc; reflexivity.
  - intros H. rewrite (find_zone_unlisted _ _ H). reflexivity.
Qed.

Lemma getInternationalZone_listed (country : string) :
  (forall zone codes,
      In (zone, codes) INTERNATIONAL_ZONES -> In (toUpperCase country) codes ->
      getInternationalZone (Some country) = zone)
  /\ ((forall zone codes,
         In (zone, codes) INTERNATIONAL_ZONES -> ~ In (toUpperCase country) codes) ->
      getInternationalZone (Some country) = ZoneE)
  /\ getInternationalZone None = ZoneE.
Proof.
  unfold getInternationalZone. simpl toUpperCase_opt.
  split; [| split; [| reflexivity]].
  - intros zone codes Hz Hc. simpl in Hz.
    repeat destruct Hz as [Hz | Hz]; try contradiction;
      injection Hz as <- <-; simpl in Hc;
      repeat destruct Hc as [Hc | Hc]; try contradiction;
      rewrite <- Hc; reflexivity.
  - intros H. rewrite (find_zone_unlisted _ _ H). reflexivity.
Qed.

(** X8. A state is shipped to the zone whose list names it, whatever the case
    it is written in; a state no list names, and a missing state, go to
    zone 5.  The same for countries: zone A to D when a list names the
    country, zone E otherwise. *)
Theorem zones_are_the_listed_zones (code : string) :
  ((forall zone codes,
       In (zone, codes) US_SHIPPING_ZONES -> In (toUpperCase code) codes ->
       getUSZone (Some code) = zone)
   /\ ((forall zone codes,
          In (zone, codes) US_SHIPPING_ZONES -> ~ In (toUpperCase code) codes) ->
       getUSZone (Some code) = Zone5)
   /\ getUSZone None = Zone5)
  /\ ((forall zone codes,
         In (zone, codes) INTERNATIONAL_ZONES -> In (toUpperCase code) codes ->
         getInternationalZone (Some code) = zone)
      /\ ((forall zone codes,
             In (zone, codes) INTERNATIONAL_ZONES -> ~ In (toUpperCase code) codes) ->
          getInternationalZone (Some code) = ZoneE)
      /\ getInternationalZone None = ZoneE).
Proof.
  split; [apply getUSZone_listed | apply getInternationalZone_listed].
Qed.

(** X9. A heavier package is never quoted less, everything else being equal. *)
Theorem heavier_is_never_cheaper (this : ShippingCalculator) (clock : Date.Clock)
    (country state : option string) (subtotal : option Q) (method : option string)
    (weight weight' : Q) :
  weight <= weight' ->
  total (calculate this clock
           {| p_country := country; p_state := state; p_weight := Some weight;
              p_subtotal := subtotal; p_method := method |})
  <= total (calculate this clock
              {| p_country := country; p_state := state; p_weight := Some weight';
                 p_subtotal := subtotal; p_method := method |}).
Proof.
  intros H.
  rewrite (total_formula this clock
             {| p_country := country; p_state := state; p_weight := Some weight;
                p_subtotal := subtotal; p_method := method |}).
  rewrite (total_formula this clock
             {| p_country := country; p_state := state; p_weight := Some weight';
                p_subtotal := subtotal; p_method := method |}).
  cbv zeta.
  match goal with
  | |- (if ?c then _ else _) <= (if ?c' then _ else _) =>
      change c' with c; destruct c; [lra |]
  end.
  apply round2_le. unfold calculate. cbv zeta. simpl.
  assert (M : Math_max 0 (weight - 1) <= Math_max 0 (weight' - 1)).
  { destruct (Math_max_spec 0 (weight - 1)) as [[A ->] | [A ->]];
      destruct (Math_max_spec 0 (weight' - 1)) as [[B ->] | [B ->]]; lra. }
  destruct (equals country "US");
    unfold WEIGHT_SURCHARGES_US, WEIGHT_SURCHARGES_international; lra.
Qed.

Lemma heavier_is_never_cheaper_witness :
  total (calculate shippingCalculator
           {| Date.now := 1793562123456; Date.utcOffset := 0 |}
           {| p_country := Some "JP"; p_state := None; p_weight := Some 2;
              p_subtotal := Some 30; p_method := Some "express" |})
  <= total (calculate shippingCalculator
              {| Date.now := 1793562123456; Date.utcOffset := 0 |}
              {| p_country := Some "JP"; p_state := None; p_weight := Some 3.5;
                 p_subtotal := Some 30; p_method := Some "express" |}).
Proof.
  refine (heavier_is_never_cheaper shippingCalculator
            {| Date.now := 1793562123456; Date.utcOffset := 0 |}
            (Some "JP") None (Some 30) (Some "express") 2 3.5 _).
  discriminate.
Defined.

(** X11. [getAllRates] returns one quote per method available for the country,
    each the quote [calculate] gives for that method, in ascending order of
    total. *)
Theorem getAllRates_sorted_quotes (this : ShippingCalculator) (clock : Date.Clock)
    (p : RatesParams) :
  let quote method :=
    calculate this clock
      {| p_country := r_country p; p_state := r_state p;
         p_weight := Some (default 1 (r_weight p));
         p_subtotal := Some (default 0 (r_subtotal p));
         p_method := Some method |} in
  Permutation (getAllRates this clock p)
    (map quote (getAvailableMethods (r_country p)))
  /\ StronglySorted (fun a b => total a <= total b) (getAllRates this clock p)
  /\ length (getAllRates this clock p)
     = (if equals (r_country p) "US" then 3 else 2)%nat.
Proof.
  intros quote. unfold getAllRates, sort_by. cbv zeta. fold quote.
  pose proof (sort_by_perm_acc total
                (map quote (getAvailableMethods (r_country p))) []) as P.
  simpl app in P.
  split; [exact P |]. split.
  - apply sort_by_sorted_acc. constructor.
  - rewrite (Permutation_length P), length_map. unfold getAvailableMethods.
    destruct (equals (r_country p) "US"); reflexivity.
Qed.

(** For one destination and weight, a faster method never has a lower
    base rate. *)
Lemma baseRate_order (this : ShippingCalculator) (clock : Date.Clock)
    (country state : option string) (weight subtotal : option Q) :
  let quote method :=
    calculate this clock
      {| p_country := country; p_state := state; p_weight := weight;
         p_subtotal := subtotal; p_method := Some method |} in
  baseRate (quote "standard") <= baseRate (quote "express")
  /\ (equals country "US" = true ->
      baseRate (quote "express") <= baseRate (quote "overnight")).
Proof.
  cbv zeta. unfold calculate. cbv zeta. simpl.
  destruct (equals country "US"); simpl.
  - split; [| intros _]; destruct (getUSZone state); discriminate.
  - split; [| discriminate]. destruct (getInternationalZone country); discriminate.
Qed.

Lemma total_order (this : ShippingCalculator) (clock : Date.Clock)
    (country state : option string) (weight subtotal : option Q)
    (slow fast : string) :
  let quote method :=
    calculate this clock
      {| p_country := country; p_state := state; p_weight := weight;
         p_subtotal := subtotal; p_method := Some method |} in
  0 <= handlingFee this ->
  fast <> "standard" ->
  baseRate (quote slow) <= baseRate (quote fast) ->
  total (quote slow) <= total (quote fast).
Proof.
  intros quote Hf Hn Hb. apply String.eqb_neq in Hn.
  pose proof (total_formula this clock
                {| p_country := country; p_state := state; p_weight := weight;
                   p_subtotal := subtotal; p_method := Some slow |}) as Ts.
  pose proof (total_formula this clock
                {| p_country := country; p_state := state; p_weight := weight;
                   p_subtotal := subtotal; p_method := Some fast |}) as Tf.
  cbv zeta in Ts, Tf. simpl default in Ts, Tf. fold (quote slow) in Ts.
  fold (quote fast) in Tf. rewrite Hn, andb_false_r in Tf. rewrite Ts, Tf.
  assert (W : weightSurcharge (quote slow) = weightSurcharge (quote fast))
    by reflexivity.
  assert (F : quoteHandlingFee (quote slow) = quoteHandlingFee (quote fast))
    by reflexivity.
  assert (Ff : quoteHandlingFee (quote fast) = handlingFee this) by reflexivity.
  pose proof (baseRate_positive this clock
                {| p_country := country; p_state := state; p_weight := weight;
                   p_subtotal := subtotal; p_method := Some fast |}) as Bp.
  pose proof (weightSurcharge_nonneg this clock
                {| p_country := country; p_state := state; p_weight := weight;
                   p_subtotal := subtotal; p_method := Some fast |}) as Wp.
  fold (quote fast) in Bp, Wp.
  destruct (_ && _).
  - apply round2_nonneg. rewrite Ff. lra.
  - apply round2_le. rewrite W, F. lra.
Qed.

(** X12. With a handling fee that is not negative the sort changes nothing:
    the rates come out in the order standard, express, overnight, the
    cheapest first. *)
Theorem getAllRates_keeps_the_order_of_methods (this : ShippingCalculator)
    (clock : Date.Clock) (p : RatesParams) :
  0 <= handlingFee this ->
  map method (getAllRates this clock p) = getAvailableMethods (r_country p).
Proof.
  intros Hf. unfold getAllRates, sort_by. cbv zeta.
  pose proof (baseRate_order this clock (r_country p) (r_state p)
                (Some (default 1 (r_weight p))) (Some (default 0 (r_subtotal p))))
    as [Bse Beo].
  pose proof (fun slow fast =>
                total_order this clock (r_country p) (r_state p)
                  (Some (default 1 (r_weight p)))
                  (Some (default 0 (r_subtotal p))) slow fast Hf) as T.
  cbv zeta in Bse, Beo, T.
  rewrite (sort_by_sorted_input_acc total).
  - simpl app. rewrite map_map. unfold getAvailableMethods.
    destruct (equals (r_country p) "US"); reflexivity.
  - simpl app. unfold getAvailableMethods.
    destruct (equals (r_country p) "US"); simpl map.
    + specialize (Beo eq_refl).
      assert (Bso := Qle_trans _ _ _ Bse Beo).
      repeat constructor; apply T; try discriminate; assumption.
    + repeat constructor; apply T; try discriminate; assumption.
Qed.

Lemma getAllRates_keeps_the_order_of_methods_witness :
  map method
    (getAllRates shippingCalculator
       {| Date.now := 1793562123456; Date.utcOffset := 0 |}
       {| r_country := Some "US"; r_state := Some "TX"; r_weight := Some 2;
          r_subtotal := Some 80 |})
  = getAvailableMethods (Some "US").
Proof.
  refine (getAllRates_keeps_the_order_of_methods shippingCalculator
            {| Date.now := 1793562123456; Date.utcOffset := 0 |}
            {| r_country := Some "US"; r_state := Some "TX"; r_weight := Some 2;
               r_subtotal := Some 80 |} _).
  discriminate.
Defined.

(** Every state [getUSStates] offers is named by a shipping zone and has
    an entry in the sales-tax table; every country [getShippingCountries]
    offers, the US apart, is named by an international zone. *)
Theorem offered_destinations_are_configured :
  (forall code name, In (code, name) getUSStates ->
     (exists zone codes, In (zone, codes) US_SHIPPING_ZONES /\ In code codes)
     /\ is_Some (own TaxCalculator.US_STATE_TAX_RATES code))
  /\ (forall code name, In (code, name) getShippingCountries ->
        code = "US"
        \/ exists zone codes, In (zone, codes) INTERNATIONAL_ZONES /\ In code codes).
Proof.
  assert (L : forall {Z : Type} (zones : list (Z * list string)) (code : string),
             existsb (fun zc => existsb (String.eqb code) (snd zc)) zones = true ->
             exists zone codes, In (zone, codes) zones /\ In code codes).
  { intros Z zones code H. apply existsb_exists in H as [[zone codes] [Hz Hc]].
    apply existsb_exists in Hc as [k [Hk E]]. apply String.eqb_eq in E. subst k.
    eauto. }
  split.
  - intros code name H.
    assert (F : forallb (fun cn : string * string =>
                  existsb (fun zc : USZone * list string =>
                             existsb (String.eqb (fst cn)) (snd zc))
                    US_SHIPPING_ZONES
                  && bool_decide (is_Some (own TaxCalculator.US_STATE_TAX_RATES (fst cn))))
                  getUSStates = true) by (vm_compute; reflexivity).
    rewrite forallb_forall in F. apply F in H. simpl in H.
    apply andb_true_iff in H as [Hz Ht]. split; [apply L, Hz |].
    apply bool_decide_eq_true in Ht. exact Ht.
  - intros code name H.
    assert (F : forallb (fun cn : string * string =>
                  String.eqb (fst cn) "US"
                  || existsb (fun zc : InternationalZone * list string =>
                                existsb (String.eqb (fst cn)) (snd zc))
                       INTERNATIONAL_ZONES)
                  getShippingCountries = true) by (vm_compute; reflexivity).
    rewrite forallb_forall in F. apply F in H. simpl in H.
    apply orb_true_iff in H as [Hu | Hz].
    + left. apply String.eqb_eq, Hu.
    + right. apply L, Hz.
Qed.

End ShippingCalculatorFacts.

(** ** Business days *)

Section BusinessDays.

Import Spec ShippingCalculator.
Local Open Scope Z_scope.

Lemma addBusinessDays_loop_step (clock : Date.Clock) (fuel : nat)
    (result added days : Z) :
  addBusinessDays_loop clock (S fuel) result added days
  = if added <? days
    then if isBusinessDay clock (result + Date.msPerDay)
         then addBusinessDays_loop clock fuel (result + Date.msPerDay) (added + 1) days
         else addBusinessDays_loop clock fuel (result + Date.msPerDay) added days
    else result.
Proof. reflexivity. Qed.

Lemma addBusinessDays_loop_counts (clock : Date.Clock) (n : nat) :
  forall (fuel : nat) (result added days : Z),
    days - added = Z.of_nat n ->
    (3 * n <= fuel)%nat ->
    exists k : nat,
      addBusinessDays_loop clock fuel result added days
      = result + Z.of_nat k * Date.msPerDay
      /\ businessDaysAfter clock result k = n
      /\ (n = O -> k = O)
      /\ ((1 <= n)%nat ->
          isBusinessDay clock (result + Z.of_nat k * Date.msPerDay) = true).
Proof.
  induction n as [| n IH]; intros fuel result added days Hd Hf.
  - exists O. assert (E : (added <? days) = false) by (apply Z.ltb_ge; lia).
    split; [| split; [reflexivity | split; [reflexivity | lia]]].
    destruct fuel; simpl; rewrite ?E; lia.
  - destruct fuel as [| [| [| fuel]]]; try lia.
    assert (Ha : (added <? days) = true) by (apply Z.ltb_lt; lia).
    pose proof (no_three_weekend_days clock result) as W. cbv beta zeta in W.
    rewrite addBusinessDays_loop_step, Ha.
    fold (isBusinessDay clock (result + Date.msPerDay)) in W.
    fold (isBusinessDay clock (result + Date.msPerDay + Date.msPerDay)) in W.
    fold (isBusinessDay clock (result + Date.msPerDay + Date.msPerDay + Date.msPerDay)) in W.
    destruct (isBusinessDay clock (result + Date.msPerDay)) eqn:B1.
    { destruct (IH (S (S fuel)) (result + Date.msPerDay) (added + 1) days)
        as [k [E [C [Z0 L]]]]; [lia | lia |].
      exists (S k). rewrite E. split; [lia |].
      split; [simpl; rewrite B1, C; reflexivity |].
      split; [discriminate |]. intros _.
      destruct n as [| n].
      - rewrite (Z0 eq_refl). replace (result + Z.of_nat 1 * Date.msPerDay)
          with (result + Date.msPerDay) by lia. exact B1.
      - replace (result + Z.of_nat (S k) * Date.msPerDay)
          with (result + Date.msPerDay + Z.of_nat k * Date.msPerDay) by lia.
        apply L. lia. }
    rewrite addBusinessDays_loop_step, Ha.
    destruct (isBusinessDay clock (result + Date.msPerDay + Date.msPerDay)) eqn:B2.
    { destruct (IH (S fuel) (result + Date.msPerDay + Date.msPerDay) (added + 1) days)
        as [k [E [C [Z0 L]]]]; [lia | lia |].
      exists (S (S k)). rewrite E. split; [lia |].
      split; [simpl; rewrite B1, B2, C; reflexivity |].
      split; [discriminate |]. intros _.
      destruct n as [| n].
      - rewrite (Z0 eq_refl). replace (result + Z.of_nat 2 * Date.msPerDay)
          with (result + Date.msPerDay + Date.msPerDay) by lia. exact B2.
      - replace (result + Z.of_nat (S (S k)) * Date.msPerDay)
          with (result + Date.msPerDay + Date.msPerDay + Z.of_nat k * Date.msPerDay)
          by lia.
        apply L. lia. }
    rewrite addBusinessDays_loop_step, Ha.
    specialize (W eq_refl eq_refl). rewrite W.
    destruct (IH fuel (result + Date.msPerDay + Date.msPerDay + Date.msPerDay)
                (added + 1) days) as [k [E [C [Z0 L]]]]; [lia | lia |].
    exists (S (S (S k))). rewrite E. split; [lia |].
    split; [simpl; rewrite B1, B2, W, C; reflexivity |].
    split; [discriminate |]. intros _.
    destruct n as [| n].
    + rewrite (Z0 eq_refl). replace (result + Z.of_nat 3 * Date.msPerDay)
        with (result + Date.msPerDay + Date.msPerDay + Date.msPerDay) by lia.
      exact W.
    + replace (result + Z.of_nat (S (S (S k))) * Date.msPerDay)
        with (result + Date.msPerDay + Date.msPerDay + Date.msPerDay
              + Z.of_nat k * Date.msPerDay) by lia.
      apply L. lia.
Qed.

(** X13. [addBusinessDays] moves the date forward by whole days, to a day from
    Monday to Friday, and exactly [days] of the days it passes, the day it
    lands on included, are business days. *)
Theorem addBusinessDays_counts_business_days (clock : Date.Clock) (date days : Z) :
  1 <= days ->
  exists n : nat,
    addBusinessDays clock date days = date + Z.of_nat n * Date.msPerDay
    /\ Z.of_nat (businessDaysAfter clock date n) = days
    /\ isBusinessDay clock (addBusinessDays clock date days) = true.
Proof.
  intros H. unfold addBusinessDays.
  destruct (addBusinessDays_loop_counts clock (Z.to_nat days)
              (Z.to_nat (3 * days)) date 0 days) as [k [E [C [_ L]]]]; [lia | lia |].
  exists k. rewrite E. split; [reflexivity |]. split; [lia |]. apply L. lia.
Qed.

Lemma addBusinessDays_counts_business_days_witness :
  exists n : nat,
    addBusinessDays {| Date.now := 0; Date.utcOffset := 0 |} 1793562123456 5
    = 1793562123456 + Z.of_nat n * Date.msPerDay
    /\ Z.of_nat (businessDaysAfter {| Date.now := 0; Date.utcOffset := 0 |}
                   1793562123456 n) = 5
    /\ isBusinessDay {| Date.now := 0; Date.utcOffset := 0 |}
         (addBusinessDays {| Date.now := 0; Date.utcOffset := 0 |} 1793562123456 5)
       = true.
Proof.
  refine (addBusinessDays_counts_business_days
            {| Date.now := 0; Date.utcOffset := 0 |} 1793562123456 5 _).
  discriminate.
Defined.

(** Without a business day to add the date comes back unchanged. *)
Lemma addBusinessDays_zero (clock : Date.Clock) (date days : Z) :
  days <= 0 -> addBusinessDays clock date days = date.
Proof.
  intros H. unfold addBusinessDays.
  assert (E : (0 <? days) = false) by (apply Z.ltb_ge; lia).
  destruct (Z.to_nat (3 * days)); simpl; rewrite ?E; reflexivity.
Qed.

End BusinessDays.

(** ** Addresses *)

Section AddressProperties.

Import JS Spec ShippingCalculator.
Local Open Scope string_scope.

Lemma matchesNothing_not_nullable (r : RegExp) :
  matchesNothing r = true -> nullable r = false.
Proof.
  induction r as [| | p | r IHr s IHs | r IHr s IHs]; simpl; try discriminate.
  - reflexivity.
  - intros H. apply orb_true_iff in H. destruct H as [H | H].
    + rewrite (IHr H). reflexivity.
    + rewrite (IHs H). apply andb_false_r.
  - intros H. apply andb_true_iff in H. destruct H as [Hr Hs].
    rewrite (IHr Hr), (IHs Hs). reflexivity.
Qed.

Lemma matchesNothing_derive (c : ascii) (r : RegExp) :
  matchesNothing r = true -> matchesNothing (derive c r) = true.
Proof.
  induction r as [| | p | r IHr s IHs | r IHr s IHs]; simpl; try discriminate.
  - reflexivity.
  - intros H. apply orb_true_iff in H. destruct H as [H | H].
    + rewrite (matchesNothing_not_nullable r H). simpl. rewrite (IHr H). reflexivity.
    + destruct (nullable r); simpl; rewrite H, ?(IHs H), ?orb_true_r; reflexivity.
  - intros H. apply andb_true_iff in H. destruct H as [Hr Hs].
    rewrite (IHr Hr), (IHs Hs). reflexivity.
Qed.

Lemma matchesNothing_sound (r : RegExp) (s : string) :
  matchesNothing r = true -> matches r s = false.
Proof.
  revert r. induction s as [| c s IH]; intros r H; simpl.
  - apply matchesNothing_not_nullable, H.
  - apply IH, matchesNothing_derive, H.
Qed.

Ltac read_classes c :=
  repeat (match goal with
          | |- context [digit c] => destruct (digit c) eqn:?
          | |- context [letter c] => destruct (letter c) eqn:?
          | |- context [literal ?x c] => destruct (literal x c) eqn:?
          end; cbn -[digit letter literal]).

Ltac read_string n s :=
  lazymatch n with
  | O => idtac
  | S ?k =>
      let c := fresh "c" in
      destruct s as [| c s]; cbn -[digit letter literal];
      [ reflexivity
      | read_classes c; rewrite ?orb_false_r;
        first [ rewrite matchesNothing_sound by reflexivity; reflexivity
              | read_string k s ] ]
  end.

Lemma ZIP_CODE_shapes (s : string) : matches ZIP_CODE s = isZipCode s.
Proof. unfold isZipCode. read_string 11%nat s. Qed.

Lemma POSTAL_CODE_shapes (s : string) : matches POSTAL_CODE s = isPostalCode s.
Proof. unfold isPostalCode. read_string 8%nat s. Qed.

Lemma ZIP_CODE_test (value : option string) :
  RegExp_test ZIP_CODE value = true
  <-> exists s, value = Some s /\ isZipCode s = true.
Proof.
  unfold RegExp_test. destruct value as [s |]; simpl.
  - rewrite ZIP_CODE_shapes. split.
    + intros H. exists s. split; [reflexivity | exact H].
    + intros [s' [E H]]. injection E as ->. exact H.
  - split; [intros H; discriminate H | intros [s [E _]]; discriminate].
Qed.

Lemma POSTAL_CODE_test (value : option string) :
  RegExp_test POSTAL_CODE value = true
  <-> exists s, value = Some s /\ isPostalCode s = true.
Proof.
  unfold RegExp_test. destruct value as [s |]; simpl.
  - rewrite POSTAL_CODE_shapes. split.
    + intros H. exists s. split; [reflexivity | exact H].
    + intros [s' [E H]]. injection E as ->. exact H.
  - split; [intros H; discriminate H | intros [s [E _]]; discriminate].
Qed.

Lemma digit_not_space (c : ascii) : digit c = true -> is_space c = false.
Proof. destruct c as [[] [] [] [] [] [] [] []]; vm_compute; congruence. Qed.

Lemma letter_not_space (c : ascii) : letter c = true -> is_space c = false.
Proof. destruct c as [[] [] [] [] [] [] [] []]; vm_compute; congruence. Qed.

Lemma starts_unspaced_not_blank (c : ascii) (r : string) :
  is_space c = false -> blank (Some (String c r)) = false.
Proof.
  intros H. unfold blank, trim. simpl trimStart. rewrite H.
  simpl trimEnd. rewrite H. destruct (trimEnd r); reflexivity.
Qed.

Lemma isZipCode_not_blank (s : string) :
  isZipCode s = true -> blank (Some s) = false.
Proof.
  unfold isZipCode. destruct s as [| c r]; [discriminate |].
  intros H. apply starts_unspaced_not_blank, digit_not_space.
  simpl in H. destruct (digit c); [reflexivity | discriminate].
Qed.

Lemma isPostalCode_not_blank (s : string) :
  isPostalCode s = true -> blank (Some s) = false.
Proof.
  unfold isPostalCode. destruct s as [| c r]; [discriminate |].
  intros H. apply starts_unspaced_not_blank, letter_not_space.
  simpl in H. destruct (letter c); [reflexivity | discriminate].
Qed.

Lemma equals_iff (x : option string) (literal : string) :
  equals x literal = true <-> x = Some literal.
Proof.
  unfold equals. destruct x as [s |]; [| split; discriminate].
  rewrite String.eqb_eq. split; [intros -> | intros [= ->]]; reflexivity.
Qed.

(** X14. For an address in the US, [validateAddress] reports an invalid ZIP
    code exactly when the postal code is not five digits, or five digits, a
    hyphen and four digits; a missing postal code is reported so too. *)
Theorem invalid_zip_code_is_reported (address : Address) :
  country address = Some "US" ->
  In "Invalid ZIP code format" (errors (validateAddress address))
  <-> ~ (exists s, postalCode address = Some s /\ isZipCode s = true).
Proof.
  intros Hc. pose proof (ZIP_CODE_test (postalCode address)) as T.
  unfold validateAddress, push_if. rewrite Hc.
  change (blank (Some "US")) with false.
  change (equals (Some "US") "US") with true.
  change (equals (Some "US") "CA") with false.
  destruct (RegExp_test ZIP_CODE (postalCode address)) eqn:Z.
  - destruct (blank (line1 address)), (blank (city address)),
      (blank (postalCode address)), (blank (state address)); simpl;
      (split; [intros H; exfalso; intuition discriminate
              | intros H; exfalso; apply H, T; reflexivity]).
  - split; [intros _ H; apply T in H; discriminate | intros _].
    cbv zeta. simpl negb. cbv iota. apply in_or_app. right. left. reflexivity.
Qed.

Lemma invalid_zip_code_is_reported_witness :
  In "Invalid ZIP code format"
    (errors (validateAddress
               {| line1 := Some "1 Main St"; city := Some "Los Angeles";
                  country := Some "US"; postalCode := Some "9000";
                  state := Some "CA" |}))
  <-> ~ (exists s, Some "9000" = Some s /\ isZipCode s = true).
Proof.
  exact (invalid_zip_code_is_reported
           {| line1 := Some "1 Main St"; city := Some "Los Angeles";
              country := Some "US"; postalCode := Some "9000";
              state := Some "CA" |} eq_refl).
Defined.

(** X15. For an address in Canada, [validateAddress] reports an invalid postal
    code exactly when the postal code is not of the form A1A1A1, A1A 1A1 or
    A1A-1A1. *)
Theorem invalid_postal_code_is_reported (address : Address) :
  country address = Some "CA" ->
  In "Invalid postal code format" (errors (validateAddress address))
  <-> ~ (exists s, postalCode address = Some s /\ isPostalCode s = true).
Proof.
  intros Hc. pose proof (POSTAL_CODE_test (postalCode address)) as T.
  unfold validateAddress, push_if. rewrite Hc.
  change (blank (Some "CA")) with false.
  change (equals (Some "CA") "US") with false.
  change (equals (Some "CA") "CA") with true.
  destruct (RegExp_test POSTAL_CODE (postalCode address)) eqn:Z.
  - destruct (blank (line1 address)), (blank (city address)),
      (blank (postalCode address)), (blank (state address)); simpl;
      (split; [intros H; exfalso; intuition discriminate
              | intros H; exfalso; apply H, T; reflexivity]).
  - split; [intros _ H; apply T in H; discriminate | intros _].
    cbv zeta. simpl negb. cbv iota. apply in_or_app. right. left. reflexivity.
Qed.

Lemma invalid_postal_code_is_reported_witness :
  In "Invalid postal code format"
    (errors (validateAddress
               {| line1 := Some "1 Main St"; city := Some "Toronto";
                  country := Some "CA"; postalCode := Some "M5V 3L9";
                  state := Some "ON" |}))
  <-> ~ (exists s, Some "M5V 3L9" = Some s /\ isPostalCode s = true).
Proof.
  exact (invalid_postal_code_is_reported
           {| line1 := Some "1 Main St"; city := Some "Toronto";
              country := Some "CA"; postalCode := Some "M5V 3L9";
              state := Some "ON" |} eq_refl).
Defined.

Lemma push_if_empty (condition : bool) (message : string) (errors : list string) :
  (length (push_if condition message errors) =? 0)%nat
  = negb condition && (length errors =? 0)%nat.
Proof.
  destruct condition; simpl; [| reflexivity].
  rewrite length_app. simpl. rewrite Nat.add_1_r. reflexivity.
Qed.

(** X16. An address is valid exactly when street, city, country and postal
    code are not blank and, in the US and in Canada, the state is not blank
    and the postal code has the national format.  The state and the format
    of the postal code are not looked at for any other country. *)
Theorem validateAddress_valid_iff (address : Address) :
  valid (validateAddress address) = true
  <-> blank (line1 address) = false
      /\ blank (city address) = false
      /\ blank (country address) = false
      /\ blank (postalCode address) = false
      /\ (country address = Some "US" ->
          blank (state address) = false
          /\ exists s, postalCode address = Some s /\ isZipCode s = true)
      /\ (country address = Some "CA" ->
          blank (state address) = false
          /\ exists s, postalCode address = Some s /\ isPostalCode s = true).
Proof.
  pose proof (ZIP_CODE_test (postalCode address)) as TZ.
  pose proof (POSTAL_CODE_test (postalCode address)) as TP.
  pose proof (equals_iff (country address) "US") as EU.
  pose proof (equals_iff (country address) "CA") as EC.
  unfold validateAddress. cbv zeta. simpl valid.
  destruct (equals (country address) "US"), (equals (country address) "CA");
    rewrite !push_if_empty; simpl;
    rewrite ?andb_true_iff, ?negb_true_iff, ?negb_false_iff, ?TZ, ?TP;
    intuition congruence.
Qed.

(** X17. A US address without a postal code draws two errors for it: the code
    is required, and its format is invalid. *)
Theorem blank_zip_code_is_reported_twice (address : Address) :
  country address = Some "US" ->
  blank (postalCode address) = true ->
  In "Postal/ZIP code is required" (errors (validateAddress address))
  /\ In "Invalid ZIP code format" (errors (validateAddress address)).
Proof.
  intros Hc Hb.
  assert (Z : RegExp_test ZIP_CODE (postalCode address) = false).
  { destruct (RegExp_test ZIP_CODE (postalCode address)) eqn:Z; [| reflexivity].
    apply ZIP_CODE_test in Z. destruct Z as [s [E Z]].
    apply isZipCode_not_blank in Z. rewrite E in Hb. congruence. }
  unfold validateAddress, push_if. rewrite Hc, Hb, Z.
  change (blank (Some "US")) with false.
  change (equals (Some "US") "US") with true.
  change (equals (Some "US") "CA") with false.
  destruct (blank (line1 address)), (blank (city address)),
    (blank (state address)); simpl; intuition.
Qed.

Lemma blank_zip_code_is_reported_twice_witness :
  In "Postal/ZIP code is required"
    (errors (validateAddress
               {| line1 := Some "1 Main St"; city := Some "Los Angeles";
                  country := Some "US"; postalCode := None;
                  state := Some "CA" |}))
  /\ In "Invalid ZIP code format"
       (errors (validateAddress
                  {| line1 := Some "1 Main St"; city := Some "Los Angeles";
                     country := Some "US"; postalCode := None;
                     state := Some "CA" |})).
Proof.
  exact (blank_zip_code_is_reported_twice
           {| line1 := Some "1 Main St"; city := Some "Los Angeles";
              country := Some "US"; postalCode := None;
              state := Some "CA" |} eq_refl eq_refl).
Defined.

End AddressProperties.

(** ** Completing an order *)

Section CompleteProperties.

Import JS Spec Handler Checkout.
Local Open Scope string_scope.
Local Open Scope Q_scope.

Lemma updateInventory_products {R : Type} (items : list D.OrderItem) (w : World)
    (key : Z) :
  D.products (db (snd (@updateInventory R items w))) !! key
  = (fun row => withInventory row (D.inventory_count row - orderedQuantity key items)%Z)
    <$> D.products (db w) !! key.
Proof.
  unfold updateInventory. revert w.
  induction items as [| item items IH]; intros w.
  - simpl. destruct (D.products (db w) !! key) as [row |]; simpl; [| reflexivity].
    f_equal. destruct row; unfold withInventory; simpl. f_equal. lia.
  - simpl for_of. unfold bind at 1.
    destruct (negb (D.isDigital item)) eqn:Dg.
    + unfold update, execute. simpl. rewrite IH. simpl. rewrite Dg. simpl.
      destruct (Z.eqb_spec (D.productId item) key) as [-> | Hne].
      * rewrite lookup_alter_eq.
        destruct (D.products (db w) !! key) as [row |]; simpl; [| reflexivity].
        f_equal. unfold withInventory. simpl. f_equal. lia.
      * rewrite lookup_alter_ne by exact Hne. reflexivity.
    + unfold ret at 1. rewrite IH. simpl. rewrite Dg. reflexivity.
Qed.

Lemma sendOrderConfirmation_frame {R : Type} (env : Env)
    (order : Email.OrderSummary) (w : World) :
  db (snd (@Email.sendOrderConfirmation R env order w)) = db w.
Proof.
  unfold Email.sendOrderConfirmation, Email.toFixed, Email.sendEmail, bind, ret, throw.
  destruct (Email.subtotal order), (Email.shipping order), (Email.total order),
    (sendMail env); reflexivity.
Qed.

Lemma fresh_order_number (number : string) (orders : list D.Order) :
  ~ In number (map D.order_number orders) ->
  existsb (fun o => String.eqb (D.order_number o) number) orders = false.
Proof.
  intros H. apply not_true_is_false. intros E. apply H.
  apply existsb_exists in E. destruct E as [o [Ho E]].
  apply String.eqb_eq in E. subst number. apply in_map, Ho.
Qed.

(** What a completion leaves in the database, whatever it replies: the
    session is gone, one order is appended, the stock of each product is
    lowered by the units ordered. *)
Lemma complete_database (cfg : D.DbConfig) (env : Env) (req : CompleteRequest)
    (w : World) (row : D.Session Q) :
  notEmpty (c_sessionId req) = true ->
  notEmpty (customerName req) = true ->
  D.checkout_sessions (db w) !! String_of (c_sessionId req) = Some row ->
  ~ In ("WXC-" ++ toUpperCase (String.substring 0 8 (uuidv4 env)))
       (map D.order_number (D.orders (db w))) ->
  let final := db (snd (complete cfg env req w)) in
  D.checkout_sessions final
  = delete (String_of (c_sessionId req)) (D.checkout_sessions (db w))
  /\ (exists order,
        D.orders final = (D.orders (db w) ++ [order])%list
        /\ D.order_number order
           = "WXC-" ++ toUpperCase (String.substring 0 8 (uuidv4 env))
        /\ D.customer_email order = D.email row
        /\ D.customer_name order = String_of (customerName req)
        /\ D.order_items order = D.items row
        /\ D.order_subtotal order = D.subtotal row
        /\ D.order_shipping order = D.shipping_cost row
        /\ D.order_tax order = D.tax_amount row
        /\ D.order_total order = D.total row
        /\ D.status order = "paid")
  /\ (forall key,
        D.products final !! key
        = (fun product =>
             withInventory product
               (D.inventory_count product - orderedQuantity key (D.items row))%Z)
          <$> D.products (db w) !! key).
Proof.
  intros Hs Hn Hrow Hfresh. apply fresh_order_number in Hfresh.
  cbv zeta. destruct (complete cfg env req w) as [reply final] eqn:Run.
  simpl. revert Run.
  unfold complete, try_catch, validationResult.
  simpl filter. rewrite Hs, Hn. simpl.
  unfold bind at 1. unfold query. simpl.
  unfold D.select_session. rewrite Hrow. simpl.
  unfold bind at 1. unfold execute at 1.
  unfold D.insert_order. simpl D.order_number. rewrite Hfresh.
  unfold bind at 1.
  match goal with
  | |- context [updateInventory ?items ?w1] =>
      destruct (updateInventory_frame (R := Reply CompleteResponse) items w1)
        as [w2 [E [O [S [C X]]]]];
      pose proof (fun key =>
                    updateInventory_products (R := Reply CompleteResponse)
                      items w1 key) as P;
      rewrite E in P; rewrite E
  end.
  simpl in O, S, P.
  unfold bind at 1. unfold update, execute. simpl.
  unfold bind at 1.
  match goal with
  | |- context [Email.sendOrderConfirmation env ?o ?w3] =>
      pose proof (sendOrderConfirmation_frame (R := Reply CompleteResponse)
                    env o w3) as F;
      destruct (Email.sendOrderConfirmation env o w3) as [[r | r | e] w4]
  end.
  all: simpl in F; simpl; intros Run; injection Run as _ <-; simpl; rewrite F; simpl.
  all: split; [rewrite S; reflexivity |].
  all: split; [| exact P].
  all: eexists; split; [rewrite O; reflexivity |].
  all: destruct cfg as [[]]; simpl; repeat split; reflexivity.
Qed.

Lemma complete_without_session (cfg : D.DbConfig) (env : Env)
    (req : CompleteRequest) (w : World) :
  notEmpty (c_sessionId req) = true ->
  notEmpty (customerName req) = true ->
  D.checkout_sessions (db w) !! String_of (c_sessionId req) = None ->
  complete cfg env req w
  = (Status 404 "Checkout session not found or expired", w).
Proof.
  intros Hs Hn Hrow. unfold complete, try_catch, validationResult.
  simpl filter. rewrite Hs, Hn. simpl.
  unfold bind, query. simpl. unfold D.select_session. rewrite Hrow. reflexivity.
Qed.

(** X18. POST /complete writes nothing unless it finds the session: without a
    session id or a customer name it answers 400 with the messages of the
    failed checks, for an id that is not stored it answers 404, and in both
    cases database, log and outbox stay as they were. *)
Theorem complete_rejects_without_writing (cfg : D.DbConfig) (env : Env)
    (req : CompleteRequest) (w : World) :
  notEmpty (c_sessionId req) = false
  \/ notEmpty (customerName req) = false
  \/ D.checkout_sessions (db w) !! String_of (c_sessionId req) = None ->
  snd (complete cfg env req w) = w
  /\ (if notEmpty (c_sessionId req) && notEmpty (customerName req)
      then fst (complete cfg env req w)
           = Status 404 "Checkout session not found or expired"
      else exists message rest,
             fst (complete cfg env req w) = Invalid (message :: rest)).
Proof.
  intros H. unfold complete, try_catch, validationResult. simpl filter.
  destruct (notEmpty (c_sessionId req)) eqn:Hs,
    (notEmpty (customerName req)) eqn:Hn; simpl.
  2-4: split; [reflexivity | eexists; eexists; reflexivity].
  destruct H as [H | [H | H]]; try discriminate.
  unfold bind, query. simpl. unfold D.select_session. rewrite H.
  split; reflexivity.
Qed.

Lemma complete_rejects_without_writing_witness :
  snd (complete D.dbConfig
         (Scenario.envAt Scenario.sunday Scenario.orderUuid (Resolves "m1"))
         Scenario.completeRequest Scenario.shop)
  = Scenario.shop
  /\ (if notEmpty (c_sessionId Scenario.completeRequest)
         && notEmpty (customerName Scenario.completeRequest)
      then fst (complete D.dbConfig
                  (Scenario.envAt Scenario.sunday Scenario.orderUuid (Resolves "m1"))
                  Scenario.completeRequest Scenario.shop)
           = Status 404 "Checkout session not found or expired"
      else exists message rest,
             fst (complete D.dbConfig
                    (Scenario.envAt Scenario.sunday Scenario.orderUuid (Resolves "m1"))
                    Scenario.completeRequest Scenario.shop)
             = Invalid (message :: rest)).
Proof.
  exact (complete_rejects_without_writing D.dbConfig
           (Scenario.envAt Scenario.sunday Scenario.orderUuid (Resolves "m1"))
           Scenario.completeRequest Scenario.shop
           (or_intror (or_intror eq_refl))).
Defined.

(** X19. A completion that finds its session writes one order, with the
    customer, the items and the amounts of the session and the status
    [paid], and deletes the session, whatever it goes on to reply. *)
Theorem completion_writes_the_order (cfg : D.DbConfig) (env : Env)
    (req : CompleteRequest) (w : World) (row : D.Session Q) :
  notEmpty (c_sessionId req) = true ->
  notEmpty (customerName req) = true ->
  D.checkout_sessions (db w) !! String_of (c_sessionId req) = Some row ->
  ~ In ("WXC-" ++ toUpperCase (String.substring 0 8 (uuidv4 env)))
       (map D.order_number (D.orders (db w))) ->
  let final := db (snd (complete cfg env req w)) in
  D.checkout_sessions final
  = delete (String_of (c_sessionId req)) (D.checkout_sessions (db w))
  /\ exists order,
       D.orders final = (D.orders (db w) ++ [order])%list
       /\ D.order_number order
          = "WXC-" ++ toUpperCase (String.substring 0 8 (uuidv4 env))
       /\ D.customer_email order = D.email row
       /\ D.customer_name order = String_of (customerName req)
       /\ D.order_items order = D.items row
       /\ D.order_subtotal order = D.subtotal row
       /\ D.order_shipping order = D.shipping_cost row
       /\ D.order_tax order = D.tax_amount row
       /\ D.order_total order = D.total row
       /\ D.status order = "paid".
Proof.
  intros Hs Hn Hrow Hfresh final.
  destruct (complete_database cfg env req w row Hs Hn Hrow Hfresh) as [S [O _]].
  split; [exact S | exact O].
Qed.

Lemma completion_writes_the_order_witness :
  let final :=
    db (snd (complete D.dbConfig
               (Scenario.envAt Scenario.sunday Scenario.orderUuid (Resolves "m1"))
               Scenario.completeRequest Scenario.shopWithSession)) in
  D.checkout_sessions final
  = delete Scenario.sessionId (D.checkout_sessions (db Scenario.shopWithSession))
  /\ exists order,
       D.orders final = [order]
       /\ D.order_number order = "WXC-9B1D7E20"
       /\ D.customer_email order = "ann@example.com"
       /\ D.customer_name order = "Ann"
       /\ D.order_items order = D.items Scenario.paidSession
       /\ D.order_subtotal order = 60
       /\ D.order_shipping order = 5.99
       /\ D.order_tax order = 4.35
       /\ D.order_total order = 70.34
       /\ D.status order = "paid".
Proof.
  exact (completion_writes_the_order D.dbConfig
           (Scenario.envAt Scenario.sunday Scenario.orderUuid (Resolves "m1"))
           Scenario.completeRequest Scenario.shopWithSession Scenario.paidSession
           eq_refl eq_refl eq_refl (fun H => H)).
Defined.

(** X20. A session is completed once.  After a POST /complete that names a
    session id and a customer, finds the session and generates an order
    number that no order has yet, a second POST /complete for the same
    session is answered 404 and writes nothing, also when the first one was
    answered 500 after its commit. *)
Theorem completed_session_cannot_be_completed_again (cfg : D.DbConfig)
    (env again : Env) (req : CompleteRequest) (w : World) (row : D.Session Q) :
  notEmpty (c_sessionId req) = true ->
  notEmpty (customerName req) = true ->
  D.checkout_sessions (db w) !! String_of (c_sessionId req) = Some row ->
  ~ In ("WXC-" ++ toUpperCase (String.substring 0 8 (uuidv4 env)))
       (map D.order_number (D.orders (db w))) ->
  complete cfg again req (snd (complete cfg env req w))
  = (Status 404 "Checkout session not found or expired",
     snd (complete cfg env req w)).
Proof.
  intros Hs Hn Hrow Hfresh.
  destruct (complete_database cfg env req w row Hs Hn Hrow Hfresh) as [S _].
  apply complete_without_session; [exact Hs | exact Hn |].
  rewrite S. apply lookup_delete_eq.
Qed.

Lemma completed_session_cannot_be_completed_again_witness :
  complete D.dbConfig
    (Scenario.envAt (Scenario.sunday + 60000) Scenario.sessionUuid (Resolves "m2"))
    Scenario.completeRequest
    (snd (complete D.dbConfig
            (Scenario.envAt Scenario.sunday Scenario.orderUuid (Resolves "m1"))
            Scenario.completeRequest Scenario.shopWithSession))
  = (Status 404 "Checkout session not found or expired",
     snd (complete D.dbConfig
            (Scenario.envAt Scenario.sunday Scenario.orderUuid (Resolves "m1"))
            Scenario.completeRequest Scenario.shopWithSession)).
Proof.
  exact (completed_session_cannot_be_completed_again D.dbConfig
           (Scenario.envAt Scenario.sunday Scenario.orderUuid (Resolves "m1"))
           (Scenario.envAt (Scenario.sunday + 60000) Scenario.sessionUuid
              (Resolves "m2"))
           Scenario.completeRequest Scenario.shopWithSession Scenario.paidSession
           eq_refl eq_refl eq_refl (fun H => H)).
Defined.

(** X21. A POST /complete that names a session id and a customer, finds the
    session and generates an order number that no order has yet lowers the
    [inventory_count] of every product by the units of it among the items
    of the session that are not digital; it adds and removes no product and
    leaves the id, title, price, category, kind, active flag and weight of
    each as they were.  The stock is not compared with the order: it goes
    below zero when fewer units are left. *)
Theorem completion_lowers_the_stock (cfg : D.DbConfig) (env : Env)
    (req : CompleteRequest) (w : World) (row : D.Session Q) (key : Z) :
  notEmpty (c_sessionId req) = true ->
  notEmpty (customerName req) = true ->
  D.checkout_sessions (db w) !! String_of (c_sessionId req) = Some row ->
  ~ In ("WXC-" ++ toUpperCase (String.substring 0 8 (uuidv4 env)))
       (map D.order_number (D.orders (db w))) ->
  D.products (db (snd (complete cfg env req w))) !! key
  = (fun product =>
       withInventory product
         (D.inventory_count product - orderedQuantity key (D.items row))%Z)
    <$> D.products (db w) !! key.
Proof.
  intros Hs Hn Hrow Hfresh.
  destruct (complete_database cfg env req w row Hs Hn Hrow Hfresh) as [_ [_ P]].
  apply P.
Qed.

Lemma completion_lowers_the_stock_witness :
  D.products
    (db (snd (complete D.dbConfig
                (Scenario.envAt Scenario.sunday Scenario.orderUuid (Resolves "m1"))
                Scenario.completeRequest Scenario.shopWithSession))) !! 1%Z
  = (fun product =>
       withInventory product
         (D.inventory_count product
          - orderedQuantity 1 (D.items Scenario.paidSession))%Z)
    <$> D.products (db Scenario.shopWithSession) !! 1%Z.
Proof.
  exact (completion_lowers_the_stock D.dbConfig
           (Scenario.envAt Scenario.sunday Scenario.orderUuid (Resolves "m1"))
           Scenario.completeRequest Scenario.shopWithSession Scenario.paidSession
           1%Z eq_refl eq_refl eq_refl (fun H => H)).
Defined.

(** X22. On a connection that reads [DECIMAL] columns as numbers, a POST
    /complete that names a session id and a customer, finds the session and
    generates an order number that no order has yet answers with that order
    number and with the email, the items and the total of the session, and
    hands the transport one confirmation for the customer; a transport that
    rejects it leaves the outbox as it was. *)
Theorem completion_confirms_the_order (cfg : D.DbConfig) (env : Env)
    (req : CompleteRequest) (w : World) (row : D.Session Q) :
  D.decimalNumbers cfg = true ->
  notEmpty (c_sessionId req) = true ->
  notEmpty (customerName req) = true ->
  D.checkout_sessions (db w) !! String_of (c_sessionId req) = Some row ->
  ~ In ("WXC-" ++ toUpperCase (String.substring 0 8 (uuidv4 env)))
       (map D.order_number (D.orders (db w))) ->
  let number := "WXC-" ++ toUpperCase (String.substring 0 8 (uuidv4 env)) in
  let completed := complete cfg env req w in
  (exists body,
     fst completed = Json body
     /\ success body = true
     /\ orderNumber body = number
     /\ ov_orderNumber (order body) = number
     /\ ov_email (order body) = D.email row
     /\ ov_total (order body) = D.AsNumber (D.total row)
     /\ ov_items (order body) = D.items row)
  /\ match sendMail env with
     | Resolves _ =>
         exists mail,
           outbox (snd completed) = (outbox w ++ [mail])%list
           /\ to mail = D.email row
           /\ subject mail = "Order Confirmation #" ++ number
     | Rejects _ => outbox (snd completed) = outbox w
     end.
Proof.
  intros Hd Hs Hn Hrow Hfresh. apply fresh_order_number in Hfresh.
  cbv zeta. destruct (complete cfg env req w) as [reply final] eqn:Run.
  simpl. revert Run.
  unfold complete, try_catch, validationResult.
  simpl filter. rewrite Hs, Hn. simpl.
  unfold bind at 1. unfold query. simpl.
  unfold D.select_session. rewrite Hrow. simpl.
  unfold bind at 1. unfold execute at 1.
  unfold D.insert_order. simpl D.order_number. rewrite Hfresh.
  unfold bind at 1.
  match goal with
  | |- context [updateInventory ?items ?w1] =>
      destruct (updateInventory_frame (R := Reply CompleteResponse) items w1)
        as [w2 [E [_ [_ [_ X]]]]];
      rewrite E
  end.
  simpl in X.
  unfold bind at 1. unfold update, execute. simpl.
  unfold D.decode. rewrite Hd.
  unfold bind, Email.sendOrderConfirmation, Email.toFixed, Email.sendEmail,
    bind, ret.
  simpl. destruct (sendMail env); intros Run; injection Run as <- <-; simpl.
  - split; [eexists; repeat split |].
    eexists. rewrite X. repeat split.
  - split; [eexists; repeat split | exact X].
Qed.

Lemma completion_confirms_the_order_witness :
  let completed :=
    complete {| D.decimalNumbers := true |}
      (Scenario.envAt Scenario.sunday Scenario.orderUuid (Resolves "m1"))
      Scenario.completeRequest Scenario.shopWithSession in
  (exists body,
     fst completed = Json body
     /\ success body = true
     /\ orderNumber body = "WXC-9B1D7E20"
     /\ ov_orderNumber (order body) = "WXC-9B1D7E20"
     /\ ov_email (order body) = "ann@example.com"
     /\ ov_total (order body) = D.AsNumber 70.34
     /\ ov_items (order body) = D.items Scenario.paidSession)
  /\ exists mail,
       outbox (snd completed) = [mail]
       /\ to mail = "ann@example.com"
       /\ subject mail = "Order Confirmation #WXC-9B1D7E20".
Proof.
  exact (completion_confirms_the_order {| D.decimalNumbers := true |}
           (Scenario.envAt Scenario.sunday Scenario.orderUuid (Resolves "m1"))
           Scenario.completeRequest Scenario.shopWithSession Scenario.paidSession
           eq_refl eq_refl eq_refl eq_refl (fun H => H)).
Defined.

Lemma completion_fails_on_decimal_strings_witness :
  exists e,
    fst (complete D.dbConfig
           (Scenario.envAt Scenario.sunday Scenario.orderUuid (Resolves "m1"))
           Scenario.completeRequest Scenario.shopWithSession)
    = Status 500 e.
Proof.
  exact (completion_fails_on_decimal_strings
           (Scenario.envAt Scenario.sunday Scenario.orderUuid (Resolves "m1"))
           Scenario.completeRequest Scenario.shopWithSession Scenario.paidSession
           eq_refl eq_refl eq_refl).
Defined.

End CompleteProperties.

(** ** Pricing a cart *)

Section CartProperties.

Import JS Spec Handler Checkout.
Local Open Scope string_scope.
Local Open Scope Q_scope.

(** A loop whose body leaves the world alone and keeps [P] between the
    items read so far and the accumulator, keeps both; it ends early only
    with a reply the body sends. *)
Lemma for_of_reads {R X A : Type} (P : list X -> A -> Prop) (Q : R -> Prop)
    (body : A -> X -> M R A) (w : World) :
  (forall seen acc x,
      P seen acc ->
      match body acc x w with
      | (Value acc', w') => w' = w /\ P (seen ++ [x])%list acc'
      | (Return r, w') => w' = w /\ Q r
      | (Throw _, _) => False
      end) ->
  forall xs seen acc,
    P seen acc ->
    match for_of xs acc body w with
    | (Value acc', w') => w' = w /\ P (seen ++ xs)%list acc'
    | (Return r, w') => w' = w /\ Q r
    | (Throw _, _) => False
    end.
Proof.
  intros H. induction xs as [| x xs IH]; intros seen acc HP; simpl.
  - unfold ret. split; [reflexivity |]. rewrite app_nil_r. exact HP.
  - unfold bind. specialize (H seen acc x HP).
    destruct (body acc x w) as [[acc' | r | e] w']; [| exact H | exact H].
    destruct H as [-> HP']. specialize (IH (seen ++ [x])%list acc' HP').
    rewrite <- app_assoc in IH. exact IH.
Qed.





Lemma price_read (cfg : D.DbConfig) (d : D.Database) (key : Z)
    (product : D.Product D.Decimal) :
  D.select_active_product cfg d key = Some product ->
  exists row, D.products d !! key = Some row
              /\ D.is_active row = true
              /\ product = D.read_product cfg row
              /\ D.Number (D.price product) = D.price row.
Proof.
  unfold D.select_active_product.
  destruct (D.products d !! key) as [row |]; [| discriminate].
  destruct (D.is_active row) eqn:A; [| discriminate].
  intros [= <-]. exists row.
  split; [reflexivity |]. split; [exact A |]. split; [reflexivity |].
  simpl. unfold D.decode. destruct (D.decimalNumbers cfg); reflexivity.
Qed.

(** ** Creating a checkout session *)

Lemma create_session_outcome (isEmail : string -> bool) (cfg : D.DbConfig)
    (env : Env) (req : SessionRequest) (w : World) :
  let created := create_session isEmail cfg env req w in
  outbox (snd created) = outbox w
  /\ match fst created with
     | Json body =>
         sessionId body = "cs_" ++ uuidv4 env
         /\ D.checkout_sessions (db w) !! sessionId body = None
         /\ D.products (db (snd created)) = D.products (db w)
         /\ D.orders (db (snd created)) = D.orders (db w)
         /\ Forall2 (orderLine (db w)) (s_items req) (sr_items body)
         /\ exists row,
              D.checkout_sessions (db (snd created))
              = <[sessionId body := row]> (D.checkout_sessions (db w))
              /\ D.session_id row = sessionId body
              /\ Some (D.email row) = s_email req
              /\ D.email row = email body
              /\ D.items row = sr_items body
              /\ Some (D.shipping_address row) = s_shippingAddress req
              /\ D.shipping_address row = shippingAddress body
     | _ => db (snd created) = db w
     end.
Proof.
  cbv zeta. destruct (create_session isEmail cfg env req w) as [answer final] eqn:Run.
  simpl fst. simpl snd. revert Run. unfold create_session, try_catch.
  destruct (s_email req) as [mail |], (s_shippingAddress req) as [address |];
    [| intros [= <- <-]; split; reflexivity ..].
  destruct (negb (isEmpty _)); [intros [= <- <-]; split; reflexivity |].
  unfold bind at 1.
  match goal with
  | |- context [for_of (s_items req) ?acc ?body w] =>
      pose proof (for_of_reads (R := Reply SessionResponse)
                    (fun seen '(_, _, items) =>
                       Forall2 (orderLine (db w)) seen items)
                    (fun r => forall b, r <> Json b)
                    body w) as L;
      specialize (fun H => L H (s_items req) [] acc);
      assert (Hbody : forall seen acc0 x,
                 (let '(_, _, items) := acc0 in
                  Forall2 (orderLine (db w)) seen items) ->
                 match body acc0 x w with
                 | (Value acc', w') =>
                     w' = w
                     /\ (let '(_, _, items) := acc' in
                         Forall2 (orderLine (db w)) (seen ++ [x])%list items)
                 | (Return r, w') => w' = w /\ (forall b, r <> Json b)
                 | (Throw _, _) => False
                 end);
      [| specialize (L Hbody (List.Forall2_nil (orderLine (db w))));
         destruct (for_of (s_items req) acc body w) as [[[[sub wt] its] | r | e] w'] ]
  end.
  { intros seen [[s t] v] x Hv. unfold bind, query. simpl.
    destruct (D.select_active_product cfg (db w) (productId x)) as [product |] eqn:E;
      simpl; [| split; [reflexivity | discriminate]].
    destruct (negb (D.is_digital product)
              && (D.inventory_count product <? quantity x)%Z) eqn:Stock;
      simpl; [split; [reflexivity | discriminate] |].
    split; [reflexivity |].
    apply price_read in E. destruct E as [row [Hrow [Hactive [-> Hprice]]]].
    apply Forall2_app; [exact Hv |]. constructor; [| constructor].
    exists row. simpl in *.
    repeat (split; [first [assumption | reflexivity] |]).
    intros Hd. rewrite Hd in Stock. simpl in Stock.
    apply Z.ltb_ge in Stock. exact Stock. }
  - destruct L as [-> Hlines].
    match goal with
    | |- context [S.calculate ?this ?clock ?p] =>
        set (shipping := S.calculate this clock p) in *; clearbody shipping
    end.
    match goal with
    | |- context [T.calculate ?this ?p] =>
        destruct (T.calculate this p) as [tax |]
    end.
    2: { unfold throw. simpl. intros [= <- <-]. split; reflexivity. }
    unfold bind, execute, D.insert_session. simpl D.session_id.
    destruct (D.checkout_sessions (db w) !! ("cs_" ++ uuidv4 env)) as [taken |] eqn:Free;
      [simpl; intros [= <- <-]; split; reflexivity |].
    unfold ret. simpl. intros [= <- <-]. simpl. split; [reflexivity |].
    split; [reflexivity |]. split; [exact Free |].
    split; [reflexivity |]. split; [reflexivity |]. split; [exact Hlines |].
    eexists. split; [reflexivity |]. simpl.
    repeat (split; [reflexivity |]). reflexivity.
  - destruct L as [-> Hr]. simpl. intros [= <- <-]. split; [reflexivity |].
    destruct r as [b | |]; [destruct (Hr b eq_refl) | reflexivity ..].
  - destruct L.
Qed.

(** X26. POST /create-session stores a session exactly when it answers with
    one: one row, under the id [cs_<uuid>] of the reply, which no session
    had, with the email and the address of the request and the items of the
    reply.  Every other answer leaves the database as it was, and no answer
    touches the catalog, the orders or the outbox. *)
Theorem create_session_stores_one_session (isEmail : string -> bool)
    (cfg : D.DbConfig) (env : Env) (req : SessionRequest) (w : World) :
  let created := create_session isEmail cfg env req w in
  outbox (snd created) = outbox w
  /\ match fst created with
     | Json body =>
         sessionId body = "cs_" ++ uuidv4 env
         /\ D.checkout_sessions (db w) !! sessionId body = None
         /\ D.products (db (snd created)) = D.products (db w)
         /\ D.orders (db (snd created)) = D.orders (db w)
         /\ exists row,
              D.checkout_sessions (db (snd created))
              = <[sessionId body := row]> (D.checkout_sessions (db w))
              /\ D.session_id row = sessionId body
              /\ Some (D.email row) = s_email req
              /\ D.items row = sr_items body
              /\ Some (D.shipping_address row) = s_shippingAddress req
     | _ => db (snd created) = db w
     end.
Proof.
  intros created.
  destruct (create_session_outcome isEmail cfg env req w) as [Hout H].
  fold created in Hout, H. split; [exact Hout |].
  destruct (fst created) as [body | |]; [| exact H ..].
  destruct H as (Hid & Hfree & Hp & Ho & _ & row & Hs & H1 & H2 & _ & H3 & H4 & _).
  repeat (split; [assumption |]).
  exists row. repeat (split; [assumption |]). assumption.
Qed.

(** X27. A session that is created lists the lines of the cart in their order,
    each for a product that is in the catalog and active, with the id,
    title, price and kind of the product and the quantity of the line; a
    line for a product that is not digital asks for no more than its stock.
    The stock is compared line by line. *)
Theorem session_items_are_the_cart_lines (isEmail : string -> bool)
    (cfg : D.DbConfig) (env : Env) (req : SessionRequest) (w : World) :
  match fst (create_session isEmail cfg env req w) with
  | Json body => Forall2 (orderLine (db w)) (s_items req) (sr_items body)
  | _ => True
  end.
Proof.
  destruct (create_session_outcome isEmail cfg env req w) as [_ H].
  destruct (fst (create_session isEmail cfg env req w)) as [body | |];
    [| exact I ..].
  destruct H as (_ & _ & _ & _ & H & _). exact H.
Qed.

End CartProperties.

(** ** From the quote to the order *)

Section PipelineProperties.

Import JS Spec Handler Checkout.
Local Open Scope string_scope.
Local Open Scope Q_scope.

(** X29. A POST /complete that names the session a POST /create-session has
    just answered with and a customer, and that generates an order number
    that no order has yet, consumes that session and adds one order: for
    the email and the items of the reply, with the subtotal, shipping cost,
    tax and total stored with the session. *)
Theorem order_is_for_the_session_created (isEmail : string -> bool)
    (cfg : D.DbConfig) (env later : Env) (w : World)
    (request : SessionRequest) (body : SessionResponse)
    (completion : CompleteRequest) :
  fst (create_session isEmail cfg env request w) = Json body ->
  c_sessionId completion = Some (sessionId body) ->
  notEmpty (customerName completion) = true ->
  ~ In ("WXC-" ++ toUpperCase (String.substring 0 8 (uuidv4 later)))
       (map D.order_number (D.orders (db w))) ->
  let created := snd (create_session isEmail cfg env request w) in
  let final := db (snd (complete cfg later completion created)) in
  D.checkout_sessions final !! sessionId body = None
  /\ exists row order,
       D.checkout_sessions (db created) !! sessionId body = Some row
       /\ D.orders final = (D.orders (db w) ++ [order])%list
       /\ D.customer_email order = email body
       /\ D.order_items order = sr_items body
       /\ D.order_subtotal order = D.subtotal row
       /\ D.order_shipping order = D.shipping_cost row
       /\ D.order_tax order = D.tax_amount row
       /\ D.order_total order = D.total row.
Proof.
  intros E Hid Hname Hfresh created final.
  destruct (create_session_outcome isEmail cfg env request w) as [_ H].
  rewrite E in H. fold created in H.
  destruct H as (Hcs & _ & _ & Ho & _ & row & Hs & _ & _ & H1 & H2 & _).
  assert (Hsid : notEmpty (c_sessionId completion) = true)
    by (rewrite Hid, Hcs; reflexivity).
  assert (Hrow : D.checkout_sessions (db created)
                 !! String_of (c_sessionId completion) = Some row)
    by (rewrite Hid, Hs; apply lookup_insert_eq).
  rewrite <- Ho in Hfresh.
  destruct (complete_database cfg later completion created row
              Hsid Hname Hrow Hfresh) as [S [[order O] _]].
  fold final in S, O. split.
  - rewrite S, Hid. apply lookup_delete_eq.
  - destruct O as (O1 & _ & O2 & _ & O3 & O4 & O5 & O6 & O7 & _).
    exists row, order. rewrite O1, Ho, O2, O3, O4, O5, O6, O7, H1, H2.
    rewrite Hid in Hrow. repeat split; first [exact Hrow | reflexivity].
Qed.

Lemma order_is_for_the_session_created_witness :
  let created :=
    create_session (fun _ => true) D.dbConfig
      (Scenario.envAt Scenario.sunday Scenario.sessionUuid (Resolves "m0"))
      Scenario.sessionRequest Scenario.shop in
  match fst created with
  | Json body =>
      let final :=
        db (snd (complete D.dbConfig
                   (Scenario.envAt (Scenario.sunday + 60000) Scenario.orderUuid
                      (Resolves "m1"))
                   {| c_sessionId := Some (sessionId body);
                      paymentIntentId := None;
                      customerName := Some "Ann";
                      phone := None |}
                   (snd created))) in
      D.checkout_sessions final !! sessionId body = None
      /\ exists row order,
           D.checkout_sessions (db (snd created)) !! sessionId body = Some row
           /\ D.orders final = [order]
           /\ D.customer_email order = email body
           /\ D.order_items order = sr_items body
           /\ D.order_subtotal order = D.subtotal row
           /\ D.order_shipping order = D.shipping_cost row
           /\ D.order_tax order = D.tax_amount row
           /\ D.order_total order = D.total row
  | _ => False
  end.
Proof.
  cbv zeta.
  destruct (fst (create_session (fun _ => true) D.dbConfig
                   (Scenario.envAt Scenario.sunday Scenario.sessionUuid
                      (Resolves "m0"))
                   Scenario.sessionRequest Scenario.shop))
    as [body | code e | errors] eqn:E.
  - exact (order_is_for_the_session_created (fun _ => true) D.dbConfig
             (Scenario.envAt Scenario.sunday Scenario.sessionUuid (Resolves "m0"))
             (Scenario.envAt (Scenario.sunday + 60000) Scenario.orderUuid
                (Resolves "m1"))
             Scenario.shop Scenario.sessionRequest body
             {| c_sessionId := Some (sessionId body); paymentIntentId := None;
                customerName := Some "Ann"; phone := None |}
             E eq_refl eq_refl (fun H => H)).
  - vm_compute in E. discriminate E.
  - vm_compute in E. discriminate E.
Defined.

Lemma validation_passes (checks : list (bool * string)) :
  isEmpty (validationResult checks) = forallb fst checks.
Proof.
  unfold validationResult.
  induction checks as [| [[] message] checks IH]; [reflexivity | exact IH | reflexivity].
Qed.

(** X30. POST /create-session charges what POST /calculate quotes: for the
    same cart, destination and method and the same clock reading and
    catalog, the quote has the subtotal, shipping cost, tax and total of
    the session. *)
Theorem session_charges_the_quote (isEmail : string -> bool) (cfg : D.DbConfig)
    (env : Env) (w : World) (request : SessionRequest) (address : D.Address)
    (body : SessionResponse) :
  fst (create_session isEmail cfg env request w) = Json body ->
  s_shippingAddress request = Some address ->
  notEmpty (D.country address) = true ->
  exists quote tax,
    fst (calculate cfg env
           {| items := s_items request;
              country := D.country address;
              state := D.state address;
              postalCode := D.postalCode address;
              shippingMethod := s_shippingMethod request |} w)
    = Json quote
    /\ r_subtotal quote = sr_subtotal body
    /\ cost (r_shipping quote) = ss_cost (sr_shipping body)
    /\ r_tax quote = Some tax
    /\ amount tax = st_amount (sr_tax body)
    /\ r_total quote = Some (sr_total body).
Proof.
  intros E Haddr Hcountry.
  unfold create_session, try_catch in E. rewrite Haddr in E.
  destruct (s_email request) as [mail |]; [| discriminate E].
  rewrite validation_passes in E. cbn [forallb fst] in E.
  destruct (1 <=? length (s_items request))%nat eqn:Hlen; [| discriminate E].
  destruct (from_option isEmail false (Some mail)); [| discriminate E].
  cbn [andb negb bool_decide decide_rel is_Some_dec] in E.
  unfold calculate, try_catch. rewrite validation_passes.
  cbn [forallb fst Checkout.items Checkout.country Checkout.state
       Checkout.postalCode Checkout.shippingMethod].
  rewrite Hlen, Hcountry. cbn [andb negb].
  unfold bind at 1 in E. unfold bind at 1.
  match type of E with
  | context [for_of _ _ ?session w] =>
      match goal with
      | |- context [for_of _ _ ?quote w] =>
          assert (L : forall lines s t o v,
                     match for_of lines (s, t, o) session w with
                     | (Value (s', t', _), _) =>
                         exists v',
                           for_of lines (s, t, v) quote w = (Value (s', t', v'), w)
                     | (Return r, _) => forall b, r <> Json b
                     | (Throw _, _) => True
                     end)
      end
  end.
  { induction lines as [| line lines IH]; intros s t o v; simpl.
    - exists v. reflexivity.
    - unfold bind, query. simpl.
      destruct (D.select_active_product cfg (db w) (productId line)) as [product |];
        simpl; [| discriminate].
      destruct (negb (D.is_digital product)
                && (D.inventory_count product <? quantity line)%Z); simpl;
        [discriminate |].
      apply IH. }
  specialize (L (s_items request) 0 0 [] []).
  destruct (for_of (s_items request) (0, 0, []) _ w) as [[[[sub wt] its] | r | e] w'].
  - destruct L as [v' ->].
    match type of E with
    | context [T.calculate ?this ?p] => destruct (T.calculate this p) as [tax |]
    end; [| discriminate E].
    unfold bind, execute in E.
    destruct (D.insert_session _ _); [| discriminate E].
    injection E as <-. eexists. eexists.
    split; [reflexivity |]. cbn. repeat split; reflexivity.
  - destruct (L body E).
  - discriminate E.
Qed.

Lemma session_charges_the_quote_witness :
  match
    fst (create_session (fun _ => true) D.dbConfig
           (Scenario.envAt Scenario.sunday Scenario.sessionUuid (Resolves "m0"))
           Scenario.sessionRequest Scenario.shop)
  with
  | Json body =>
      exists quote tax,
        fst (calculate D.dbConfig
               (Scenario.envAt Scenario.sunday Scenario.sessionUuid (Resolves "m0"))
               {| items := Scenario.cart;
                  country := Some "US";
                  state := Some "CA";
                  postalCode := Some "90001";
                  shippingMethod := Some "standard" |} Scenario.shop)
        = Json quote
        /\ r_subtotal quote = sr_subtotal body
        /\ cost (r_shipping quote) = ss_cost (sr_shipping body)
        /\ r_tax quote = Some tax
        /\ amount tax = st_amount (sr_tax body)
        /\ r_total quote = Some (sr_total body)
  | _ => False
  end.
Proof.
  destruct (fst (create_session (fun _ => true) D.dbConfig
                   (Scenario.envAt Scenario.sunday Scenario.sessionUuid
                      (Resolves "m0"))
                   Scenario.sessionRequest Scenario.shop))
    as [body | code e | errors] eqn:E.
  - exact (session_charges_the_quote (fun _ => true) D.dbConfig
             (Scenario.envAt Scenario.sunday Scenario.sessionUuid (Resolves "m0"))
             Scenario.shop Scenario.sessionRequest Scenario.address body
             E eq_refl eq_refl).
  - vm_compute in E. discriminate E.
  - vm_compute in E. discriminate E.
Defined.

End PipelineProperties.

(** ** Binary64 arithmetic *)

Section DoubleProperties.

Import Spec.










End DoubleProperties.

(** ** The tax calculator in binary64 *)

Section TaxProperties64.

Import JS Spec TaxCalculator64.
Local Open Scope string_scope.


(** [calculate] yields a result for every country that does not name a
    member inherited from [Object.prototype]. *)
Lemma calculate_returns_numbers (this : TaxCalculator.TaxCalculator) (p : Params) :
  existsb (String.eqb (String_of (p_country p))) Object_prototype = false ->
  exists r, calculate this p = Some r.
Proof.
  intros Hk. unfold calculate. cbv zeta.
  destruct (negb (TaxCalculator.is_taxable _)); [eauto |].
  destruct (equals (p_country p) "US").
  { unfold calculateUSTax.
    destruct (_ && _); [eauto |].
    unfold rate_or_0. rewrite get_upper.
    destruct (own TaxCalculator.US_STATE_TAX_RATES _);
      [destruct (Double.eqb _ Double.zero) |]; eauto. }
  destruct (equals (p_country p) "CA").
  { unfold calculateCanadianTax, rate_or_0. rewrite get_upper.
    destruct (own TaxCalculator.CANADIAN_PROVINCIAL_TAX _); eauto. }
  destruct (has_vat_rate _); [| eauto].
  unfold calculateVAT, rate_or_0, get. rewrite Hk.
  destruct (own TaxCalculator.INTERNATIONAL_VAT_RATES _);
    [destruct (Double.eqb _ Double.zero) |]; eauto.
Qed.




(** The rates of the two tables as binary64 numbers: [rate || 0] is the
    rate, which is zero exactly when its literal is. *)
Lemma state_rate_as_number (key : string) (r : Q) :
  own TaxCalculator.US_STATE_TAX_RATES key = Some r ->
  Double.or_else (Double.of_Q r) Double.zero = Double.of_Q r
  /\ Double.eqb (Double.of_Q r) Double.zero = Qeq_bool r 0.
Proof.
  intros H. apply own_In in H. simpl in H.
  repeat destruct H as [H | H]; try contradiction;
    injection H as _ <-; vm_compute; split; reflexivity.
Qed.

Lemma provincial_rate_as_number (key : string) (r : Q) :
  own TaxCalculator.CANADIAN_PROVINCIAL_TAX key = Some r ->
  Double.or_else (Double.of_Q r) Double.zero = Double.of_Q r
  /\ Double.gt (Double.of_Q r) Double.zero = negb (Qeq_bool r 0).
Proof.
  intros H. apply own_In in H. simpl in H.
  repeat destruct H as [H | H]; try contradiction;
    injection H as _ <-; vm_compute; split; reflexivity.
Qed.

(** The part of C3 that the code meets: which amount is taxed, at which
    rate, and the states without a sales tax. *)
Lemma us_sales_tax_as_computed (this : TaxCalculator.TaxCalculator) (p : Params) :
  TaxCalculator.nexusStates this = [] ->
  p_country p = Some "US" ->
  taxableCategory (p_category p) = true ->
  let code := toUpperCase_opt (p_state p) in
  let shipping := default Double.zero (p_shipping p) in
  exists r,
    calculate this p = Some r
    /\ (forall rate, stateRate code = Some rate -> ~ (rate == 0)%Q ->
          taxAmount r
          = roundCents
              (Double.mul
                 (if includes TaxCalculator.statesTaxingShipping code
                  then Double.add (p_subtotal p) shipping
                  else p_subtotal p)
                 (Double.of_Q rate)))
    /\ (includes noSalesTaxStates code = true -> taxAmount r = Double.zero).
Proof.
  intros Hn Hc Ht code shipping. unfold taxableCategory in Ht.
  unfold calculate. cbv zeta. rewrite Ht, Hc. simpl negb. simpl equals.
  cbv iota. unfold calculateUSTax. rewrite Hn. simpl length.
  change (0 <? 0)%nat with false. simpl andb. cbv iota.
  fold code. fold shipping.
  unfold rate_or_0. unfold code at 1. rewrite get_upper. fold code.
  unfold stateRate.
  destruct (own TaxCalculator.US_STATE_TAX_RATES (String_of code)) as [rate0 |] eqn:E.
  - destruct (state_rate_as_number _ _ E) as [O Z]. rewrite O, Z.
    destruct (Qeq_bool rate0 0) eqn:Q0.
    + eexists. split; [reflexivity |]. split.
      * intros rate [= <-] Hnz. exfalso. apply Hnz, Qeq_bool_iff, Q0.
      * intros _. reflexivity.
    + eexists. split; [reflexivity |]. split.
      * intros rate [= <-] _. cbn [taxAmount]. reflexivity.
      * intros Hi. exfalso.
        apply includes_In in Hi as [s [Hs Hin]]. rewrite Hs in E.
        simpl in Hin.
        repeat destruct Hin as [Hin | Hin]; try contradiction; subst s;
          vm_compute in E; injection E as <-; vm_compute in Q0; discriminate.
  - eexists. split; [reflexivity |]. split.
    + intros rate Hr. discriminate.
    + intros _. reflexivity.
Qed.

(** C3. Two tees of 35 dollars to California: 7.25% of 70 is 5.075, which
    the specification rounds to 5.08 for a total of 81.07 with 5.99 of
    shipping.  In binary64 the product [70 * 0.0725 * 100] is
    507.49999999999994, [Math.round] makes it 507, and the code charges
    5.07 and a total of 81.06. *)
Theorem us_sales_tax_misses_a_cent :
  exists r line,
    calculate TaxCalculator.taxCalculator
      {| p_subtotal := Double.of_Q 70; p_country := Some "US";
         p_state := Some "CA"; p_postalCode := Some "90001"; p_category := None;
         p_shipping := Some (Double.of_Q 5.99) |}
    = Some r
    /\ taxableAmount r = Double.of_Q 70
    /\ taxRate r = Double.of_Q 0.0725
    /\ Double.to_Q (Double.mul (Double.mul (taxableAmount r) (taxRate r))
                      (Double.of_Z 100))
       = Some (8928034417541119 # 17592186044416)
    /\ (8928034417541119 # 17592186044416 < 507.5)%Q
    /\ taxAmount r = Double.of_Q 5.07
    /\ breakdown r = [line]
    /\ amount line = Double.of_Q 5.07
    /\ total r = Double.of_Q 81.06
    /\ (round2 (70 * 0.0725) == 5.08)%Q
    /\ Double.of_Q 5.07 <> Double.of_Q 5.08.
Proof.
  eexists. eexists. split; [reflexivity |].
  repeat (split; [vm_compute; reflexivity |]).
  intros H. vm_compute in H. discriminate.
Qed.

(** The part of C4 that the code meets: the two amounts, each rounded on
    its own, the GST line, and the provincial line with its label. *)
Lemma canadian_tax_as_computed (this : TaxCalculator.TaxCalculator) (p : Params) :
  p_country p = Some "CA" ->
  taxableCategory (p_category p) = true ->
  let code := toUpperCase_opt (p_state p) in
  let taxable := Double.add (p_subtotal p) (default Double.zero (p_shipping p)) in
  let provincial := Double.of_Q (provincialRate code) in
  exists r gst,
    calculate this p = Some r
    /\ taxAmount r
       = Double.add (roundCents (Double.mul taxable (Double.of_Q 0.05)))
           (roundCents (Double.mul taxable provincial))
    /\ name gst = "GST"
    /\ rate gst = Double.of_Q 0.05
    /\ amount gst = roundCents (Double.mul taxable (Double.of_Q 0.05))
    /\ (((provincialRate code == 0)%Q /\ breakdown r = [gst])
        \/ (~ (provincialRate code == 0)%Q
            /\ exists pst,
                 breakdown r = [gst; pst]
                 /\ name pst = provincialLabel code
                 /\ rate pst = provincial
                 /\ amount pst = roundCents (Double.mul taxable provincial))).
Proof.
  intros Hc Ht code taxable provincial. unfold taxableCategory in Ht.
  unfold calculate. cbv zeta. rewrite Ht, Hc. simpl negb. simpl equals.
  cbv iota. unfold calculateCanadianTax, rate_or_0. rewrite get_upper.
  fold code. fold taxable. unfold provincial, provincialRate.
  destruct (own TaxCalculator.CANADIAN_PROVINCIAL_TAX (String_of code))
    as [rate0 |] eqn:E; cbn [default from_option].
  - destruct (provincial_rate_as_number _ _ E) as [O G]. rewrite O, G.
    eexists.
    exists {| name := "GST"; rate := Double.of_Q 0.05;
              amount := roundCents (Double.mul taxable (Double.of_Q 0.05)) |}.
    split; [reflexivity |]. cbn [taxAmount breakdown app name rate amount].
    split; [reflexivity |].
    destruct (Qeq_bool rate0 0) eqn:Q0; cbn [negb].
    + split; [reflexivity |]. split; [reflexivity |]. split; [reflexivity |].
      left. split; [apply Qeq_bool_iff, Q0 | reflexivity].
    + split; [reflexivity |]. split; [reflexivity |]. split; [reflexivity |].
      right. split; [intros Hz; change (rate0 == 0)%Q in Hz; apply Qeq_bool_iff in Hz;
                    rewrite Q0 in Hz; discriminate Hz |].
      eexists. split; [reflexivity |]. repeat split.
  - eexists.
    exists {| name := "GST"; rate := Double.of_Q 0.05;
              amount := roundCents (Double.mul taxable (Double.of_Q 0.05)) |}.
    split; [reflexivity |]. cbn [taxAmount breakdown app name rate amount].
    split; [reflexivity |].
    split; [reflexivity |]. split; [reflexivity |]. split; [reflexivity |].
    left. split; reflexivity.
Qed.

(** C4. A taxable amount of 2.75 to Saskatchewan: the GST is 0.1375 and
    the PST, at 6%, 0.165; the specification rounds them to 0.14 and 0.17
    and charges 0.31.  In binary64 [2.75 * 0.06 * 100] is
    16.499999999999996, the PST line reads 0.16, and the sum of the two
    lines, 0.14 + 0.16, is 0.30000000000000004, which is not a number of
    cents. *)
Theorem canadian_tax_misses_a_cent :
  exists r gst pst,
    calculate TaxCalculator.taxCalculator
      {| p_subtotal := Double.of_Q 2.75; p_country := Some "CA";
         p_state := Some "SK"; p_postalCode := None; p_category := None;
         p_shipping := None |}
    = Some r
    /\ breakdown r = [gst; pst]
    /\ name gst = "GST" /\ amount gst = Double.of_Q 0.14
    /\ name pst = "PST" /\ amount pst = Double.of_Q 0.16
    /\ taxAmount r = Double.add (Double.of_Q 0.14) (Double.of_Q 0.16)
    /\ Double.to_Q (taxAmount r) = Some (5404319552844596 # 18014398509481984)
    /\ taxAmount r <> Double.of_Q 0.30
    /\ taxAmount r <> Double.of_Q 0.31
    /\ (round2 (2.75 * 0.05) == 0.14)%Q
    /\ (round2 (2.75 * 0.06) == 0.17)%Q
    /\ (round2 (2.75 * 0.05) + round2 (2.75 * 0.06) == 0.31)%Q.
Proof.
  eexists. eexists. eexists. split; [reflexivity |].
  split; [reflexivity |].
  repeat (split; [vm_compute; reflexivity |]).
  split; [intros H; vm_compute in H; discriminate |].
  split; [intros H; vm_compute in H; discriminate |].
  repeat split; reflexivity.
Qed.




(** Belgian VAT of 21% on 21.50 is 4.515 and is charged 4.51. *)
Lemma vat_misses_a_cent :
  exists r,
    calculate TaxCalculator.taxCalculator
      {| p_subtotal := Double.of_Q 21.50; p_country := Some "BE";
         p_state := None; p_postalCode := None; p_category := None;
         p_shipping := None |}
    = Some r
    /\ taxAmount r = Double.of_Q 4.51
    /\ (round2 (21.50 * 0.21) == 4.52)%Q.
Proof. eexists. split; [reflexivity |]. split; vm_compute; reflexivity. Qed.

End TaxProperties64.

(** ** The shipping calculator in binary64 *)

Section ShippingProperties64.

Import JS Spec ShippingCalculator64.
Local Open Scope string_scope.



(** When free shipping is on, the designated method is [standard] for
    every country. *)
Lemma free_method_is_standard (this : ShippingCalculator) (country : option string)
    (subtotal : Double.double) (m : option string) (method : string) :
  eligible (checkFreeShipping this country subtotal m)
  && bool_decide (Some method = freeMethod (checkFreeShipping this country subtotal m))
  = eligible (checkFreeShipping this country subtotal m)
    && String.eqb method "standard".
Proof.
  unfold checkFreeShipping.
  destruct (freeShippingEnabled this); cbn [negb eligible freeMethod];
    [| reflexivity].
  f_equal.
  unfold S.FREE_SHIPPING_US_method, S.FREE_SHIPPING_international_method.
  destruct (equals country "US");
    destruct (String.eqb_spec method "standard") as [-> | N];
    try reflexivity; apply bool_decide_eq_false; congruence.
Qed.



(** The rounding of a total, as the code computes it, can miss the cent:
    an express parcel of 1.25 lb to Texas sums to 17.115 and is quoted
    17.11. *)
Lemma express_quote_misses_a_cent :
  let q := calculate shippingCalculator
             {| Date.now := 1793562123456; Date.utcOffset := 0 |}
             {| p_country := Some "US"; p_state := Some "TX";
                p_weight := Some (Double.of_Q 1.25);
                p_subtotal := Some Double.zero;
                p_method := Some "express" |} in
  baseRate q = Double.of_Q 16.99
  /\ weightSurcharge q = Double.of_Q 0.125
  /\ total q = Double.of_Q 17.11
  /\ (round2 (16.99 + 0.125 + 0) == 17.12)%Q.
Proof. cbv zeta. repeat split; vm_compute; reflexivity. Qed.

(** X10. Free shipping concerns the standard method only: the total, the
    base rate and the weight surcharge quoted for any other method do not
    depend on the subtotal of the order. *)
Theorem only_standard_depends_on_the_subtotal (this : ShippingCalculator)
    (clock : Date.Clock) (country state : option string)
    (weight : option Double.double) (method : string)
    (subtotal subtotal' : option Double.double) :
  method <> "standard" ->
  let quote subtotal :=
    calculate this clock
      {| p_country := country; p_state := state; p_weight := weight;
         p_subtotal := subtotal; p_method := Some method |} in
  total (quote subtotal) = total (quote subtotal')
  /\ baseRate (quote subtotal) = baseRate (quote subtotal')
  /\ weightSurcharge (quote subtotal) = weightSurcharge (quote subtotal').
Proof.
  intros H quote. apply String.eqb_neq in H.
  split; [| split; reflexivity].
  unfold quote, calculate. cbv zeta. cbn [total p_method p_subtotal p_country].
  change (default "standard" (Some method)) with method.
  rewrite !free_method_is_standard. rewrite H, !andb_false_r. reflexivity.
Qed.

Lemma only_standard_depends_on_the_subtotal_witness :
  let quote subtotal :=
    calculate shippingCalculator
      {| Date.now := 1793562123456; Date.utcOffset := 0 |}
      {| p_country := Some "US"; p_state := Some "NY"; p_weight := None;
         p_subtotal := subtotal; p_method := Some "express" |} in
  total (quote (Some (Double.of_Q 20))) = total (quote (Some (Double.of_Q 500)))
  /\ baseRate (quote (Some (Double.of_Q 20)))
     = baseRate (quote (Some (Double.of_Q 500)))
  /\ weightSurcharge (quote (Some (Double.of_Q 20)))
     = weightSurcharge (quote (Some (Double.of_Q 500))).
Proof.
  refine (only_standard_depends_on_the_subtotal shippingCalculator
            {| Date.now := 1793562123456; Date.utcOffset := 0 |}
            (Some "US") (Some "NY") None "express"
            (Some (Double.of_Q 20)) (Some (Double.of_Q 500)) _).
  discriminate.
Defined.

End ShippingProperties64.
